(** * CliniMatch: the trial matching pipeline

  A shallow embedding of the matching and translation pipeline of the
  CliniMatch backend.  One module per Python module:

    - [user_profile], [trial_match]: the data classes of [backend/models];
    - [clinical_trials_service]: the data classes and the interface of the
      registry client;
    - [gemini_translation_service]: the translation service;
    - [database]: the interface of the cache service;
    - [trial_matching_service]: cache key, filter, worker pool, assembler.

  Python strings are modelled as [string] (code points below 128; a
  character outside that range is left untouched by [lower], [upper] and
  [strip]).  Calls on the collaborating services are recorded in a call
  trace, the way the test-suite counts calls on mocks; exceptions are
  explicit; the completion order of the thread pool is an input. *)

From Stdlib Require Import String Ascii List Bool Arith ZArith QArith Lia.
From Stdlib Require Import Permutation Sorting Mergesort Orders.
From Stdlib Require Import Lqa DecimalString.
Import ListNotations.

Local Open Scope string_scope.
Local Open Scope nat_scope.
Local Open Scope list_scope.

(* ===================================================================== *)
(** ** Python string primitives *)
(* ===================================================================== *)

Module PyStr.

Definition is_ascii_upper (c : ascii) : bool :=
  (65 <=? nat_of_ascii c) && (nat_of_ascii c <=? 90).

Definition is_ascii_lower (c : ascii) : bool :=
  (97 <=? nat_of_ascii c) && (nat_of_ascii c <=? 122).

Definition lower_char (c : ascii) : ascii :=
  if is_ascii_upper c then ascii_of_nat (nat_of_ascii c + 32) else c.

Definition upper_char (c : ascii) : ascii :=
  if is_ascii_lower c then ascii_of_nat (nat_of_ascii c - 32) else c.

(** [str.lower()] *)
Fixpoint lower (s : string) : string :=
  match s with
  | EmptyString => EmptyString
  | String c s' => String (lower_char c) (lower s')
  end.

(** [str.upper()] *)
Fixpoint upper (s : string) : string :=
  match s with
  | EmptyString => EmptyString
  | String c s' => String (upper_char c) (upper s')
  end.

(** The characters [str.strip()] removes: TAB, LF, VT, FF, CR, the four
    separators FS, GS, RS, US, and the space. *)
Definition is_space (c : ascii) : bool :=
  let n := nat_of_ascii c in
  ((9 <=? n) && (n <=? 13)) || ((28 <=? n) && (n <=? 31)) || (n =? 32).

Fixpoint lstrip (s : string) : string :=
  match s with
  | EmptyString => EmptyString
  | String c s' => if is_space c then lstrip s' else s
  end.

Fixpoint rstrip (s : string) : string :=
  match s with
  | EmptyString => EmptyString
  | String c s' =>
      match rstrip s' with
      | EmptyString => if is_space c then EmptyString else String c EmptyString
      | r => String c r
      end
  end.

(** [str.strip()] *)
Definition strip (s : string) : string := rstrip (lstrip s).

(** [needle in s] on two strings. *)
Fixpoint contains (needle s : string) : bool :=
  prefix needle s ||
  match s with
  | EmptyString => false
  | String _ s' => contains needle s'
  end.

(** [s[:n]] *)
Definition take (n : nat) (s : string) : string := substring 0 n s.

(** Truthiness of a string: [if s]. *)
Definition truthy (s : string) : bool :=
  match s with EmptyString => false | _ => true end.

(** [a or b] on two strings. *)
Definition py_or (a b : string) : string := if truthy a then a else b.

(** [x in [s1, ..., sn]] for a list of strings. *)
Definition in_list (x : string) (l : list string) : bool :=
  existsb (String.eqb x) l.

End PyStr.

(* ===================================================================== *)
(** ** Run-time: JSON values, exceptions, collaborator calls *)
(* ===================================================================== *)

Module Py.

(** A value decoded by [json.loads]. *)
#[local] Unset Elimination Schemes.
Inductive json :=
| JNull
| JBool (b : bool)
| JNum (z : Z)
| JStr (s : string)
| JArr (items : list json)
| JObj (fields : list (string * json)).
#[local] Set Elimination Schemes.

(** [key in d] and [d.get(key)] on a decoded JSON object. *)
Fixpoint dict_get (key : string) (fields : list (string * json)) : option json :=
  match fields with
  | [] => None
  | (k, v) :: rest => if String.eqb k key then Some v else dict_get key rest
  end.

Definition dict_has (key : string) (fields : list (string * json)) : bool :=
  match dict_get key fields with Some _ => true | None => false end.

(** Exceptions.  [Exception] stands for every exception that is not a
    [TrialMatchingError] (TypeError, ClinicalTrialsAPIError, ...); the
    second carries the [message] and [error_type] attributes of
    [trial_matching_service.TrialMatchingError]. *)
Inductive exn :=
| Exception (msg : string)
| TrialMatchingError (message : string) (error_type : string).

(** [str(e)] *)
Definition str (e : exn) : string :=
  match e with
  | Exception msg => msg
  | TrialMatchingError message _ => message
  end.

(** The [error_type] a caller reads off a raised exception. *)
Definition error_type_of (e : exn) : option string :=
  match e with
  | Exception _ => None
  | TrialMatchingError _ ty => Some ty
  end.

(** Calls on the collaborating services, as a mock would count them. *)
Inductive Call :=
| Call_get_cached_trials
| Call_cache_trials
| Call_search_trials
| Call_translate_with_fallback (title : string)
| Call_create_fallback_translation (title : string).

Definition Trace := list Call.

(** Computations that may raise and that append to the call trace. *)
Definition M (A : Type) : Type := Trace -> Trace * (exn + A).

Definition ret {A} (a : A) : M A := fun tr => (tr, inr a).

Definition bind {A B} (m : M A) (f : A -> M B) : M B :=
  fun tr =>
    match m tr with
    | (tr', inl e) => (tr', inl e)
    | (tr', inr a) => f a tr'
    end.

Definition raise {A} (e : exn) : M A := fun tr => (tr, inl e).

(** [try: body  except Exception as e: handler(e)] *)
Definition try_except {A} (body : M A) (handler : exn -> M A) : M A :=
  fun tr =>
    match body tr with
    | (tr', inl e) => handler e tr'
    | r => r
    end.

Definition call (c : Call) : M unit := fun tr => (tr ++ [c], inr tt).

(** Lift the outcome of a collaborator. *)
Definition lift {A} (r : exn + A) : M A := fun tr => (tr, r).

(** [needle in v]: substring test on a string, membership on a list, key
    test on a dict, TypeError on anything else. *)
Definition py_in (needle : string) (v : json) : exn + bool :=
  match v with
  | JStr s => inr (PyStr.contains needle s)
  | JArr items =>
      inr (existsb (fun x => match x with
                             | JStr s => String.eqb s needle
                             | _ => false
                             end) items)
  | JObj fields => inr (dict_has needle fields)
  | _ => inl (Exception "argument of this type is not iterable")
  end.

End Py.

Declare Scope py_scope.
Delimit Scope py_scope with py.
Notation "x <- m ;; k" := (Py.bind m (fun x => k))
  (at level 61, m at next level, right associativity) : py_scope.
Notation "m ;;; k" := (Py.bind m (fun _ => k))
  (at level 61, right associativity) : py_scope.

(* ===================================================================== *)
(** ** models/user_profile.py *)
(* ===================================================================== *)

Module user_profile.

Record LocationData := {
  city : string;
  state : string;
  country : string;
  zip_code : option string
}.

Inductive Drinking := never | occasional | regular.

Record LifestyleData := {
  smoking : bool;
  drinking : Drinking
}.

Record UserProfile := {
  age : Z;
  conditions : list string;
  medications : list string;
  location : LocationData;
  lifestyle : LifestyleData
}.

(** The dictionary built by [UserProfile.get_search_params]. *)
Record SearchParams := {
  sp_conditions : list string;
  sp_city : string;
  sp_state : string;
  sp_country : string;
  sp_age : Z
}.

Definition get_search_params (self : UserProfile) : SearchParams :=
  {| sp_conditions := conditions self;
     sp_city := city (location self);
     sp_state := state (location self);
     sp_country := country (location self);
     sp_age := age self |}.

End user_profile.

(* ===================================================================== *)
(** ** services/clinical_trials_service.py (data classes and interface) *)
(* ===================================================================== *)

Module clinical_trials_service.

(** [coordinates] is never filled in by the registry parser; it is kept as
    an optional pair of numbers. *)
Record TrialLocation := {
  facility : string;
  city : string;
  state : string;
  country : string;
  zip_code : option string;
  coordinates : option (Z * Z)
}.

Record ContactInfo := {
  name : option string;
  phone : option string;
  email : option string
}.

Record RawTrialData := {
  nct_id : string;
  title : string;
  brief_summary : string;
  detailed_description : string;
  eligibility_criteria : string;
  inclusion_criteria : list string;
  exclusion_criteria : list string;
  locations : list TrialLocation;
  contact_info : ContactInfo;
  study_type : string;
  phase : option string;
  status : string;
  start_date : option string;
  completion_date : option string;
  sponsor : string;
  conditions : list string;
  interventions : list string
}.

(** Dataclass equality ([==], which [in] uses on lists) is field-wise. *)
Definition option_string_dec (a b : option string) : {a = b} + {a <> b}.
Proof. decide equality; apply string_dec. Defined.

Definition TrialLocation_eq_dec (a b : TrialLocation) : {a = b} + {a <> b}.
Proof.
  decide equality;
    try apply option_string_dec; try apply string_dec.
  decide equality. decide equality; apply Z.eq_dec.
Defined.

Definition ContactInfo_eq_dec (a b : ContactInfo) : {a = b} + {a <> b}.
Proof. decide equality; apply option_string_dec. Defined.

Definition RawTrialData_eq_dec (a b : RawTrialData) : {a = b} + {a <> b}.
Proof.
  decide equality;
    try apply option_string_dec; try apply string_dec;
    try (apply list_eq_dec; apply string_dec).
  - apply ContactInfo_eq_dec.
  - apply list_eq_dec; apply TrialLocation_eq_dec.
Defined.

(** [trial in trials] *)
Definition trial_in (t : RawTrialData) (l : list RawTrialData) : bool :=
  if in_dec RawTrialData_eq_dec t l then true else false.

(** The registry client as the matching service sees it: [search_trials]
    either raises or returns the parsed trials (HTTP, retries and parsing
    happen behind this interface). *)
Record ClinicalTrialsService := {
  search_trials :
    list string -> string * string * string -> Z -> nat ->
    Py.exn + list RawTrialData
}.

End clinical_trials_service.

(* ===================================================================== *)
(** ** models/trial_match.py *)
(* ===================================================================== *)

Module trial_match.

Record TrialLocation := {
  facility : string;
  city : string;
  state : string;
  country : string;
  zip_code : option string;
  coordinates : option (Z * Z)
}.

Record ContactInfo := {
  name : option string;
  phone : option string;
  email : option string
}.

(** [ContactInfo()] *)
Definition ContactInfo_default : ContactInfo :=
  {| name := None; phone := None; email := None |}.

(** The attributes of a [TrialMatch] object.  The plain-language fields
    hold whatever the translation delivered (a decoded JSON value);
    [conditions], [interventions] and [contact_info] default to [None]. *)
Record TrialMatch := {
  nct_id : string;
  title : string;
  original_description : string;
  simplified_description : Py.json;
  locations : list TrialLocation;
  eligibility_criteria : string;
  eligibility_simplified : Py.json;
  compensation : option string;
  compensation_explanation : Py.json;
  time_commitment : Py.json;
  key_benefits : Py.json;
  contact_info : option ContactInfo;
  study_type : string;
  phase : option string;
  status : string;
  sponsor : string;
  conditions : option (list string);
  interventions : option (list string)
}.

(** Attribute assignment, [self.conditions = v] and the like. *)
Definition set_conditions (v : option (list string)) (self : TrialMatch) : TrialMatch :=
  {| nct_id := nct_id self; title := title self;
     original_description := original_description self;
     simplified_description := simplified_description self;
     locations := locations self;
     eligibility_criteria := eligibility_criteria self;
     eligibility_simplified := eligibility_simplified self;
     compensation := compensation self;
     compensation_explanation := compensation_explanation self;
     time_commitment := time_commitment self;
     key_benefits := key_benefits self;
     contact_info := contact_info self;
     study_type := study_type self; phase := phase self;
     status := status self; sponsor := sponsor self;
     conditions := v;
     interventions := interventions self |}.

Definition set_interventions (v : option (list string)) (self : TrialMatch) : TrialMatch :=
  {| nct_id := nct_id self; title := title self;
     original_description := original_description self;
     simplified_description := simplified_description self;
     locations := locations self;
     eligibility_criteria := eligibility_criteria self;
     eligibility_simplified := eligibility_simplified self;
     compensation := compensation self;
     compensation_explanation := compensation_explanation self;
     time_commitment := time_commitment self;
     key_benefits := key_benefits self;
     contact_info := contact_info self;
     study_type := study_type self; phase := phase self;
     status := status self; sponsor := sponsor self;
     conditions := conditions self;
     interventions := v |}.

Definition set_contact_info (v : option ContactInfo) (self : TrialMatch) : TrialMatch :=
  {| nct_id := nct_id self; title := title self;
     original_description := original_description self;
     simplified_description := simplified_description self;
     locations := locations self;
     eligibility_criteria := eligibility_criteria self;
     eligibility_simplified := eligibility_simplified self;
     compensation := compensation self;
     compensation_explanation := compensation_explanation self;
     time_commitment := time_commitment self;
     key_benefits := key_benefits self;
     contact_info := v;
     study_type := study_type self; phase := phase self;
     status := status self; sponsor := sponsor self;
     conditions := conditions self;
     interventions := interventions self |}.

(** [TrialMatch.__post_init__] *)
Definition __post_init__ (self : TrialMatch) : TrialMatch :=
  let self :=
    match conditions self with
    | None => set_conditions (Some []) self
    | Some _ => self
    end in
  let self :=
    match interventions self with
    | None => set_interventions (Some []) self
    | Some _ => self
    end in
  match contact_info self with
  | None => set_contact_info (Some ContactInfo_default) self
  | Some _ => self
  end.

(** The constructor generated by [@dataclass]: store the arguments, then
    run [__post_init__].  Every [TrialMatch(...)] in the code base is this
    function. *)
Definition new_TrialMatch (fields : TrialMatch) : TrialMatch :=
  __post_init__ fields.

(** *** Serialisation *)

(** An optional string as a JSON value: [None] is [null]. *)
Definition json_of_option (o : option string) : Py.json :=
  match o with Some s => Py.JStr s | None => Py.JNull end.

Definition json_of_strings (o : option (list string)) : Py.json :=
  match o with Some l => Py.JArr (map Py.JStr l) | None => Py.JNull end.

(** [TrialLocation.to_dict] *)
Definition TrialLocation_to_dict (self : TrialLocation) : list (string * Py.json) :=
  [("facility", Py.JStr (facility self));
   ("city", Py.JStr (city self));
   ("state", Py.JStr (state self));
   ("country", Py.JStr (country self));
   ("zip_code", json_of_option (zip_code self));
   ("coordinates",
    match coordinates self with
    | Some (a, b) => Py.JArr [Py.JNum a; Py.JNum b]
    | None => Py.JNull
    end)].

(** [ContactInfo.to_dict] *)
Definition ContactInfo_to_dict (self : ContactInfo) : list (string * Py.json) :=
  [("name", json_of_option (name self));
   ("phone", json_of_option (phone self));
   ("email", json_of_option (email self))].

(** [TrialMatch.to_dict] *)
Definition to_dict (self : TrialMatch) : list (string * Py.json) :=
  [("nctId", Py.JStr (nct_id self));
   ("title", Py.JStr (title self));
   ("originalDescription", Py.JStr (original_description self));
   ("simplifiedDescription", simplified_description self);
   ("locations",
    Py.JArr (map (fun loc => Py.JObj (TrialLocation_to_dict loc)) (locations self)));
   ("eligibilityCriteria", Py.JStr (eligibility_criteria self));
   ("eligibilitySimplified", eligibility_simplified self);
   ("compensation", json_of_option (compensation self));
   ("compensationExplanation", compensation_explanation self);
   ("timeCommitment", time_commitment self);
   ("keyBenefits", key_benefits self);
   ("contactInfo",
    match contact_info self with
    | Some c => Py.JObj (ContactInfo_to_dict c)
    | None => Py.JNull
    end);
   ("studyType", Py.JStr (study_type self));
   ("phase", json_of_option (phase self));
   ("status", Py.JStr (status self));
   ("sponsor", Py.JStr (sponsor self));
   ("conditions", json_of_strings (conditions self));
   ("interventions", json_of_strings (interventions self))].

(** [processing_time] (wall-clock seconds) is not part of the model. *)
Record MatchingResult := {
  matches : list TrialMatch;
  total_found : nat;
  search_params : user_profile.SearchParams;
  cached : bool;
  ai_translation_success_rate : Q
}.

End trial_match.

(* ===================================================================== *)
(** ** services/gemini_translation_service.py *)
(* ===================================================================== *)

Module gemini_translation_service.

Import Py.
Local Open Scope py_scope.

Record TrialTranslation := {
  simplified_description : json;
  eligibility_simplified : json;
  time_commitment : json;
  key_benefits : json;
  compensation_explanation : json
}.

(** What [self.model.generate_content(prompt, ...)] followed by the
    clean-up of the text and [json.loads] comes to.  The prompt is a
    function of title, criteria, description and compensation. *)
Inductive ModelResponse :=
| ResponseRaises (msg : string)   (* the API call raises *)
| ResponseEmpty                   (* [not response.text] *)
| ResponseNotJson                 (* JSONDecodeError *)
| ResponseJson (v : json).        (* the decoded value *)

Record GeminiTranslationService := {
  model : string -> string -> string -> option string -> ModelResponse
}.

Definition required_fields : list string :=
  ["simplifiedDescription"; "eligibilitySimplified";
   "timeCommitment"; "keyBenefits"].

(** [translate_trial_info]: every exception is caught and turned into
    [None].  A decoded value that is not an object never gets past the
    field validation and the subscripting. *)
Definition translate_trial_info (self : GeminiTranslationService)
    (title criteria description : string) (compensation : option string)
  : option TrialTranslation :=
  match model self title criteria description compensation with
  | ResponseRaises _ => None
  | ResponseEmpty => None
  | ResponseNotJson => None
  | ResponseJson (JObj translation_data) =>
      if forallb (fun field => dict_has field translation_data) required_fields
      then
        match dict_get "simplifiedDescription" translation_data,
              dict_get "eligibilitySimplified" translation_data,
              dict_get "timeCommitment" translation_data,
              dict_get "keyBenefits" translation_data with
        | Some sd, Some es, Some tc, Some kb =>
            Some {| simplified_description := sd;
                    eligibility_simplified := es;
                    time_commitment := tc;
                    key_benefits := kb;
                    compensation_explanation :=
                      match dict_get "compensationExplanation" translation_data with
                      | Some ce => ce
                      | None => JNull
                      end |}
        | _, _, _, _ => None
        end
      else None
  | ResponseJson _ => None
  end.

Definition fallback_time_commitment : string :=
  "Time commitment information not available. Please contact the study team for details.".

Definition fallback_key_benefits : string :=
  "Benefits information not available. Please contact the study team for details.".

(** The value [create_fallback_translation] returns. *)
Definition fallback_translation
    (title criteria description : string) (compensation : option string)
  : TrialTranslation :=
  {|   simplified_description :=
           JStr (if 200 <? String.length description
                 then ("This study is titled '" ++ title ++ "'. "
                         ++ PyStr.take 200 description ++ "...")%string
                 else description);
         eligibility_simplified :=
           JStr (if 150 <? String.length criteria
                 then ("Please review the detailed eligibility criteria: "
                         ++ PyStr.take 150 criteria ++ "...")%string
                 else criteria);
         time_commitment := JStr fallback_time_commitment;
         key_benefits := JStr fallback_key_benefits;
         compensation_explanation :=
           JStr (match compensation with
                 | Some c => if PyStr.truthy c then c
                             else "Compensation information not available."
                 | None => "Compensation information not available."
                 end) |}.

(** [create_fallback_translation] *)
Definition create_fallback_translation (self : GeminiTranslationService)
    (title criteria description : string) (compensation : option string)
  : M TrialTranslation :=
  call (Call_create_fallback_translation title) ;;;
  ret (fallback_translation title criteria description compensation).

(** [translate_with_fallback] *)
Definition translate_with_fallback (self : GeminiTranslationService)
    (title criteria description : string) (compensation : option string)
  : M TrialTranslation :=
  call (Call_translate_with_fallback title) ;;;
  match translate_trial_info self title criteria description compensation with
  | Some translation => ret translation
  | None => create_fallback_translation self title criteria description compensation
  end.

(** [health_check].  [test_response] stands for the outcome of the probe
    [self.model.generate_content(...)]: an exception or the text of the
    response. *)
Definition health_check (self : GeminiTranslationService)
    (test_response : exn + string) : list (string * json) :=
  match test_response with
  | inr text =>
      if PyStr.truthy text && PyStr.contains "healthy" text
      then [("status", JStr "healthy"); ("api_accessible", JBool true);
            ("model", JStr "gemini-pro")]
      else [("status", JStr "unhealthy"); ("api_accessible", JBool true);
            ("error", JStr "Unexpected response format")]
  | inl e =>
      [("status", JStr "unhealthy"); ("api_accessible", JBool false);
       ("error", JStr (str e))]
  end.

End gemini_translation_service.

(* ===================================================================== *)
(** ** utils/database.py (interface of the cache service) *)
(* ===================================================================== *)

Module database.

(** What [get_cached_trials] hands back on a hit: a ready
    [MatchingResult] object, or the cached dictionary (its matches given
    as the constructor arguments that
    [_convert_cached_match_to_model_format] produces). *)
Inductive CachedData :=
| CachedObject (result : trial_match.MatchingResult)
| CachedDict (matches : list trial_match.TrialMatch) (total_found : nat)
             (ai_translation_success_rate : option Q).

Record CacheService := {
  get_cached_trials : user_profile.SearchParams -> Py.exn + option CachedData
}.

End database.

(* ===================================================================== *)
(** ** Library functions used by the matching service *)
(* ===================================================================== *)

(** [sorted] on a list of strings: a stable merge sort on the code-point
    order. *)
Module StringOrder <: TotalLeBool.
Definition t := string.
Definition leb := String.leb.
Definition leb_total : forall a b, leb a b = true \/ leb b a = true :=
  String.leb_total.
End StringOrder.

Module StringSort := Sort StringOrder.

Module Json.

Definition dquote : string := String "034"%char EmptyString.

Definition hex_digit (n : nat) : ascii :=
  if n <? 10 then ascii_of_nat (48 + n) else ascii_of_nat (87 + n).

(** One character of a string literal of [json.dumps] (ensure_ascii). *)
Definition escape_char (c : ascii) : string :=
  let n := nat_of_ascii c in
  if n =? 34 then ("\" ++ dquote)%string
  else if n =? 92 then "\\"
  else if n =? 10 then "\n"
  else if n =? 13 then "\r"
  else if n =? 9 then "\t"
  else if n =? 8 then "\b"
  else if n =? 12 then "\f"
  else if (32 <=? n) && (n <=? 126) then String c EmptyString
  else ("\u00" ++ String (hex_digit (n / 16))
                    (String (hex_digit (n mod 16)) EmptyString))%string.

Fixpoint escape (s : string) : string :=
  match s with
  | EmptyString => EmptyString
  | String c s' => (escape_char c ++ escape s')%string
  end.

Definition dumps_str (s : string) : string :=
  (dquote ++ escape s ++ dquote)%string.

Fixpoint join (sep : string) (l : list string) : string :=
  match l with
  | [] => EmptyString
  | [x] => x
  | x :: rest => (x ++ sep ++ join sep rest)%string
  end.

Definition dumps_str_list (l : list string) : string :=
  ("[" ++ join ", " (map dumps_str l) ++ "]")%string.

End Json.

(* ===================================================================== *)
(** ** services/trial_matching_service.py *)
(* ===================================================================== *)

Module trial_matching_service.

Import Py.
Local Open Scope py_scope.

Module UP := user_profile.
Module CT := clinical_trials_service.
Module TM := trial_match.
Module GS := gemini_translation_service.
Module DB := database.

Record TrialMatchingService := {
  clinical_trials_service : CT.ClinicalTrialsService;
  gemini_service : GS.GeminiTranslationService;
  cache_service : DB.CacheService;
  max_results : nat;
  cache_ttl_hours : nat;
  max_translation_workers : nat
}.

(** [TrialMatchingService.__init__] *)
Definition __init__ (clinical : CT.ClinicalTrialsService)
    (gemini : GS.GeminiTranslationService) (cache : DB.CacheService)
  : TrialMatchingService :=
  {| clinical_trials_service := clinical;
     gemini_service := gemini;
     cache_service := cache;
     max_results := 100;
     cache_ttl_hours := 24;
     max_translation_workers := 5 |}.

(** *** Cache key *)

(** [_get_age_range] *)
Definition _get_age_range (age : Z) : string :=
  if (age <? 18)%Z then "under_18"
  else if (age <? 30)%Z then "18_29"
  else if (age <? 50)%Z then "30_49"
  else if (age <? 65)%Z then "50_64"
  else "65_plus".

(** The normalised [search_params] dictionary of [generate_search_key]. *)
Record KeyParams := {
  kp_conditions : list string;
  kp_city : string;
  kp_state : string;
  kp_country : string;
  kp_age_range : string;
  kp_version : string
}.

Definition normalized_search_params (user_profile : UP.UserProfile) : KeyParams :=
  {| kp_conditions :=
       StringSort.sort
         (map (fun condition => PyStr.strip (PyStr.lower condition))
              (UP.conditions user_profile));
     kp_city := PyStr.strip (PyStr.lower (UP.city (UP.location user_profile)));
     kp_state := PyStr.strip (PyStr.lower (UP.state (UP.location user_profile)));
     kp_country := PyStr.strip (PyStr.lower (UP.country (UP.location user_profile)));
     kp_age_range := _get_age_range (UP.age user_profile);
     kp_version := "1.0" |}.

(** [json.dumps(search_params, sort_keys=True)] on that dictionary. *)
Definition dumps_search_params (p : KeyParams) : string :=
  ("{" ++ Json.dumps_str "age_range" ++ ": " ++ Json.dumps_str (kp_age_range p)
   ++ ", " ++ Json.dumps_str "conditions" ++ ": "
   ++ Json.dumps_str_list (kp_conditions p)
   ++ ", " ++ Json.dumps_str "location" ++ ": {"
   ++ Json.dumps_str "city" ++ ": " ++ Json.dumps_str (kp_city p)
   ++ ", " ++ Json.dumps_str "country" ++ ": " ++ Json.dumps_str (kp_country p)
   ++ ", " ++ Json.dumps_str "state" ++ ": " ++ Json.dumps_str (kp_state p)
   ++ "}, " ++ Json.dumps_str "version" ++ ": " ++ Json.dumps_str (kp_version p)
   ++ "}")%string.

Section WithDigest.

(** [hashlib.md5(s.encode()).hexdigest()] *)
Variable md5_hexdigest : string -> string.

(** [generate_search_key] *)
Definition generate_search_key (user_profile : UP.UserProfile) : string :=
  let search_params := normalized_search_params user_profile in
  let search_string := dumps_search_params search_params in
  md5_hexdigest search_string.

End WithDigest.

(** *** Eligibility and relevance filter *)

Definition finished_statuses : list string :=
  ["completed"; "terminated"; "withdrawn"].

(** [trial.status.lower() in ['completed', 'terminated', 'withdrawn']] *)
Definition is_finished (trial : CT.RawTrialData) : bool :=
  PyStr.in_list (PyStr.lower (CT.status trial)) finished_statuses.

(** The inner loop over [trial_locations]: returns
    [(has_local_location, has_nearby_location)].  A local hit leaves the
    loop ([break]). *)
Fixpoint scan_locations (user_state : string)
    (trial_locations : list CT.TrialLocation) (has_nearby_location : bool)
  : bool * bool :=
  match trial_locations with
  | [] => (false, has_nearby_location)
  | loc :: rest =>
      if PyStr.truthy (CT.state loc) then
        let state := PyStr.upper (CT.state loc) in
        if String.eqb state user_state then (true, has_nearby_location)
        else if PyStr.in_list user_state ["NY"; "NJ"; "CT"]
                && PyStr.in_list state ["NY"; "NJ"; "CT"; "PA"; "MA"]
        then scan_locations user_state rest true
        else if PyStr.in_list user_state ["CA"; "NV"; "OR"]
                && PyStr.in_list state ["CA"; "NV"; "OR"; "WA"; "AZ"]
        then scan_locations user_state rest true
        else if PyStr.in_list user_state ["TX"; "LA"; "OK"]
                && PyStr.in_list state ["TX"; "LA"; "OK"; "AR"; "NM"]
        then scan_locations user_state rest true
        else if PyStr.in_list user_state ["FL"; "GA"; "AL"]
                && PyStr.in_list state ["FL"; "GA"; "AL"; "SC"; "NC"]
        then scan_locations user_state rest true
        else scan_locations user_state rest has_nearby_location
      else scan_locations user_state rest has_nearby_location
  end.

(** The four priority lists the first loop fills. *)
Record Buckets := {
  local_trials : list CT.RawTrialData;
  nearby_trials : list CT.RawTrialData;
  recruiting_trials : list CT.RawTrialData;
  active_trials : list CT.RawTrialData
}.

Definition empty_buckets : Buckets :=
  {| local_trials := []; nearby_trials := [];
     recruiting_trials := []; active_trials := [] |}.

(** One iteration of [for trial in raw_trials]. *)
Definition categorize (user_state : string) (b : Buckets) (trial : CT.RawTrialData)
  : Buckets :=
  if is_finished trial then b
  else
    let '(has_local_location, has_nearby_location) :=
      scan_locations user_state (CT.locations trial) false in
    if has_local_location then
      {| local_trials := local_trials b ++ [trial];
         nearby_trials := nearby_trials b;
         recruiting_trials := recruiting_trials b;
         active_trials := active_trials b |}
    else if has_nearby_location then
      {| local_trials := local_trials b;
         nearby_trials := nearby_trials b ++ [trial];
         recruiting_trials := recruiting_trials b;
         active_trials := active_trials b |}
    else if PyStr.in_list (PyStr.lower (CT.status trial))
              ["recruiting"; "not yet recruiting"] then
      {| local_trials := local_trials b;
         nearby_trials := nearby_trials b;
         recruiting_trials := recruiting_trials b ++ [trial];
         active_trials := active_trials b |}
    else if PyStr.in_list (PyStr.lower (CT.status trial))
              ["active, not recruiting"; "enrolling by invitation"] then
      {| local_trials := local_trials b;
         nearby_trials := nearby_trials b;
         recruiting_trials := recruiting_trials b;
         active_trials := active_trials b ++ [trial] |}
    else b.

(** [user_state] as computed at the top of [_filter_trials]. *)
Definition user_state_of (user_profile : UP.UserProfile) : string :=
  if PyStr.truthy (UP.state (UP.location user_profile))
  then PyStr.upper (UP.state (UP.location user_profile))
  else "".

(** [filtered_trials] right before the "still not enough" test: all local
    trials, then the capped nearby, recruiting and active lists. *)
Definition bucketed_trials (raw_trials : list CT.RawTrialData)
    (user_profile : UP.UserProfile) : list CT.RawTrialData :=
  let b := fold_left (categorize (user_state_of user_profile)) raw_trials
                     empty_buckets in
  local_trials b ++ firstn 20 (nearby_trials b)
    ++ firstn 30 (recruiting_trials b) ++ firstn 15 (active_trials b).

(** [remaining_trials] of the backfill loop. *)
Definition remaining_trials (raw_trials filtered_trials : list CT.RawTrialData)
  : list CT.RawTrialData :=
  filter (fun trial => negb (CT.trial_in trial filtered_trials)
                       && negb (is_finished trial))
         raw_trials.

(** [_filter_trials] *)
Definition _filter_trials (raw_trials : list CT.RawTrialData)
    (user_profile : UP.UserProfile) : list CT.RawTrialData :=
  let filtered_trials := bucketed_trials raw_trials user_profile in
  if length filtered_trials <? 10 then
    filtered_trials ++ firstn 15 (remaining_trials raw_trials filtered_trials)
  else filtered_trials.

(** *** Translation worker pool *)

Definition convert_location (loc : CT.TrialLocation) : TM.TrialLocation :=
  {| TM.facility := CT.facility loc;
     TM.city := CT.city loc;
     TM.state := CT.state loc;
     TM.country := CT.country loc;
     TM.zip_code := CT.zip_code loc;
     TM.coordinates := CT.coordinates loc |}.

Definition convert_contact_info (c : CT.ContactInfo) : TM.ContactInfo :=
  {| TM.name := CT.name c; TM.phone := CT.phone c; TM.email := CT.email c |}.

(** The [TrialMatch(...)] call shared by [_process_single_trial] and
    [_create_fallback_match]: the structural fields of the raw trial merged
    with a translation. *)
Definition build_match (raw_trial : CT.RawTrialData)
    (translation : GS.TrialTranslation) : TM.TrialMatch :=
  TM.new_TrialMatch
    {| TM.nct_id := CT.nct_id raw_trial;
       TM.title := CT.title raw_trial;
       TM.original_description :=
         PyStr.py_or (CT.brief_summary raw_trial) (CT.detailed_description raw_trial);
       TM.simplified_description := GS.simplified_description translation;
       TM.locations := map convert_location (CT.locations raw_trial);
       TM.eligibility_criteria := CT.eligibility_criteria raw_trial;
       TM.eligibility_simplified := GS.eligibility_simplified translation;
       TM.compensation := None;
       TM.compensation_explanation := GS.compensation_explanation translation;
       TM.time_commitment := GS.time_commitment translation;
       TM.key_benefits := GS.key_benefits translation;
       TM.contact_info := Some (convert_contact_info (CT.contact_info raw_trial));
       TM.study_type := CT.study_type raw_trial;
       TM.phase := CT.phase raw_trial;
       TM.status := CT.status raw_trial;
       TM.sponsor := CT.sponsor raw_trial;
       TM.conditions := Some (CT.conditions raw_trial);
       TM.interventions := Some (CT.interventions raw_trial) |}.

(** [_create_fallback_match] *)
Definition _create_fallback_match (self : TrialMatchingService)
    (raw_trial : CT.RawTrialData) : M TM.TrialMatch :=
  fallback_translation <-
    GS.create_fallback_translation (gemini_service self)
      (CT.title raw_trial) (CT.eligibility_criteria raw_trial)
      (PyStr.py_or (CT.brief_summary raw_trial) (CT.detailed_description raw_trial))
      None ;;
  ret (build_match raw_trial fallback_translation).

Definition eligibility_marker : string :=
  "Please review the detailed eligibility criteria".

Definition time_commitment_marker : string :=
  "Time commitment information not available".

(** [not (m1 in t.eligibility_simplified or m2 in t.time_commitment)];
    [or] evaluates its second operand only when the first is false. *)
Definition translation_success_of (translation : GS.TrialTranslation)
  : exn + bool :=
  match py_in eligibility_marker (GS.eligibility_simplified translation) with
  | inl e => inl e
  | inr true => inr false
  | inr false =>
      match py_in time_commitment_marker (GS.time_commitment translation) with
      | inl e => inl e
      | inr in_time => inr (negb in_time)
      end
  end.

(** [_process_single_trial] *)
Definition _process_single_trial (self : TrialMatchingService)
    (raw_trial : CT.RawTrialData) : M (TM.TrialMatch * bool) :=
  try_except
    (translation <-
       GS.translate_with_fallback (gemini_service self)
         (CT.title raw_trial) (CT.eligibility_criteria raw_trial)
         (PyStr.py_or (CT.brief_summary raw_trial) (CT.detailed_description raw_trial))
         None ;;
     translation_success <- lift (translation_success_of translation) ;;
     ret (build_match raw_trial translation, translation_success))
    (fun e =>
       fallback_match <- _create_fallback_match self raw_trial ;;
       ret (fallback_match, false)).

(** [concurrent.futures.as_completed]: the submitted futures in the order
    in which they finish.  The schedule says, step by step, which of the
    futures still pending finishes next; once it runs out the rest finish
    in submission order.  Every completion order is some schedule. *)
Fixpoint as_completed {A : Type} (schedule : list nat) (pending : list A) : list A :=
  match schedule with
  | [] => pending
  | k :: schedule' =>
      match pending with
      | [] => []
      | first :: _ =>
          let i := k mod length pending in
          nth i pending first
            :: as_completed schedule' (firstn i pending ++ skipn (S i) pending)
      end
  end.

(** The collecting loop [for future in as_completed(future_to_trial)],
    threading [processed_matches] and [successful_translations]. *)
Fixpoint collect_results (self : TrialMatchingService)
    (completed : list (M (TM.TrialMatch * bool) * CT.RawTrialData))
    (processed_matches : list TM.TrialMatch) (successful_translations : nat)
  : M (list TM.TrialMatch * nat) :=
  match completed with
  | [] => ret (processed_matches, successful_translations)
  | (future, trial) :: rest =>
      state <-
        try_except
          (result <- future ;;
           let '(processed_match, translation_success) := result in
           ret (processed_matches ++ [processed_match],
                if translation_success : bool
                then S successful_translations
                else successful_translations))
          (fun e =>
             fallback_match <- _create_fallback_match self trial ;;
             ret (processed_matches ++ [fallback_match], successful_translations)) ;;
      collect_results self rest (fst state) (snd state)
  end.

(** [successful_translations / len(raw_trials) if raw_trials else 0.0],
    as an exact rational. *)
Definition success_rate (successful_translations : nat)
    (raw_trials : list CT.RawTrialData) : Q :=
  match raw_trials with
  | [] => 0
  | _ => Z.of_nat successful_translations # Pos.of_nat (length raw_trials)
  end.

(** [_process_trials_with_ai] *)
Definition _process_trials_with_ai (self : TrialMatchingService)
    (schedule : list nat) (raw_trials : list CT.RawTrialData)
  : M (list TM.TrialMatch * Q) :=
  let future_to_trial :=
    map (fun trial => (_process_single_trial self trial, trial)) raw_trials in
  state <- collect_results self (as_completed schedule future_to_trial) [] 0 ;;
  let '(processed_matches, successful_translations) := state in
  ret (processed_matches, success_rate successful_translations raw_trials).

(** *** Match assembler *)

(** [_get_cached_results] *)
Definition _get_cached_results (self : TrialMatchingService)
    (user_profile : UP.UserProfile) : M (option DB.CachedData) :=
  try_except
    (let search_params := UP.get_search_params user_profile in
     call Call_get_cached_trials ;;;
     cached_data <- lift (DB.get_cached_trials (cache_service self) search_params) ;;
     match cached_data with
     | Some d => ret (Some d)
     | None => ret None
     end)
    (fun e => ret None).

(** [_search_trials] *)
Definition _search_trials (self : TrialMatchingService)
    (user_profile : UP.UserProfile) : M (list CT.RawTrialData) :=
  try_except
    (let search_params := UP.get_search_params user_profile in
     call Call_search_trials ;;;
     raw_trials <-
       lift (CT.search_trials (clinical_trials_service self)
               (UP.sp_conditions search_params)
               (UP.sp_city search_params, UP.sp_state search_params,
                UP.sp_country search_params)
               (UP.sp_age search_params)
               (max_results self)) ;;
     ret raw_trials)
    (fun e =>
       raise (TrialMatchingError
                ("Failed to search clinical trials: " ++ str e)%string
                "API_ERROR")).

Section WithDigest.

Variable md5_hexdigest : string -> string.

(** [find_matching_trials].  The cache lookup is commented out in the
    source: [cached_data = None  # self._get_cached_results(user_profile)],
    and so is the cache write at the end. *)
Definition find_matching_trials (self : TrialMatchingService)
    (schedule : list nat) (user_profile : UP.UserProfile)
  : M TM.MatchingResult :=
  try_except
    (let search_key := generate_search_key md5_hexdigest user_profile in
     let cached_data : option DB.CachedData := None in
     match cached_data with
     | Some (DB.CachedObject result) => ret result
     | Some (DB.CachedDict cached_matches cached_total cached_rate) =>
         ret {| TM.matches := map TM.new_TrialMatch cached_matches;
                TM.total_found := cached_total;
                TM.search_params := UP.get_search_params user_profile;
                TM.cached := true;
                TM.ai_translation_success_rate :=
                  match cached_rate with Some r => r | None => 0 end |}
     | None =>
         raw_trials <- _search_trials self user_profile ;;
         match raw_trials with
         | [] =>
             ret {| TM.matches := [];
                    TM.total_found := 0;
                    TM.search_params := UP.get_search_params user_profile;
                    TM.cached := false;
                    TM.ai_translation_success_rate := 0 |}
         | _ =>
             let filtered_trials := _filter_trials raw_trials user_profile in
             processed <- _process_trials_with_ai self schedule filtered_trials ;;
             let '(processed_matches, ai_success_rate) := processed in
             ret {| TM.matches := processed_matches;
                    TM.total_found := length processed_matches;
                    TM.search_params := UP.get_search_params user_profile;
                    TM.cached := false;
                    TM.ai_translation_success_rate := ai_success_rate |}
         end
     end)
    (fun e =>
       raise (TrialMatchingError
                ("Failed to find matching trials: " ++ str e)%string
                "MATCHING_ERROR")).

End WithDigest.


(** *** Cached matches *)

(** [d[key] = value] on a dictionary kept in insertion order. *)
Fixpoint dict_set (key : string) (value : json) (d : list (string * json))
  : list (string * json) :=
  match d with
  | [] => [(key, value)]
  | (k, v) :: rest =>
      if String.eqb k key then (key, value) :: rest
      else (k, v) :: dict_set key value rest
  end.

(** [d.get(key, default)] *)
Definition dict_get_default (key : string) (default : json)
    (d : list (string * json)) : json :=
  match dict_get key d with Some v => v | None => default end.

(** Truth value of a decoded JSON value. *)
Definition json_truthy (v : json) : bool :=
  match v with
  | JNull => false
  | JBool b => b
  | JNum z => negb (z =? 0)%Z
  | JStr s => PyStr.truthy s
  | JArr items => match items with [] => false | _ => true end
  | JObj fields => match fields with [] => false | _ => true end
  end.

Fixpoint chars_of (s : string) : list json :=
  match s with
  | EmptyString => []
  | String c s' => JStr (String c EmptyString) :: chars_of s'
  end.

(** [tuple(v)]; a tuple is written as an array. *)
Definition py_tuple (v : json) : exn + json :=
  match v with
  | JArr items => inr (JArr items)
  | JStr s => inr (JArr (chars_of s))
  | JObj fields => inr (JArr (map (fun kv => JStr (fst kv)) fields))
  | _ => inl (Exception "object is not iterable")
  end.

Definition field_mapping : list (string * string) :=
  [("nctId", "nct_id");
   ("originalDescription", "original_description");
   ("simplifiedDescription", "simplified_description");
   ("eligibilityCriteria", "eligibility_criteria");
   ("eligibilitySimplified", "eligibility_simplified");
   ("compensationExplanation", "compensation_explanation");
   ("timeCommitment", "time_commitment");
   ("keyBenefits", "key_benefits");
   ("contactInfo", "contact_info");
   ("studyType", "study_type")].

(** [field_mapping.get(key, key)] *)
Fixpoint mapped_key (key : string) (mapping : list (string * string)) : string :=
  match mapping with
  | [] => key
  | (camel, snake) :: rest =>
      if String.eqb camel key then snake else mapped_key key rest
  end.

(** One dictionary of the list comprehension over the cached locations;
    [loc.get] needs [loc] to be a dictionary. *)
Definition convert_cached_location (loc : json) : exn + json :=
  match loc with
  | JObj fields =>
      match (if json_truthy (dict_get_default "coordinates" JNull fields)
             then py_tuple (dict_get_default "coordinates" (JArr []) fields)
             else inr JNull) with
      | inl e => inl e
      | inr coordinates =>
          inr (JObj [("facility", dict_get_default "facility" (JStr "") fields);
                     ("city", dict_get_default "city" (JStr "") fields);
                     ("state", dict_get_default "state" (JStr "") fields);
                     ("country", dict_get_default "country" (JStr "") fields);
                     ("zip_code", dict_get_default "zipCode" JNull fields);
                     ("coordinates", coordinates)])
      end
  | _ => inl (Exception "object has no attribute 'get'")
  end.

Fixpoint convert_cached_locations (locs : list json) : exn + list json :=
  match locs with
  | [] => inr []
  | loc :: rest =>
      match convert_cached_location loc with
      | inl e => inl e
      | inr converted =>
          match convert_cached_locations rest with
          | inl e => inl e
          | inr converted_rest => inr (converted :: converted_rest)
          end
      end
  end.

(** The loop [for key, value in cached_data.items()]. *)
Fixpoint convert_items (items converted_data : list (string * json))
  : exn + list (string * json) :=
  match items with
  | [] => inr converted_data
  | (key, value) :: rest =>
      let new_key := mapped_key key field_mapping in
      let new_value :=
        match String.eqb key "locations", value with
        | true, JArr locs =>
            match convert_cached_locations locs with
            | inl e => inl e
            | inr converted => inr (JArr converted)
            end
        | _, _ =>
            match String.eqb key "contactInfo", value with
            | true, JObj contact =>
                inr (JObj [("name", dict_get_default "name" JNull contact);
                           ("phone", dict_get_default "phone" JNull contact);
                           ("email", dict_get_default "email" JNull contact)])
            | _, _ => inr value
            end
        end in
      match new_value with
      | inl e => inl e
      | inr v => convert_items rest (dict_set new_key v converted_data)
      end
  end.

(** [_convert_cached_match_to_model_format] *)
Definition _convert_cached_match_to_model_format
    (cached_data : list (string * json)) : exn + list (string * json) :=
  convert_items cached_data [].

(** *** Single trial and health *)

(** [get_trial_by_id].  [get_trial_by_nct_id] stands for the method of
    the registry client it calls: that method raises, reports the trial
    absent, or returns it. *)
Definition get_trial_by_id (self : TrialMatchingService)
    (get_trial_by_nct_id : string -> exn + option CT.RawTrialData)
    (nct_id : string) : M (option TM.TrialMatch) :=
  try_except
    (raw_trial <- lift (get_trial_by_nct_id nct_id) ;;
     match raw_trial with
     | None => ret None
     | Some raw_trial =>
         processed <- _process_single_trial self raw_trial ;;
         let '(processed_match, _) := processed in
         ret (Some processed_match)
     end)
    (fun e =>
       raise (TrialMatchingError
                ("Failed to retrieve trial " ++ nct_id ++ ": " ++ str e)%string
                "MATCHING_ERROR")).

(** The dictionary [health_check] returns, without its timestamp. *)
Record HealthStatus := {
  hs_status : string;
  hs_services : list (string * json);
  hs_unhealthy_services : option (list string);
  hs_error : option string
}.

(** [[name for name, service in services.items()
      if service.get('status') != 'healthy']] *)
Fixpoint unhealthy_names (services : list (string * json)) : exn + list string :=
  match services with
  | [] => inr []
  | (name, service) :: rest =>
      match service with
      | JObj fields =>
          match unhealthy_names rest with
          | inl e => inl e
          | inr names =>
              match dict_get "status" fields with
              | Some (JStr status) =>
                  if String.eqb status "healthy" then inr names
                  else inr (name :: names)
              | _ => inr (name :: names)
              end
          end
      | _ => inl (Exception "object has no attribute 'get'")
      end
  end.

(** [health_check].  [gemini_health] and [cache_stats] stand for the
    outcomes of [self.gemini_service.health_check()] and
    [self.cache_service.get_cache_stats()]. *)
Definition health_check (self : TrialMatchingService)
    (gemini_health cache_stats : exn + json) : HealthStatus :=
  let clinical_trials_api :=
    ("clinical_trials_api",
     JObj [("status", JStr "healthy"); ("accessible", JBool true)]) in
  let failed services e :=
    {| hs_status := "unhealthy"; hs_services := services;
       hs_unhealthy_services := None; hs_error := Some (str e) |} in
  match gemini_health with
  | inl e => failed [clinical_trials_api] e
  | inr gemini =>
      let with_gemini := [clinical_trials_api; ("gemini_ai", gemini)] in
      match cache_stats with
      | inl e => failed with_gemini e
      | inr stats =>
          match py_in "error" stats with
          | inl e => failed with_gemini e
          | inr has_error =>
              let services :=
                with_gemini ++
                [("cache",
                  JObj [("status",
                         JStr (if has_error then "unhealthy" else "healthy"));
                        ("stats", stats)])] in
              match unhealthy_names services with
              | inl e => failed services e
              | inr [] =>
                  {| hs_status := "healthy"; hs_services := services;
                     hs_unhealthy_services := None; hs_error := None |}
              | inr names =>
                  {| hs_status := "degraded"; hs_services := services;
                     hs_unhealthy_services := Some names; hs_error := None |}
              end
          end
      end
  end.

End trial_matching_service.

(* ===================================================================== *)
(** ** api/routes.py (pagination of the match endpoint) *)
(* ===================================================================== *)

Module routes.

(** [l[start:stop]] for arbitrary integers: a negative index counts from
    the end, and both ends are clamped to the list. *)
Definition py_slice {A : Type} (l : list A) (start stop : Z) : list A :=
  let n := Z.of_nat (length l) in
  let clamp i := if (i <? 0)%Z then Z.max (i + n) 0 else Z.min i n in
  let s := clamp start in
  let e := clamp stop in
  firstn (Z.to_nat (e - s)) (skipn (Z.to_nat s) l).

(** The ['pagination'] dictionary of the response. *)
Record Pagination := {
  pg_page : Z;
  pg_limit : Z;
  pg_total : Z;
  pg_total_pages : Z;
  pg_has_next : bool;
  pg_has_prev : bool
}.

(** The pagination block of [match_trials]: the slice of the matches put
    into the response and the pagination dictionary.  The floor division
    raises for [limit = 0]. *)
Definition paginate {A : Type} (all_matches : list A) (total_found : Z)
    (page limit : Z) : Py.exn + (list A * Pagination) :=
  let start_idx := ((page - 1) * limit)%Z in
  let end_idx := (start_idx + limit)%Z in
  let paginated_matches := py_slice all_matches start_idx end_idx in
  if (limit =? 0)%Z
  then inl (Py.Exception "integer division or modulo by zero")
  else inr (paginated_matches,
            {| pg_page := page;
               pg_limit := limit;
               pg_total := total_found;
               pg_total_pages := ((total_found + limit - 1) / limit)%Z;
               pg_has_next := (end_idx <? total_found)%Z;
               pg_has_prev := (page >? 1)%Z |}).

End routes.

(* ===================================================================== *)
(** ** services/clinical_trials_service.py (requests, retries, rate limit) *)
(* ===================================================================== *)

Module clinical_trials_request.

(** [str(n)] for an integer. *)
Definition str_int (n : Z) : string := NilZero.string_of_int (Z.to_int n).

(** [ClinicalTrialsAPIError] and its subclass [RateLimitError]. *)
Inductive APIError :=
| ClinicalTrialsAPIError (message : string) (status_code : option Z)
                         (response_data : option Py.json)
| RateLimitError (retry_after : Z).

(** [str(e)]: the message handed to [Exception.__init__]. *)
Definition message (e : APIError) : string :=
  match e with
  | ClinicalTrialsAPIError message _ _ => message
  | RateLimitError retry_after =>
      ("Rate limit exceeded. Retry after " ++ str_int retry_after ++ " seconds.")%string
  end.

(** An exception of another class, as the [except] clauses of
    [_make_request] see it: the classes they test for, and [str(e)]. *)
Record RaisedError := {
  is_ValueError : bool;
  is_Timeout : bool;
  is_ConnectionError : bool;
  is_RequestException : bool;
  text : string
}.

(** What [_make_request] reads of a response.  [json_body] is the outcome
    of [response.json()]: the decoded body, or the message of the
    [ValueError] it raises. *)
Record Response := {
  status_code : Z;
  Retry_After : option string;
  content : bool;
  json_body : string + Py.json
}.

(** The attributes of the service that [_make_request] uses. *)
Record ClinicalTrialsService := {
  base_url : string;
  last_request_time : Q;
  min_request_interval : Q;
  max_retries : Z;
  retry_delay : Z
}.

Definition __init__ (base_url : string) : ClinicalTrialsService :=
  {| base_url := base_url;
     last_request_time := 0;
     min_request_interval := 1;
     max_retries := 3;
     retry_delay := 2 |}.

Definition set_last_request_time (self : ClinicalTrialsService) (t : Q)
  : ClinicalTrialsService :=
  {| base_url := base_url self;
     last_request_time := t;
     min_request_interval := min_request_interval self;
     max_retries := max_retries self;
     retry_delay := retry_delay self |}.

(** The three places that call [time.sleep]. *)
Inductive SleepReason := RateLimiting | RetryAfter | Backoff.

Inductive Event :=
| Slept (why : SleepReason) (seconds : Q)
| Requested (url : string) (at_time : Q).

(** The world outside the service: the clock read by [time.time()], the
    number of calls of [session.get] so far, and what has happened. *)
Record World := {
  now : Q;
  n_requests : nat;
  log : list Event
}.

(** [time.sleep(seconds)]: a negative length is a [ValueError]; otherwise
    the clock moves on by [seconds]. *)
Definition sleep (why : SleepReason) (seconds : Q) (w : World) : string + World :=
  if Qlt_le_dec seconds 0 then inl "sleep length must be non-negative"
  else inr {| now := now w + seconds;
              n_requests := n_requests w;
              log := log w ++ [Slept why seconds] |}.

(** [_handle_rate_limiting] *)
Definition _handle_rate_limiting (self : ClinicalTrialsService) (w : World)
  : string + (ClinicalTrialsService * World) :=
  let current_time := now w in
  let time_since_last_request := (current_time - last_request_time self)%Q in
  match (if Qlt_le_dec time_since_last_request (min_request_interval self)
         then sleep RateLimiting
                (min_request_interval self - time_since_last_request) w
         else inr w) with
  | inl msg => inl msg
  | inr w' => inr (set_last_request_time self (now w'), w')
  end.

(** What leaves [_make_request] as an exception: an error of the service,
    or an exception that no [except] clause handles. *)
Inductive Raised :=
| Api (e : APIError)
| Other (e : RaisedError).

(** How one pass through the loop body ends. *)
Inductive Flow :=
| Return (v : Py.json)
| Continue (w : World)
| Raise (e : Raised)
| RaiseValueError (msg : string).

Definition invalid_json (msg : string) : Raised :=
  Api (ClinicalTrialsAPIError ("Invalid JSON response: " ++ msg)%string None None).

(** [response.json() if response.content else None] *)
Definition response_data_of (response : Response) : string + option Py.json :=
  if content response then
    match json_body response with
    | inl msg => inl msg
    | inr v => inr (Some v)
    end
  else inr None.

Section Session.

(** Python's [int] on a header value: the integer, or the message of the
    [ValueError]. *)
Variable py_int : string -> string + Z.

(** The type of the query parameters, and [self.session.get]: what the
    n-th call of the session answers for a URL and parameters -- the time it
    takes and the exception it raises or the response it returns. *)
Context {Params : Type}.
Variable session_get : nat -> string -> Params -> Q * (RaisedError + Response).

Definition retry (self : ClinicalTrialsService) (attempt : nat) : bool :=
  (Z.of_nat attempt <? max_retries self - 1)%Z.

Definition delay (self : ClinicalTrialsService) (attempt : nat) : Z :=
  (retry_delay self * 2 ^ Z.of_nat attempt)%Z.

(** The [if]/[elif] chain on [response.status_code], inside the [try]. *)
Definition on_response (self : ClinicalTrialsService) (attempt : nat)
    (response : Response) (w : World) : Flow :=
  if (status_code response =? 200)%Z then
    match json_body response with
    | inr v => Return v
    | inl msg => Raise (invalid_json msg)
    end
  else if (status_code response =? 429)%Z then
    match (match Retry_After response with
           | Some value => py_int value
           | None => inr 60%Z
           end) with
    | inl msg => RaiseValueError msg
    | inr retry_after =>
        if retry self attempt then
          match sleep RetryAfter (inject_Z retry_after) w with
          | inl msg => RaiseValueError msg
          | inr w' => Continue w'
          end
        else Raise (Api (RateLimitError retry_after))
    end
  else if (status_code response =? 404)%Z then
    match response_data_of response with
    | inl msg => RaiseValueError msg
    | inr response_data =>
        Raise (Api (ClinicalTrialsAPIError "Endpoint not found" (Some 404%Z)
                      response_data))
    end
  else if (status_code response >=? 500)%Z then
    if retry self attempt then
      match sleep Backoff (inject_Z (delay self attempt)) w with
      | inl msg => RaiseValueError msg
      | inr w' => Continue w'
      end
    else
      match response_data_of response with
      | inl msg => RaiseValueError msg
      | inr response_data =>
          Raise (Api (ClinicalTrialsAPIError
                        ("Server error: " ++ str_int (status_code response))%string
                        (Some (status_code response)) response_data))
      end
  else
    match response_data_of response with
    | inl msg => RaiseValueError msg
    | inr response_data =>
        Raise (Api (ClinicalTrialsAPIError
                      ("API request failed with status "
                       ++ str_int (status_code response))%string
                      (Some (status_code response)) response_data))
    end.

(** [time.sleep(delay); continue] inside an [except] clause: a
    [ValueError] of [sleep] is raised from a handler and leaves the
    function as it is. *)
Definition sleep_and_continue (self : ClinicalTrialsService) (attempt : nat)
    (w : World) : Flow :=
  match sleep Backoff (inject_Z (delay self attempt)) w with
  | inl msg =>
      Raise (Other {| is_ValueError := true; is_Timeout := false;
                      is_ConnectionError := false; is_RequestException := false;
                      text := msg |})
  | inr w' => Continue w'
  end.

(** The [except] clauses, in order, for an exception of [session.get]. *)
Definition on_exception (self : ClinicalTrialsService) (attempt : nat)
    (e : RaisedError) (w : World) : Flow :=
  if is_ValueError e then Raise (invalid_json (text e))
  else if is_Timeout e then
    if retry self attempt then sleep_and_continue self attempt w
    else Raise (Api (ClinicalTrialsAPIError
                       "Request timeout after multiple attempts" None None))
  else if is_ConnectionError e then
    if retry self attempt then sleep_and_continue self attempt w
    else Raise (Api (ClinicalTrialsAPIError
                       "Connection error after multiple attempts" None None))
  else if is_RequestException e then
    Raise (Api (ClinicalTrialsAPIError ("Request failed: " ++ text e)%string
                  None None))
  else Raise (Other e).

(** [self.session.get(url, params=params, timeout=30)] seen from the
    world: the call is recorded with the time it starts at, and the clock
    moves on by the time it takes. *)
Definition request (url : string) (elapsed : Q) (w : World) : World :=
  {| now := now w + elapsed;
     n_requests := S (n_requests w);
     log := log w ++ [Requested url (now w)] |}.

(** The loop [for attempt in range(self.max_retries)], from [attempt] on
    with [remaining] passes left, and the [raise] after it. *)
Fixpoint attempts (url : string) (params : Params) (remaining attempt : nat)
    (self : ClinicalTrialsService) (w : World)
  : ClinicalTrialsService * World * (Raised + Py.json) :=
  match remaining with
  | O => (self, w,
          inl (Api (ClinicalTrialsAPIError "Max retries exceeded" None None)))
  | S remaining' =>
      match _handle_rate_limiting self w with
      | inl msg => (self, w, inl (invalid_json msg))
      | inr (self1, w1) =>
          let answer := session_get (n_requests w1) url params in
          let w2 := request url (fst answer) w1 in
          match (match snd answer with
                 | inl e => on_exception self1 attempt e w2
                 | inr response => on_response self1 attempt response w2
                 end) with
          | Return v => (self1, w2, inr v)
          | Continue w3 => attempts url params remaining' (S attempt) self1 w3
          | Raise e => (self1, w2, inl e)
          | RaiseValueError msg => (self1, w2, inl (invalid_json msg))
          end
      end
  end.

(** [_make_request] *)
Definition _make_request (self : ClinicalTrialsService) (endpoint : string)
    (params : Params) (w : World)
  : ClinicalTrialsService * World * (Raised + Py.json) :=
  let url := (base_url self ++ "/" ++ endpoint)%string in
  attempts url params (Z.to_nat (max_retries self)) 0 self w.

End Session.

(** *** Age eligibility *)

Section AgeEligibility.

(** [re.findall(pattern, text)] with the groups of every match read by
    [int]: for a pattern with two groups, and for a pattern with one. *)
Variable findall_ranges : string -> string -> list (Z * Z).
Variable findall_ages : string -> string -> list Z.

Definition age_patterns : list string :=
  ["(\d+)\s*[-to]\s*(\d+)\s*years?";
   "(\d+)\s*[-to]\s*(\d+)";
   "age[s]?\s*(\d+)\s*[-to]\s*(\d+)";
   "between\s*(\d+)\s*and\s*(\d+)"].

Definition min_age_patterns : list string :=
  ["(\d+)\s*years?\s*or\s*older";
   "age\s*(\d+)\s*or\s*older";
   "minimum\s*age\s*(\d+)";
   "at\s*least\s*(\d+)\s*years?"].

(** The inner loop over the matches of a range pattern; [Some] is a
    [return]. *)
Fixpoint check_ranges (matches : list (Z * Z)) (age : Z) : option bool :=
  match matches with
  | [] => None
  | (min_age, max_age) :: rest =>
      if ((min_age <=? age) && (age <=? max_age))%Z then Some true
      else if ((age <? min_age) || (age >? max_age))%Z then Some false
      else check_ranges rest age
  end.

(** The inner loop over the matches of a minimum-age pattern: its first
    pass returns. *)
Definition check_minimums (matches : list Z) (age : Z) : option bool :=
  match matches with
  | [] => None
  | min_age :: rest =>
      if (age >=? min_age)%Z then Some true else Some false
  end.

(** An outer loop [for pattern in patterns]. *)
Fixpoint for_patterns (check : string -> option bool) (patterns : list string)
  : option bool :=
  match patterns with
  | [] => None
  | pattern :: rest =>
      match check pattern with
      | Some answer => Some answer
      | None => for_patterns check rest
      end
  end.

(** [_is_age_eligible] *)
Definition _is_age_eligible (trial : clinical_trials_service.RawTrialData)
    (age : Z) : bool :=
  let criteria_text :=
    PyStr.lower (clinical_trials_service.eligibility_criteria trial) in
  match for_patterns
          (fun pattern => check_ranges (findall_ranges pattern criteria_text) age)
          age_patterns with
  | Some answer => answer
  | None =>
      match for_patterns
              (fun pattern => check_minimums (findall_ages pattern criteria_text) age)
              min_age_patterns with
      | Some answer => answer
      | None => true
      end
  end.

End AgeEligibility.

End clinical_trials_request.

(* ===================================================================== *)
(** ** Proof-level vocabulary *)
(* ===================================================================== *)

Module CT := clinical_trials_service.
Module UP := user_profile.
Module TM := trial_match.
Module GS := gemini_translation_service.
Module DB := database.
Module MS := trial_matching_service.

(** The list a trial ends up in during the first loop of
    [_filter_trials]. *)
Inductive Bucket := Finished | Local | Nearby | Recruiting | Active | Unplaced.

Definition Bucket_eqb (a b : Bucket) : bool :=
  match a, b with
  | Finished, Finished | Local, Local | Nearby, Nearby
  | Recruiting, Recruiting | Active, Active | Unplaced, Unplaced => true
  | _, _ => false
  end.

Definition bucket_of (user_state : string) (trial : CT.RawTrialData) : Bucket :=
  if MS.is_finished trial then Finished
  else
    let '(has_local, has_nearby) :=
      MS.scan_locations user_state (CT.locations trial) false in
    if has_local then Local
    else if has_nearby then Nearby
    else if PyStr.in_list (PyStr.lower (CT.status trial))
              ["recruiting"; "not yet recruiting"] then Recruiting
    else if PyStr.in_list (PyStr.lower (CT.status trial))
              ["active, not recruiting"; "enrolling by invitation"] then Active
    else Unplaced.

Definition in_bucket (user_state : string) (k : Bucket) (trial : CT.RawTrialData) : bool :=
  Bucket_eqb (bucket_of user_state trial) k.

(** The trials of the input that are open: status, lower-cased, not one of
    completed, terminated, withdrawn. *)
Definition open_trials (raw_trials : list CT.RawTrialData) : list CT.RawTrialData :=
  filter (fun trial => negb (MS.is_finished trial)) raw_trials.

(** Two characters that differ at most in letter case: equal, or one is
    a capital A-Z and the other the small letter 32 code points above. *)
Definition same_letterb (a b : ascii) : bool :=
  Ascii.eqb a b
  || (PyStr.is_ascii_upper a && (nat_of_ascii b =? nat_of_ascii a + 32))
  || (PyStr.is_ascii_upper b && (nat_of_ascii a =? nat_of_ascii b + 32)).

(** Two strings that differ only in letter case. *)
Fixpoint case_variantb (s t : string) : bool :=
  match s, t with
  | EmptyString, EmptyString => true
  | String a s', String b t' => same_letterb a b && case_variantb s' t'
  | _, _ => false
  end.

Fixpoint all2b {A : Type} (r : A -> A -> bool) (l1 l2 : list A) : bool :=
  match l1, l2 with
  | [], [] => true
  | x :: l1', y :: l2' => r x y && all2b r l1' l2'
  | _, _ => false
  end.

(** Two profiles that differ only in the order or the letter case of
    their conditions and in the letter case of city, state and country:
    the conditions of [q] are a rearrangement of a list that matches the
    conditions of [p] entry by entry up to case; every other field is the
    same. *)
Definition differ_only_in_order_and_case (p q : UP.UserProfile) : Prop :=
  UP.age p = UP.age q /\
  UP.medications p = UP.medications q /\
  UP.lifestyle p = UP.lifestyle q /\
  UP.zip_code (UP.location p) = UP.zip_code (UP.location q) /\
  case_variantb (UP.city (UP.location p)) (UP.city (UP.location q)) = true /\
  case_variantb (UP.state (UP.location p)) (UP.state (UP.location q)) = true /\
  case_variantb (UP.country (UP.location p)) (UP.country (UP.location q)) = true /\
  exists recased,
    all2b case_variantb (UP.conditions p) recased = true /\
    Permutation recased (UP.conditions q).

(** What one translation task works on and what it can deliver. *)
Definition description_of (trial : CT.RawTrialData) : string :=
  PyStr.py_or (CT.brief_summary trial) (CT.detailed_description trial).

Definition ai_translation (self : MS.TrialMatchingService) (trial : CT.RawTrialData)
  : option GS.TrialTranslation :=
  GS.translate_trial_info (MS.gemini_service self)
    (CT.title trial) (CT.eligibility_criteria trial) (description_of trial) None.

Definition fallback_of (trial : CT.RawTrialData) : GS.TrialTranslation :=
  GS.fallback_translation
    (CT.title trial) (CT.eligibility_criteria trial) (description_of trial) None.

(** The calls, the match and the success flag of one run of
    [_process_single_trial], in closed form (lemma
    [process_single_trial_eq]). *)
Definition single_trial_outcome (self : MS.TrialMatchingService)
    (trial : CT.RawTrialData) : Py.Trace * (TM.TrialMatch * bool) :=
  let via_fallback :=
    ([Py.Call_translate_with_fallback (CT.title trial);
      Py.Call_create_fallback_translation (CT.title trial)],
     (MS.build_match trial (fallback_of trial), false)) in
  match ai_translation self trial with
  | Some translation =>
      match MS.translation_success_of translation with
      | inr success =>
          ([Py.Call_translate_with_fallback (CT.title trial)],
           (MS.build_match trial translation, success))
      | inl _ => via_fallback
      end
  | None => via_fallback
  end.

Definition calls_of (self : MS.TrialMatchingService) (trial : CT.RawTrialData)
  : Py.Trace := fst (single_trial_outcome self trial).

Definition match_of (self : MS.TrialMatchingService) (trial : CT.RawTrialData)
  : TM.TrialMatch := fst (snd (single_trial_outcome self trial)).

Definition success_of (self : MS.TrialMatchingService) (trial : CT.RawTrialData)
  : bool := snd (snd (single_trial_outcome self trial)).

(** A run went through the fallback path when the fallback translation
    was requested from the translation service. *)
Definition used_fallback (calls : Py.Trace) : bool :=
  existsb (fun c => match c with
                    | Py.Call_create_fallback_translation _ => true
                    | _ => false
                    end) calls.

(** The marker test on the content of a finished match: neither marker is
    found in the plain-language eligibility and time-commitment texts. *)
Definition markers_absent (m : TM.TrialMatch) : bool :=
  match Py.py_in MS.eligibility_marker (TM.eligibility_simplified m),
        Py.py_in MS.time_commitment_marker (TM.time_commitment m) with
  | inr false, inr false => true
  | _, _ => false
  end.

(** A decoded response that is a well-formed object: the language model
    answered with a JSON object that has the four required fields. *)
Definition well_formed_response (self : MS.TrialMatchingService)
    (trial : CT.RawTrialData) : bool :=
  match GS.model (MS.gemini_service self)
          (CT.title trial) (CT.eligibility_criteria trial)
          (description_of trial) None with
  | GS.ResponseJson (Py.JObj fields) =>
      forallb (fun field => Py.dict_has field fields) GS.required_fields
  | _ => false
  end.

(** A trial with a site in the user's state: some location has a
    non-empty state that, upper-cased, is the user's. *)
Definition has_local_site (user_state : string) (trial : CT.RawTrialData) : bool :=
  existsb (fun loc => PyStr.truthy (CT.state loc)
                      && String.eqb (PyStr.upper (CT.state loc)) user_state)
          (CT.locations trial).

(** The open trials with a local site, in input order. *)
Definition local_open_trials (raw_trials : list CT.RawTrialData)
    (user_profile : UP.UserProfile) : list CT.RawTrialData :=
  filter (fun trial => negb (MS.is_finished trial)
                       && has_local_site (MS.user_state_of user_profile) trial)
         raw_trials.

Definition is_translate_call (c : Py.Call) : bool :=
  match c with Py.Call_translate_with_fallback _ => true | _ => false end.

Definition is_fallback_call (c : Py.Call) : bool :=
  match c with Py.Call_create_fallback_translation _ => true | _ => false end.

(** The text that is hashed into the cache key. *)
Definition search_string (user_profile : UP.UserProfile) : string :=
  MS.dumps_search_params (MS.normalized_search_params user_profile).

(** A string made of white space only, and a string with white space
    added at both ends. *)
Fixpoint all_space (s : string) : bool :=
  match s with
  | EmptyString => true
  | String c s' => PyStr.is_space c && all_space s'
  end.

Definition padded (s t : string) : Prop :=
  exists l r, all_space l = true /\ all_space r = true /\ t = (l ++ s ++ r)%string.

(** Two profiles with the same search intent: ages in the same range,
    conditions and city, state, country equal up to surrounding white
    space.  Medications, lifestyle and zip code are free. *)
Definition same_search_up_to_padding (p q : UP.UserProfile) : Prop :=
  MS._get_age_range (UP.age p) = MS._get_age_range (UP.age q) /\
  Forall2 padded (UP.conditions p) (UP.conditions q) /\
  padded (UP.city (UP.location p)) (UP.city (UP.location q)) /\
  padded (UP.state (UP.location p)) (UP.state (UP.location q)) /\
  padded (UP.country (UP.location p)) (UP.country (UP.location q)).

(** The keyword arguments of the [TrialMatch] constructor, in the order
    of the data class. *)
Definition constructor_keywords : list string :=
  ["nct_id"; "title"; "original_description"; "simplified_description";
   "locations"; "eligibility_criteria"; "eligibility_simplified";
   "compensation"; "compensation_explanation"; "time_commitment";
   "key_benefits"; "contact_info"; "study_type"; "phase"; "status";
   "sponsor"; "conditions"; "interventions"].

(** A location without its zip code. *)
Definition without_zip_code (loc : TM.TrialLocation) : TM.TrialLocation :=
  {| TM.facility := TM.facility loc; TM.city := TM.city loc;
     TM.state := TM.state loc; TM.country := TM.country loc;
     TM.zip_code := None; TM.coordinates := TM.coordinates loc |}.

(** The matches shown on one page of a result list. *)
Definition page_of {A : Type} (all_matches : list A) (limit page : Z) : list A :=
  match routes.paginate all_matches (Z.of_nat (length all_matches)) page limit with
  | inr (paginated_matches, _) => paginated_matches
  | inl _ => []
  end.

Module RQ := clinical_trials_request.

(** The starting times of the requests recorded in a log, oldest first. *)
Fixpoint stamps (events : list RQ.Event) : list Q :=
  match events with
  | [] => []
  | RQ.Requested _ at_time :: rest => at_time :: stamps rest
  | RQ.Slept _ _ :: rest => stamps rest
  end.

(** The lengths of the back-off sleeps recorded in a log, oldest first. *)
Fixpoint backoff_sleeps (events : list RQ.Event) : list Q :=
  match events with
  | [] => []
  | RQ.Slept RQ.Backoff seconds :: rest => seconds :: backoff_sleeps rest
  | _ :: rest => backoff_sleeps rest
  end.

(** Every time of the list is at least [interval] after the one before it,
    the first one at least [interval] after [previous]. *)
Fixpoint spaced (interval previous : Q) (times : list Q) : Prop :=
  match times with
  | [] => True
  | t :: rest => (previous + interval <= t)%Q /\ spaced interval t rest
  end.

(** An answer of the session that [_make_request] retries: a time-out or a
    connection error (that is not a [ValueError] as well), or a response
    with a 5xx status. *)
Definition transient (answer : RQ.RaisedError + RQ.Response) : bool :=
  match answer with
  | inl e => negb (RQ.is_ValueError e) && (RQ.is_Timeout e || RQ.is_ConnectionError e)
  | inr response => (500 <=? RQ.status_code response)%Z
  end.

(** The error raised after the loop. *)
Definition max_retries_exceeded : RQ.Raised :=
  RQ.Api (RQ.ClinicalTrialsAPIError "Max retries exceeded" None None).

(** All age ranges found in a criteria text, in the order in which
    [_is_age_eligible] meets them. *)
Definition ranges_found (findall_ranges : string -> string -> list (Z * Z))
    (trial : CT.RawTrialData) : list (Z * Z) :=
  flat_map (fun pattern =>
              findall_ranges pattern (PyStr.lower (CT.eligibility_criteria trial)))
           RQ.age_patterns.

(** All minimum ages found in a criteria text, in the same order. *)
Definition minimums_found (findall_ages : string -> string -> list Z)
    (trial : CT.RawTrialData) : list Z :=
  flat_map (fun pattern =>
              findall_ages pattern (PyStr.lower (CT.eligibility_criteria trial)))
           RQ.min_age_patterns.

(* ===================================================================== *)
(** ** Sample data *)
(* ===================================================================== *)

Module Samples.

(** The profile of the test-suite and a respelling of it. *)
Definition profile : UP.UserProfile :=
  {| UP.age := 45;
     UP.conditions := ["diabetes"; "hypertension"];
     UP.medications := ["metformin"; "lisinopril"];
     UP.location := {| UP.city := "San Francisco"; UP.state := "CA";
                       UP.country := "United States";
                       UP.zip_code := Some "94102" |};
     UP.lifestyle := {| UP.smoking := false; UP.drinking := UP.occasional |} |}.

Definition respelled_profile : UP.UserProfile :=
  {| UP.age := 45;
     UP.conditions := ["HYPERTENSION"; "Diabetes"];
     UP.medications := ["metformin"; "lisinopril"];
     UP.location := {| UP.city := "SAN FRANCISCO"; UP.state := "ca";
                       UP.country := "united states";
                       UP.zip_code := Some "94102" |};
     UP.lifestyle := {| UP.smoking := false; UP.drinking := UP.occasional |} |}.

(** The sample profile as another user would type it: other age in the
    same range, other medications and lifestyle, no zip code, stray
    blanks. *)
Definition padded_profile : UP.UserProfile :=
  {| UP.age := 31;
     UP.conditions := [" diabetes"; "hypertension  "];
     UP.medications := [];
     UP.location := {| UP.city := "San Francisco "; UP.state := " CA";
                       UP.country := "United States";
                       UP.zip_code := None |};
     UP.lifestyle := {| UP.smoking := true; UP.drinking := UP.never |} |}.

Definition minor_profile : UP.UserProfile :=
  {| UP.age := 17;
     UP.conditions := ["diabetes"; "hypertension"];
     UP.medications := ["metformin"; "lisinopril"];
     UP.location := {| UP.city := "San Francisco"; UP.state := "CA";
                       UP.country := "United States";
                       UP.zip_code := Some "94102" |};
     UP.lifestyle := {| UP.smoking := false; UP.drinking := UP.occasional |} |}.

(** A session in which every request times out after 30 seconds. *)
Definition timing_out : RQ.RaisedError :=
  {| RQ.is_ValueError := false; RQ.is_Timeout := true;
     RQ.is_ConnectionError := false; RQ.is_RequestException := true;
     RQ.text := "Read timed out." |}.

Definition dead_session (n : nat) (url : string) (params : unit)
  : Q * (RQ.RaisedError + RQ.Response) :=
  (30%Q, inl timing_out).

(** A session that answers 503 twice and then 200 with a body. *)
Definition recovering_session (n : nat) (url : string) (params : unit)
  : Q * (RQ.RaisedError + RQ.Response) :=
  if n <? 2 then
    ((1 # 2)%Q,
     inr {| RQ.status_code := 503; RQ.Retry_After := None;
            RQ.content := false; RQ.json_body := inl "Expecting value" |})
  else
    ((1 # 2)%Q,
     inr {| RQ.status_code := 200; RQ.Retry_After := None;
            RQ.content := true;
            RQ.json_body := inr (Py.JObj [("studies", Py.JArr [])]) |}).

Definition no_int (value : string) : string + Z :=
  inl ("invalid literal for int() with base 10: '" ++ value ++ "'")%string.

Definition fresh_world : RQ.World :=
  {| RQ.now := 1000; RQ.n_requests := 0; RQ.log := [] |}.

Definition registry_client : RQ.ClinicalTrialsService :=
  RQ.__init__ "https://clinicaltrials.gov/api/v2".

Definition site (st : string) : CT.TrialLocation :=
  {| CT.facility := "Clinic"; CT.city := "Town"; CT.state := st;
     CT.country := "United States"; CT.zip_code := None;
     CT.coordinates := None |}.

Definition trial (id status : string) (sites : list CT.TrialLocation)
  : CT.RawTrialData :=
  {| CT.nct_id := id;
     CT.title := "Diabetes Treatment Study";
     CT.brief_summary := "A study testing a new diabetes medication";
     CT.detailed_description := "Detailed description of the diabetes study";
     CT.eligibility_criteria := "Adults 18-65 with Type 2 diabetes";
     CT.inclusion_criteria := ["Adults 18-65 years"];
     CT.exclusion_criteria := ["Pregnancy"];
     CT.locations := sites;
     CT.contact_info := {| CT.name := None; CT.phone := None; CT.email := None |};
     CT.study_type := "Interventional";
     CT.phase := Some "Phase 2";
     CT.status := status;
     CT.start_date := None;
     CT.completion_date := None;
     CT.sponsor := "Sponsor";
     CT.conditions := ["Diabetes"];
     CT.interventions := ["Drug"] |}.

Definition recruiting_trial : CT.RawTrialData :=
  trial "NCT12345678" "Recruiting" [site "CA"].

(** One local trial, one finished trial and eleven suspended trials
    without a site: a sparse region. *)
Definition sparse_trials : list CT.RawTrialData :=
  recruiting_trial
    :: trial "NCT00000001" "Completed" [site "CA"]
    :: map (fun id => trial id "Suspended" [])
         ["NCT00000002"; "NCT00000003"; "NCT00000004"; "NCT00000005";
          "NCT00000006"; "NCT00000007"; "NCT00000008"; "NCT00000009";
          "NCT00000010"; "NCT00000011"; "NCT00000012"].

(** A language model that answers every request with a well-formed
    object, and says so when it does not know the time commitment. *)
Definition candid_answer : Py.json :=
  Py.JObj
    [("simplifiedDescription", Py.JStr "This study tests a new diabetes medication.");
     ("eligibilitySimplified", Py.JStr "Adults between 18 and 65 with Type 2 diabetes");
     ("timeCommitment", Py.JStr "Time commitment information not available in the study record.");
     ("keyBenefits", Py.JStr "Free medication and regular health monitoring")].

Definition candid_gemini : GS.GeminiTranslationService :=
  {| GS.model := fun _ _ _ _ => GS.ResponseJson candid_answer |}.

Definition registry (trials : list CT.RawTrialData) : CT.ClinicalTrialsService :=
  {| CT.search_trials := fun _ _ _ _ => inr trials |}.

(** The registry of [test_find_matching_trials_api_error]. *)
Definition failing_registry : CT.ClinicalTrialsService :=
  {| CT.search_trials := fun _ _ _ _ => inl (Py.Exception "API Error") |}.

Definition cold_cache : DB.CacheService :=
  {| DB.get_cached_trials := fun _ => inr None |}.

(** The cache of [test_find_matching_trials_with_cache_hit]: it holds an
    entry for every search. *)
Definition cached_entry : DB.CachedData :=
  DB.CachedDict
    [{| TM.nct_id := "NCT12345678"; TM.title := "Test Trial";
        TM.original_description := "Original description";
        TM.simplified_description := Py.JStr "Simple description";
        TM.locations := [];
        TM.eligibility_criteria := "Test criteria";
        TM.eligibility_simplified := Py.JStr "Simple criteria";
        TM.compensation := None;
        TM.compensation_explanation := Py.JNull;
        TM.time_commitment := Py.JStr "6 visits";
        TM.key_benefits := Py.JStr "Free treatment";
        TM.contact_info := None;
        TM.study_type := "Interventional";
        TM.phase := Some "Phase 2";
        TM.status := "Recruiting";
        TM.sponsor := "Test Sponsor";
        TM.conditions := Some ["Diabetes"];
        TM.interventions := Some ["Test Drug"] |}]
    1 (Some 1%Q).

Definition warm_cache : DB.CacheService :=
  {| DB.get_cached_trials := fun _ => inr (Some cached_entry) |}.

Definition candid_service : MS.TrialMatchingService :=
  MS.__init__ (registry [recruiting_trial]) candid_gemini cold_cache.

Definition cached_service : MS.TrialMatchingService :=
  MS.__init__ (registry [recruiting_trial]) candid_gemini warm_cache.

Definition cut_off_service : MS.TrialMatchingService :=
  MS.__init__ failing_registry candid_gemini cold_cache.

End Samples.

(* ===================================================================== *)
(** ** The eligibility and relevance filter *)
(* ===================================================================== *)

Section FilterFacts.

Variable user_state : string.

Let sel (k : Bucket) (l : list CT.RawTrialData) := filter (in_bucket user_state k) l.

Lemma categorize_step (b : MS.Buckets) (trial : CT.RawTrialData) :
  MS.categorize user_state b trial =
  {| MS.local_trials := MS.local_trials b ++ sel Local [trial];
     MS.nearby_trials := MS.nearby_trials b ++ sel Nearby [trial];
     MS.recruiting_trials := MS.recruiting_trials b ++ sel Recruiting [trial];
     MS.active_trials := MS.active_trials b ++ sel Active [trial] |}.
Proof.
  unfold MS.categorize, sel, in_bucket, bucket_of. cbn [filter].
  destruct (MS.is_finished trial).
  - cbn [Bucket_eqb]. rewrite !app_nil_r. now destruct b.
  - destruct (MS.scan_locations user_state (CT.locations trial) false)
      as [has_local has_nearby].
    destruct has_local; [cbn [Bucket_eqb]; now rewrite !app_nil_r|].
    destruct has_nearby; [cbn [Bucket_eqb]; now rewrite !app_nil_r|].
    destruct (PyStr.in_list (PyStr.lower (CT.status trial))
                ["recruiting"; "not yet recruiting"]);
      [cbn [Bucket_eqb]; now rewrite !app_nil_r|].
    destruct (PyStr.in_list (PyStr.lower (CT.status trial))
                ["active, not recruiting"; "enrolling by invitation"]);
      cbn [Bucket_eqb]; rewrite !app_nil_r; [reflexivity | now destruct b].
Qed.

Lemma categorize_fold (raw_trials : list CT.RawTrialData) :
  forall b,
    fold_left (MS.categorize user_state) raw_trials b =
    {| MS.local_trials := MS.local_trials b ++ sel Local raw_trials;
       MS.nearby_trials := MS.nearby_trials b ++ sel Nearby raw_trials;
       MS.recruiting_trials := MS.recruiting_trials b ++ sel Recruiting raw_trials;
       MS.active_trials := MS.active_trials b ++ sel Active raw_trials |}.
Proof.
  induction raw_trials as [|trial rest IH]; intro b.
  - simpl. rewrite !app_nil_r. now destruct b.
  - cbn [fold_left]. rewrite IH, categorize_step. cbn [MS.local_trials
      MS.nearby_trials MS.recruiting_trials MS.active_trials].
    rewrite <- !app_assoc. unfold sel.
    change (trial :: rest) with ([trial] ++ rest).
    now rewrite !filter_app.
Qed.

Lemma in_bucket_open (k : Bucket) (trial : CT.RawTrialData) :
  k <> Finished -> in_bucket user_state k trial = true ->
  MS.is_finished trial = false.
Proof.
  unfold in_bucket, bucket_of. intros Hk H.
  destruct (MS.is_finished trial); [|reflexivity].
  destruct k; simpl in H; congruence.
Qed.

Lemma in_bucket_unique (j k : Bucket) (trial : CT.RawTrialData) :
  in_bucket user_state j trial = true -> in_bucket user_state k trial = true ->
  j = k.
Proof.
  unfold in_bucket. destruct (bucket_of user_state trial), j, k; simpl;
    congruence.
Qed.

Lemma in_bucket_self (trial : CT.RawTrialData) :
  in_bucket user_state (bucket_of user_state trial) trial = true.
Proof. unfold in_bucket. now destruct (bucket_of user_state trial). Qed.

End FilterFacts.

Section ListFacts.

Context {A : Type} (dec : forall x y : A, {x = y} + {x <> y}).

Lemma count_occ_filter (f : A -> bool) (l : list A) (x : A) :
  count_occ dec (filter f l) x = if f x then count_occ dec l x else 0.
Proof.
  induction l as [|a l IH]; simpl.
  - now destruct (f x).
  - destruct (f a) eqn:Fa; simpl; destruct (dec a x) as [->|Hne];
      rewrite ?IH, ?Fa; reflexivity.
Qed.

Lemma count_occ_firstn_le (n : nat) (l : list A) (x : A) :
  count_occ dec (firstn n l) x <= count_occ dec l x.
Proof.
  revert n; induction l as [|a l IH]; intros [|n]; simpl; try lia.
  specialize (IH n). destruct (dec a x); lia.
Qed.

Lemma In_firstn (n : nat) (l : list A) (x : A) :
  In x (firstn n l) -> In x l.
Proof.
  revert n; induction l as [|a l IH]; intros [|n]; simpl; try tauto.
  intros [H|H]; [now left | right; eauto].
Qed.

Lemma firstn_short (n : nat) (l : list A) :
  length (firstn n l) < n -> firstn n l = l.
Proof.
  intro H. apply firstn_all2. rewrite length_firstn in H. lia.
Qed.

End ListFacts.

Section FilterTheorems.

Variables (raw_trials : list CT.RawTrialData) (user_profile : UP.UserProfile).

Let us := MS.user_state_of user_profile.
Let sel (k : Bucket) := filter (in_bucket us k) raw_trials.
Let cnt := count_occ CT.RawTrialData_eq_dec.

Lemma bucketed_trials_eq :
  MS.bucketed_trials raw_trials user_profile =
  sel Local ++ firstn 20 (sel Nearby) ++ firstn 30 (sel Recruiting)
    ++ firstn 15 (sel Active).
Proof.
  unfold MS.bucketed_trials. fold us. now rewrite categorize_fold.
Qed.

Lemma in_bucketed_trials (trial : CT.RawTrialData) :
  In trial (MS.bucketed_trials raw_trials user_profile) ->
  In trial raw_trials /\
  exists k, k <> Finished /\ k <> Unplaced /\ in_bucket us k trial = true.
Proof.
  rewrite bucketed_trials_eq, !in_app_iff. unfold sel.
  intros [H|[H|[H|H]]];
    try apply In_firstn in H; apply filter_In in H as [Hin Hk];
    (split; [exact Hin|]).
  - exists Local; repeat split; congruence.
  - exists Nearby; repeat split; congruence.
  - exists Recruiting; repeat split; congruence.
  - exists Active; repeat split; congruence.
Qed.

Lemma cnt_bucketed_le (trial : CT.RawTrialData) :
  cnt (MS.bucketed_trials raw_trials user_profile) trial <= cnt raw_trials trial.
Proof.
  rewrite bucketed_trials_eq. unfold cnt, sel. rewrite !count_occ_app.
  pose proof (count_occ_firstn_le CT.RawTrialData_eq_dec 20
                (filter (in_bucket us Nearby) raw_trials) trial).
  pose proof (count_occ_firstn_le CT.RawTrialData_eq_dec 30
                (filter (in_bucket us Recruiting) raw_trials) trial).
  pose proof (count_occ_firstn_le CT.RawTrialData_eq_dec 15
                (filter (in_bucket us Active) raw_trials) trial).
  rewrite !count_occ_filter in *. unfold in_bucket in *.
  destruct (bucket_of us trial); simpl in *; lia.
Qed.

Lemma trial_in_iff (trial : CT.RawTrialData) (l : list CT.RawTrialData) :
  CT.trial_in trial l = true <-> In trial l.
Proof.
  unfold CT.trial_in. destruct (in_dec CT.RawTrialData_eq_dec trial l);
    split; intros; try assumption; try reflexivity; try discriminate.
  contradiction.
Qed.

Lemma cnt_remaining (filtered : list CT.RawTrialData) (trial : CT.RawTrialData) :
  cnt (MS.remaining_trials raw_trials filtered) trial =
  if negb (CT.trial_in trial filtered) && negb (MS.is_finished trial)
  then cnt raw_trials trial else 0.
Proof.
  unfold MS.remaining_trials, cnt.
  apply (count_occ_filter CT.RawTrialData_eq_dec
           (fun t => negb (CT.trial_in t filtered) && negb (MS.is_finished t))).
Qed.

End FilterTheorems.

Lemma bucket_of_finished (us : string) (trial : CT.RawTrialData) :
  bucket_of us trial = Finished <-> MS.is_finished trial = true.
Proof.
  unfold bucket_of. destruct (MS.is_finished trial); [tauto|].
  destruct (MS.scan_locations us (CT.locations trial) false) as [[|] [|]];
    try (split; discriminate).
  destruct (PyStr.in_list (PyStr.lower (CT.status trial))
              ["recruiting"; "not yet recruiting"]);
    [split; discriminate|].
  destruct (PyStr.in_list (PyStr.lower (CT.status trial))
              ["active, not recruiting"; "enrolling by invitation"]);
    split; discriminate.
Qed.

(** Closes a goal in which [bucket_of] and [is_finished] disagree. *)
Ltac finished_absurd H :=
  solve [ destruct H as [H _]; specialize (H eq_refl); discriminate
        | destruct H as [_ H]; specialize (H eq_refl); discriminate ].

(** The open trials of the input are exactly the five groups the first
    loop distinguishes: the four lists and the trials it leaves aside. *)
Lemma open_trials_partition (us : string) (raw_trials : list CT.RawTrialData) :
  Permutation (open_trials raw_trials)
    (filter (in_bucket us Local) raw_trials
       ++ filter (in_bucket us Nearby) raw_trials
       ++ filter (in_bucket us Recruiting) raw_trials
       ++ filter (in_bucket us Active) raw_trials
       ++ filter (in_bucket us Unplaced) raw_trials).
Proof.
  apply (Permutation_count_occ CT.RawTrialData_eq_dec). intro trial.
  unfold open_trials. rewrite !count_occ_app, !count_occ_filter.
  unfold in_bucket. pose proof (bucket_of_finished us trial) as Hfin.
  destruct (bucket_of us trial); destruct (MS.is_finished trial); simpl;
    try lia; finished_absurd Hfin.
Qed.

Section Backfill.

Variables (raw_trials : list CT.RawTrialData) (user_profile : UP.UserProfile).

Let us := MS.user_state_of user_profile.
Let sel (k : Bucket) := filter (in_bucket us k) raw_trials.

Hypothesis few : length (MS.bucketed_trials raw_trials user_profile) < 10.

(** Fewer than ten trials: none of the caps 20, 30, 15 has cut anything. *)
Lemma bucketed_trials_uncapped :
  MS.bucketed_trials raw_trials user_profile =
  sel Local ++ sel Nearby ++ sel Recruiting ++ sel Active.
Proof.
  pose proof few as H. rewrite bucketed_trials_eq in H |- *.
  unfold sel, us. rewrite !length_app in H.
  rewrite (firstn_short 20) by lia.
  rewrite (firstn_short 30) by lia.
  now rewrite (firstn_short 15) by lia.
Qed.

(** Then the backfill candidates are the trials left aside by the loop. *)
Lemma remaining_trials_unplaced :
  MS.remaining_trials raw_trials (MS.bucketed_trials raw_trials user_profile) =
  sel Unplaced.
Proof.
  unfold MS.remaining_trials, sel. apply filter_ext_in. intros trial Hin.
  destruct (CT.trial_in trial (MS.bucketed_trials raw_trials user_profile)) eqn:Ein.
  - apply trial_in_iff, in_bucketed_trials in Ein as (_ & k & Hk1 & Hk2 & Hk).
    fold us in Hk. simpl.
    destruct (in_bucket us Unplaced trial) eqn:E; [|reflexivity].
    now pose proof (in_bucket_unique us _ _ _ Hk E).
  - assert (Hnot : ~ In trial (MS.bucketed_trials raw_trials user_profile)).
    { intro H. apply trial_in_iff in H. congruence. }
    rewrite bucketed_trials_uncapped in Hnot. unfold sel in Hnot.
    rewrite !in_app_iff, !filter_In in Hnot.
    pose proof (bucket_of_finished us trial) as Hfin.
    unfold in_bucket in *. simpl.
    destruct (bucket_of us trial); destruct (MS.is_finished trial); simpl in *;
      try reflexivity; try tauto; finished_absurd Hfin.
Qed.

Lemma filter_trials_backfilled :
  MS._filter_trials raw_trials user_profile =
  (sel Local ++ sel Nearby ++ sel Recruiting ++ sel Active)
    ++ firstn 15 (sel Unplaced).
Proof.
  unfold MS._filter_trials.
  pose proof few as H. apply Nat.ltb_lt in H. rewrite H.
  now rewrite remaining_trials_unplaced, bucketed_trials_uncapped.
Qed.

End Backfill.

(** C3.  Whatever the input list and the profile, no trial returned by
    [_filter_trials] has a status that, lower-cased, is completed,
    terminated or withdrawn; this covers the trials the backfill step
    appends. *)
Theorem filter_excludes_finished_trials
    (raw_trials : list CT.RawTrialData) (user_profile : UP.UserProfile) :
  Forall (fun trial =>
            PyStr.in_list (PyStr.lower (CT.status trial))
              ["completed"; "terminated"; "withdrawn"] = false)
         (MS._filter_trials raw_trials user_profile).
Proof.
  apply Forall_forall. intros trial Hin.
  change (MS.is_finished trial = false).
  assert (Hpre : In trial (MS.bucketed_trials raw_trials user_profile) ->
                 MS.is_finished trial = false).
  { intro H. apply in_bucketed_trials in H as (_ & k & Hk & _ & Hb).
    eapply in_bucket_open; eauto. }
  unfold MS._filter_trials in Hin.
  destruct (length (MS.bucketed_trials raw_trials user_profile) <? 10);
    [|auto].
  apply in_app_or in Hin as [H|H]; [auto|].
  apply In_firstn in H. unfold MS.remaining_trials in H.
  apply filter_In in H as [_ H]. apply andb_prop in H as [_ H].
  now apply negb_true_iff in H.
Qed.

(** C9.  The filter only selects input trials: every returned trial is a
    trial of the input, and no trial is returned more often than it
    occurs in the input (no occurrence is emitted twice, none is made
    up), the backfill step included. *)
Theorem filter_selects_input_occurrences
    (raw_trials : list CT.RawTrialData) (user_profile : UP.UserProfile) :
  incl (MS._filter_trials raw_trials user_profile) raw_trials /\
  forall trial,
    count_occ CT.RawTrialData_eq_dec
      (MS._filter_trials raw_trials user_profile) trial
    <= count_occ CT.RawTrialData_eq_dec raw_trials trial.
Proof.
  assert (Hcount : forall trial,
    count_occ CT.RawTrialData_eq_dec
      (MS._filter_trials raw_trials user_profile) trial
    <= count_occ CT.RawTrialData_eq_dec raw_trials trial).
  { intro trial. unfold MS._filter_trials.
    pose proof (cnt_bucketed_le raw_trials user_profile trial) as Hpre.
    destruct (length (MS.bucketed_trials raw_trials user_profile) <? 10);
      [|exact Hpre].
    rewrite count_occ_app.
    pose proof (count_occ_firstn_le CT.RawTrialData_eq_dec 15
      (MS.remaining_trials raw_trials
         (MS.bucketed_trials raw_trials user_profile)) trial) as Hrem.
    rewrite cnt_remaining in Hrem.
    destruct (CT.trial_in trial (MS.bucketed_trials raw_trials user_profile))
      eqn:Ein; cbn [negb andb] in Hrem.
    - lia.
    - assert (Hz : count_occ CT.RawTrialData_eq_dec
                (MS.bucketed_trials raw_trials user_profile) trial = 0).
      { apply count_occ_not_In. intro H. apply trial_in_iff in H. congruence. }
      destruct (MS.is_finished trial); cbn [negb andb] in Hrem; lia. }
  split; [|exact Hcount].
  intros trial Hin.
  apply (count_occ_In CT.RawTrialData_eq_dec) in Hin.
  apply (count_occ_In CT.RawTrialData_eq_dec).
  specialize (Hcount trial). lia.
Qed.

(** C4.  When the bucketed result (all local trials, at most 20 nearby,
    30 recruiting, 15 active) has fewer than 10 trials, the final result
    has at least 10 trials as soon as the input holds at least 10 open
    trials, and otherwise consists of all the open trials of the input. *)
Theorem backfill_reaches_minimum
    (raw_trials : list CT.RawTrialData) (user_profile : UP.UserProfile) :
  length (MS.bucketed_trials raw_trials user_profile) < 10 ->
  (10 <= length (open_trials raw_trials) ->
   10 <= length (MS._filter_trials raw_trials user_profile)) /\
  (length (open_trials raw_trials) < 10 ->
   Permutation (MS._filter_trials raw_trials user_profile)
               (open_trials raw_trials)).
Proof.
  intro few.
  pose proof (open_trials_partition (MS.user_state_of user_profile) raw_trials)
    as Hpart.
  pose proof (Permutation_length Hpart) as Hlen.
  rewrite (filter_trials_backfilled raw_trials user_profile few).
  rewrite !length_app in Hlen. split; intro Hn.
  - rewrite !length_app, length_firstn. lia.
  - rewrite firstn_all2 by lia.
    rewrite <- !app_assoc. now symmetry.
Qed.

(* ===================================================================== *)
(** ** The cache key *)
(* ===================================================================== *)

Section StringOrderFacts.

Local Open Scope string_scope.

Lemma ascii_compare_lt_trans (x y z : ascii) :
  Ascii.compare x y = Lt -> Ascii.compare y z = Lt -> Ascii.compare x z = Lt.
Proof.
  unfold Ascii.compare. rewrite !N.compare_lt_iff. apply N.lt_trans.
Qed.

Lemma string_compare_lt_trans (a : string) :
  forall b c, String.compare a b = Lt -> String.compare b c = Lt ->
              String.compare a c = Lt.
Proof.
  induction a as [|x a IH]; intros [|y b] [|z c]; simpl;
    try discriminate; try reflexivity.
  destruct (Ascii.compare x y) eqn:Exy; try discriminate.
  - apply Ascii.compare_eq_iff in Exy as ->.
    destruct (Ascii.compare y z); try discriminate; eauto.
  - intros _. destruct (Ascii.compare y z) eqn:Eyz; try discriminate.
    + apply Ascii.compare_eq_iff in Eyz as <-. now rewrite Exy.
    + now rewrite (ascii_compare_lt_trans _ _ _ Exy Eyz).
Qed.

Lemma string_leb_refl (a : string) : String.leb a a = true.
Proof. now destruct (String.leb_total a a). Qed.

Lemma string_leb_trans (a b c : string) :
  String.leb a b = true -> String.leb b c = true -> String.leb a c = true.
Proof.
  unfold String.leb.
  destruct (String.compare a b) eqn:Eab; try discriminate; intros _.
  - now apply String.compare_eq_iff in Eab as ->.
  - destruct (String.compare b c) eqn:Ebc; try discriminate; intros _.
    + apply String.compare_eq_iff in Ebc as <-. now rewrite Eab.
    + now rewrite (string_compare_lt_trans _ _ _ Eab Ebc).
Qed.

Lemma sorted_strings_unique (l1 : list string) :
  forall l2,
    StronglySorted (fun x y => is_true (String.leb x y)) l1 ->
    StronglySorted (fun x y => is_true (String.leb x y)) l2 ->
    Permutation l1 l2 -> l1 = l2.
Proof.
  induction l1 as [|a l1 IH]; intros l2 S1 S2 P.
  - now apply Permutation_nil in P.
  - destruct l2 as [|b l2];
      [apply Permutation_sym, Permutation_nil in P; discriminate|].
    inversion S1 as [|? ? S1' F1]; inversion S2 as [|? ? S2' F2]; subst.
    assert (Hab : String.leb a b = true).
    { assert (Hin : In b (a :: l1))
        by (eapply Permutation_in; [apply Permutation_sym, P | now left]).
      destruct Hin as [->|Hin]; [apply string_leb_refl|].
      rewrite Forall_forall in F1. now apply F1. }
    assert (Hba : String.leb b a = true).
    { assert (Hin : In a (b :: l2))
        by (eapply Permutation_in; [apply P | now left]).
      destruct Hin as [->|Hin]; [apply string_leb_refl|].
      rewrite Forall_forall in F2. now apply F2. }
    pose proof (String.leb_antisym _ _ Hab Hba) as ->.
    f_equal. apply IH; auto. now apply Permutation_cons_inv in P.
Qed.

(** [sorted] does not depend on the order of its input. *)
Lemma sort_permutation (l1 l2 : list string) :
  Permutation l1 l2 -> StringSort.sort l1 = StringSort.sort l2.
Proof.
  intro P.
  assert (T : Transitive (fun x y => is_true (String.leb x y)))
    by (intros a b c; apply string_leb_trans).
  apply sorted_strings_unique; try now apply StringSort.StronglySorted_sort.
  eapply Permutation_trans; [apply Permutation_sym, StringSort.Permuted_sort|].
  eapply Permutation_trans; [exact P | apply StringSort.Permuted_sort].
Qed.

End StringOrderFacts.

Lemma upper_shifted_not_upper (a b : ascii) :
  PyStr.is_ascii_upper a = true ->
  (nat_of_ascii b =? nat_of_ascii a + 32) = true ->
  PyStr.lower_char a = b /\ PyStr.lower_char b = b.
Proof.
  unfold PyStr.lower_char, PyStr.is_ascii_upper.
  intros Hup Hb. rewrite Hup.
  apply andb_prop in Hup as [H1 H2].
  apply Nat.leb_le in H1, H2. apply Nat.eqb_eq in Hb.
  rewrite <- Hb, ascii_nat_embedding. split; [reflexivity|].
  replace (nat_of_ascii b <=? 90) with false
    by (symmetry; apply Nat.leb_gt; lia).
  now rewrite andb_false_r.
Qed.

Lemma same_letterb_lower (a b : ascii) :
  same_letterb a b = true -> PyStr.lower_char a = PyStr.lower_char b.
Proof.
  unfold same_letterb. intro H.
  apply orb_prop in H as [H|H]; [apply orb_prop in H as [H|H]|].
  - now apply Ascii.eqb_eq in H as ->.
  - apply andb_prop in H as [Hup Hb].
    destruct (upper_shifted_not_upper a b Hup Hb). congruence.
  - apply andb_prop in H as [Hup Hb].
    destruct (upper_shifted_not_upper b a Hup Hb). congruence.
Qed.

Lemma case_variantb_lower (s : string) :
  forall t, case_variantb s t = true -> PyStr.lower s = PyStr.lower t.
Proof.
  induction s as [|a s IH]; intros [|b t]; simpl; try discriminate;
    try reflexivity.
  intro H. apply andb_prop in H as [Hab Hst].
  now rewrite (same_letterb_lower a b Hab), (IH t Hst).
Qed.

Lemma all2b_case_variantb_lower (l1 : list string) :
  forall l2, all2b case_variantb l1 l2 = true ->
             map PyStr.lower l1 = map PyStr.lower l2.
Proof.
  induction l1 as [|s l1 IH]; intros [|t l2]; simpl; try discriminate;
    try reflexivity.
  intro H. apply andb_prop in H as [Hst Hl].
  now rewrite (case_variantb_lower s t Hst), (IH l2 Hl).
Qed.

(** The serialised search parameters, hence every digest of them, agree
    on profiles that differ only in order and case. *)
Lemma normalized_search_params_invariant (p q : UP.UserProfile) :
  differ_only_in_order_and_case p q ->
  MS.normalized_search_params p = MS.normalized_search_params q.
Proof.
  intros (Hage & _ & _ & _ & Hcity & Hstate & Hcountry & recased & Hcase & Hperm).
  unfold MS.normalized_search_params.
  rewrite Hage, (case_variantb_lower _ _ Hcity),
    (case_variantb_lower _ _ Hstate), (case_variantb_lower _ _ Hcountry).
  f_equal. apply sort_permutation.
  rewrite <- !(map_map PyStr.lower PyStr.strip).
  rewrite (all2b_case_variantb_lower _ _ Hcase).
  now do 2 apply Permutation_map.
Qed.


(* ===================================================================== *)
(** ** The TrialMatch constructor *)
(* ===================================================================== *)

(** C10.  Every [TrialMatch], whatever the constructor arguments, has a
    conditions list, an interventions list and a contact_info that are
    not [None]: an argument that is [None] is replaced by the empty list,
    respectively by an empty [ContactInfo]; any other argument is kept. *)
Theorem trial_match_defaults_never_none (fields : TM.TrialMatch) :
  (TM.conditions (TM.new_TrialMatch fields) <> None /\
   TM.interventions (TM.new_TrialMatch fields) <> None /\
   TM.contact_info (TM.new_TrialMatch fields) <> None) /\
  TM.conditions (TM.new_TrialMatch fields)
    = Some (match TM.conditions fields with Some l => l | None => [] end) /\
  TM.interventions (TM.new_TrialMatch fields)
    = Some (match TM.interventions fields with Some l => l | None => [] end) /\
  TM.contact_info (TM.new_TrialMatch fields)
    = Some (match TM.contact_info fields with
            | Some c => c
            | None => TM.ContactInfo_default
            end).
Proof.
  unfold TM.new_TrialMatch, TM.__post_init__.
  destruct fields as [? ? ? ? ? ? ? ? ? ? ? [c|] ? ? ? ? [cs|] [ivs|]];
    cbn; repeat split; solve [reflexivity | discriminate].
Qed.

(* ===================================================================== *)
(** ** The translation worker pool *)
(* ===================================================================== *)

Lemma fallback_carries_marker (trial : CT.RawTrialData) :
  MS.translation_success_of (fallback_of trial) = inr false.
Proof.
  unfold MS.translation_success_of, fallback_of, GS.fallback_translation.
  cbn [GS.eligibility_simplified GS.time_commitment Py.py_in].
  destruct (PyStr.contains MS.eligibility_marker _); [reflexivity|].
  replace (PyStr.contains MS.time_commitment_marker GS.fallback_time_commitment)
    with true by (vm_compute; reflexivity).
  reflexivity.
Qed.

Lemma create_fallback_match_eq (self : MS.TrialMatchingService)
    (trial : CT.RawTrialData) (tr : Py.Trace) :
  MS._create_fallback_match self trial tr =
  (tr ++ [Py.Call_create_fallback_translation (CT.title trial)],
   inr (MS.build_match trial (fallback_of trial))).
Proof. reflexivity. Qed.

(** One task never raises; its effect on the trace and its result are
    those of [single_trial_outcome]. *)
Lemma process_single_trial_eq (self : MS.TrialMatchingService)
    (trial : CT.RawTrialData) (tr : Py.Trace) :
  MS._process_single_trial self trial tr =
  (tr ++ calls_of self trial, inr (match_of self trial, success_of self trial)).
Proof.
  unfold calls_of, match_of, success_of, single_trial_outcome.
  unfold MS._process_single_trial, GS.translate_with_fallback,
    Py.try_except, Py.bind, Py.call, Py.lift, Py.ret.
  fold (description_of trial). fold (ai_translation self trial).
  destruct (ai_translation self trial) as [translation|].
  - destruct (MS.translation_success_of translation) as [e|success];
      cbn [fst snd].
    + rewrite create_fallback_match_eq. cbn [fst snd].
      now rewrite <- app_assoc.
    + reflexivity.
  - unfold GS.create_fallback_translation, Py.bind, Py.call, Py.ret.
    fold (fallback_of trial). rewrite fallback_carries_marker.
    cbn [fst snd]. now rewrite <- app_assoc.
Qed.

Section CompletionOrder.

Context {A B : Type}.

Lemma split_at (i : nat) (l : list A) (d : A) :
  i < length l -> Permutation l (nth i l d :: firstn i l ++ skipn (S i) l).
Proof.
  revert i; induction l as [|a l IH]; intros [|i] H; simpl in *; try lia.
  - reflexivity.
  - etransitivity; [apply perm_skip, (IH i); lia|]. apply perm_swap.
Qed.

(** Every completion order is a rearrangement of the submitted futures. *)
Lemma as_completed_permutation (schedule : list nat) :
  forall pending : list A, Permutation (MS.as_completed schedule pending) pending.
Proof.
  induction schedule as [|k schedule IH]; intros [|first pending];
    cbn [MS.as_completed]; try reflexivity.
  set (l := first :: pending). set (i := k mod length l).
  assert (Hi : i < length l) by (apply Nat.mod_upper_bound; discriminate).
  etransitivity; [apply perm_skip, IH|].
  symmetry. now apply split_at.
Qed.

Lemma as_completed_map (f : A -> B) (schedule : list nat) :
  forall pending : list A,
    MS.as_completed schedule (map f pending) =
    map f (MS.as_completed schedule pending).
Proof.
  induction schedule as [|k schedule IH]; intros [|first pending];
    cbn [MS.as_completed map]; try reflexivity.
  change (f first :: map f pending) with (map f (first :: pending)).
  rewrite length_map, map_nth, firstn_map, skipn_map, <- map_app, IH.
  reflexivity.
Qed.

(** And every rearrangement of the submitted futures is the completion
    order of some schedule. *)
Lemma as_completed_complete (order : list A) :
  forall pending : list A,
    Permutation order pending ->
    exists schedule, MS.as_completed schedule pending = order.
Proof.
  induction order as [|x order IH]; intros pending P.
  - apply Permutation_nil in P as ->. now exists [].
  - assert (Hin : In x pending) by (eapply Permutation_in; [exact P | now left]).
    destruct pending as [|first pending]; [contradiction|].
    destruct (In_nth _ _ first Hin) as (i & Hi & Hx).
    set (l := first :: pending) in *.
    assert (P' : Permutation order (firstn i l ++ skipn (S i) l)).
    { apply Permutation_cons_inv with (a := x).
      etransitivity; [exact P|]. rewrite <- Hx. now apply split_at. }
    destruct (IH _ P') as (schedule & Hs).
    exists (i :: schedule). unfold l. cbn [MS.as_completed]. fold l.
    now rewrite (Nat.mod_small _ _ Hi), Hx, Hs.
Qed.

Lemma filter_length_permutation (f : A -> bool) (l1 l2 : list A) :
  Permutation l1 l2 -> length (filter f l1) = length (filter f l2).
Proof.
  induction 1 as [|x l1 l2 _ IH|x y l|l1 l2 l3 _ IH1 _ IH2]; simpl.
  - reflexivity.
  - destruct (f x); simpl; congruence.
  - destruct (f x), (f y); reflexivity.
  - congruence.
Qed.

End CompletionOrder.

(** The collecting loop over tasks taken in any order. *)
Lemma collect_results_eq (self : MS.TrialMatchingService)
    (order : list CT.RawTrialData) :
  forall (processed : list TM.TrialMatch) (successful : nat) (tr : Py.Trace),
    MS.collect_results self
      (map (fun trial => (MS._process_single_trial self trial, trial)) order)
      processed successful tr =
    (tr ++ flat_map (calls_of self) order,
     inr (processed ++ map (match_of self) order,
          successful + length (filter (success_of self) order))).
Proof.
  induction order as [|trial order IH]; intros processed successful tr.
  - cbn. now rewrite !app_nil_r, Nat.add_0_r.
  - cbn [map MS.collect_results flat_map filter].
    unfold Py.bind, Py.try_except at 1.
    rewrite process_single_trial_eq. unfold Py.ret at 1.
    rewrite IH. cbn [fst snd].
    rewrite <- !app_assoc. cbn [app].
    destruct (success_of self trial); cbn [length];
      rewrite ?Nat.add_succ_r; reflexivity.
Qed.

(** The pool never raises: it returns one match per submitted trial, in
    completion order, and the rate computed from the success flags. *)
Lemma process_trials_with_ai_eq (self : MS.TrialMatchingService)
    (schedule : list nat) (raw_trials : list CT.RawTrialData) (tr : Py.Trace) :
  MS._process_trials_with_ai self schedule raw_trials tr =
  (tr ++ flat_map (calls_of self) (MS.as_completed schedule raw_trials),
   inr (map (match_of self) (MS.as_completed schedule raw_trials),
        MS.success_rate (length (filter (success_of self) raw_trials))
                        raw_trials)).
Proof.
  unfold MS._process_trials_with_ai, Py.bind.
  rewrite as_completed_map, collect_results_eq. cbn [app Nat.add].
  unfold Py.ret.
  now rewrite (filter_length_permutation (success_of self) _ _
                 (as_completed_permutation schedule raw_trials)).
Qed.

Lemma build_match_nct_id (trial : CT.RawTrialData) (translation : GS.TrialTranslation) :
  TM.nct_id (MS.build_match trial translation) = CT.nct_id trial.
Proof. reflexivity. Qed.

(** The match of a task is the raw trial merged with the translation of
    the language model or with the fallback translation. *)
Lemma match_of_cases (self : MS.TrialMatchingService) (trial : CT.RawTrialData) :
  match_of self trial = MS.build_match trial (fallback_of trial) \/
  exists translation,
    ai_translation self trial = Some translation /\
    match_of self trial = MS.build_match trial translation.
Proof.
  unfold match_of, single_trial_outcome.
  destruct (ai_translation self trial) as [translation|]; [|now left].
  destruct (MS.translation_success_of translation); [now left|].
  right. now exists translation.
Qed.

Lemma success_of_iff (self : MS.TrialMatchingService) (trial : CT.RawTrialData) :
  success_of self trial = true <->
  exists translation,
    ai_translation self trial = Some translation /\
    MS.translation_success_of translation = inr true.
Proof.
  unfold success_of, single_trial_outcome.
  destruct (ai_translation self trial) as [translation|]; cbn [snd].
  - destruct (MS.translation_success_of translation) as [e|b] eqn:E; cbn [snd].
    + split; [discriminate|]. intros (t & [= <-] & H). congruence.
    + split; [intros ->; eauto|]. intros (t & [= <-] & H). congruence.
  - split; [discriminate|]. now intros (t & H & _).
Qed.

Lemma used_fallback_iff (self : MS.TrialMatchingService) (trial : CT.RawTrialData) :
  used_fallback (calls_of self trial) = false <->
  exists translation success,
    ai_translation self trial = Some translation /\
    MS.translation_success_of translation = inr success /\
    match_of self trial = MS.build_match trial translation /\
    success_of self trial = success.
Proof.
  unfold calls_of, match_of, success_of, single_trial_outcome.
  destruct (ai_translation self trial) as [translation|]; cbn [fst snd].
  - destruct (MS.translation_success_of translation) as [e|b] eqn:E;
      cbn [fst snd used_fallback existsb orb].
    + split; [discriminate|]. intros (t & s & [= <-] & H & _). congruence.
    + split; [eauto 6|reflexivity].
  - cbn [used_fallback existsb orb]. split; [discriminate|].
    now intros (t & s & H & _).
Qed.

Lemma well_formed_response_iff (self : MS.TrialMatchingService)
    (trial : CT.RawTrialData) :
  well_formed_response self trial = true <-> ai_translation self trial <> None.
Proof.
  unfold well_formed_response, ai_translation, GS.translate_trial_info.
  destruct (GS.model _ _ _ _ _) as [msg| | |[| | | | |fields]];
    try (split; [discriminate | congruence]).
  destruct (forallb _ GS.required_fields) eqn:E;
    [|split; [discriminate | congruence]].
  split; [intros _|reflexivity].
  unfold GS.required_fields in E. cbn [forallb] in E.
  unfold Py.dict_has in E.
  destruct (Py.dict_get "simplifiedDescription" fields); [|discriminate].
  destruct (Py.dict_get "eligibilitySimplified" fields); [|discriminate].
  destruct (Py.dict_get "timeCommitment" fields); [|discriminate].
  destruct (Py.dict_get "keyBenefits" fields); discriminate.
Qed.

(** C2.  For N submitted trials the worker pool returns normally with
    exactly N matches, one per submitted trial (in completion order, some
    rearrangement of the submission order), each built from the answer
    of the language model or from the fallback translation; this holds
    for every behaviour of the language model, failures included. *)
Theorem worker_pool_returns_one_match_per_trial
    (self : MS.TrialMatchingService) (schedule : list nat)
    (raw_trials : list CT.RawTrialData) (tr : Py.Trace) :
  exists calls order processed_matches ai_success_rate,
    MS._process_trials_with_ai self schedule raw_trials tr
      = (tr ++ calls, inr (processed_matches, ai_success_rate)) /\
    length processed_matches = length raw_trials /\
    Permutation order raw_trials /\
    Forall2 (fun trial m =>
               TM.nct_id m = CT.nct_id trial /\
               (m = MS.build_match trial (fallback_of trial) \/
                exists translation,
                  ai_translation self trial = Some translation /\
                  m = MS.build_match trial translation))
            order processed_matches.
Proof.
  rewrite process_trials_with_ai_eq.
  pose proof (as_completed_permutation schedule raw_trials) as P.
  do 4 eexists. split; [reflexivity|]. split; [|split; [exact P|]].
  - now rewrite length_map, (Permutation_length P).
  - clear P.
    induction (MS.as_completed schedule raw_trials) as [|trial order IH];
      cbn [map]; constructor; [|exact IH].
    split; [|apply match_of_cases].
    destruct (match_of_cases self trial) as [->|(t & _ & ->)];
      apply build_match_nct_id.
Qed.

Lemma markers_absent_build_match (trial : CT.RawTrialData)
    (translation : GS.TrialTranslation) (success : bool) :
  MS.translation_success_of translation = inr success ->
  markers_absent (MS.build_match trial translation) = success.
Proof.
  unfold MS.translation_success_of, markers_absent.
  change (TM.eligibility_simplified (MS.build_match trial translation))
    with (GS.eligibility_simplified translation).
  change (TM.time_commitment (MS.build_match trial translation))
    with (GS.time_commitment translation).
  destruct (Py.py_in MS.eligibility_marker
              (GS.eligibility_simplified translation)) as [e|[|]];
    destruct (Py.py_in MS.time_commitment_marker
                (GS.time_commitment translation)) as [e'|[|]];
    intro H; inversion H; reflexivity.
Qed.

(** The flag of a task is the marker test on the content of its match. *)
Lemma success_of_markers_absent (self : MS.TrialMatchingService)
    (trial : CT.RawTrialData) :
  success_of self trial = markers_absent (match_of self trial).
Proof.
  unfold success_of, match_of, single_trial_outcome.
  pose proof (markers_absent_build_match trial (fallback_of trial) false
                (fallback_carries_marker trial)) as Hfb.
  destruct (ai_translation self trial) as [translation|]; [|now cbn [fst snd]].
  destruct (MS.translation_success_of translation) as [e|b] eqn:E;
    cbn [fst snd]; [easy|].
  symmetry. now apply markers_absent_build_match.
Qed.

(** A run in which every translation fails: nothing but fallback
    matches, and a rate of zero. *)
Lemma worker_pool_fallback_only
    (self : MS.TrialMatchingService) (schedule : list nat)
    (raw_trials : list CT.RawTrialData) (tr : Py.Trace) :
  (forall trial, In trial raw_trials -> ai_translation self trial = None) ->
  exists calls ai_success_rate,
    MS._process_trials_with_ai self schedule raw_trials tr
      = (tr ++ calls,
         inr (map (fun trial => MS.build_match trial (fallback_of trial))
                  (MS.as_completed schedule raw_trials),
              ai_success_rate)) /\
    (ai_success_rate == 0)%Q.
Proof.
  intro Hfail. rewrite process_trials_with_ai_eq. do 2 eexists. split.
  - f_equal. f_equal. f_equal. apply map_ext_in. intros trial Hin.
    unfold match_of, single_trial_outcome. rewrite Hfail; [reflexivity|].
    eapply Permutation_in; [apply as_completed_permutation | exact Hin].
  - assert (Hnone : filter (success_of self) raw_trials = []).
    { induction raw_trials as [|trial rest IH]; [reflexivity|].
      cbn [filter]. unfold success_of at 1, single_trial_outcome.
      rewrite (Hfail trial (or_introl eq_refl)). cbn [snd].
      apply IH. intros t Ht. apply Hfail. now right. }
    rewrite Hnone. now destruct raw_trials.
Qed.

(** C6, as the code has it.  A task returns normally, and its success
    flag is true exactly when neither marker is found in the content of
    the match (the eligibility marker in [eligibility_simplified], the
    time-commitment marker in [time_commitment]), which is the case
    exactly when the language model delivered a translation free of both
    markers.  A run through the fallback path is always flagged false, so
    a true flag means the content is the model's; the converse is not
    claimed. *)
Theorem success_flag_is_marker_test
    (self : MS.TrialMatchingService) (trial : CT.RawTrialData) (tr : Py.Trace) :
  exists calls m flag,
    MS._process_single_trial self trial tr = (tr ++ calls, inr (m, flag)) /\
    flag = markers_absent m /\
    (flag = true <->
     exists translation,
       ai_translation self trial = Some translation /\
       MS.translation_success_of translation = inr true) /\
    (used_fallback calls = true -> flag = false) /\
    (flag = true ->
     used_fallback calls = false /\
     exists translation,
       ai_translation self trial = Some translation /\
       m = MS.build_match trial translation).
Proof.
  exists (calls_of self trial), (match_of self trial), (success_of self trial).
  split; [apply process_single_trial_eq|].
  split; [apply success_of_markers_absent|]. split; [apply success_of_iff|].
  assert (H : success_of self trial = true ->
              used_fallback (calls_of self trial) = false /\
              exists translation,
                ai_translation self trial = Some translation /\
                match_of self trial = MS.build_match trial translation).
  { intro Hs. apply success_of_iff in Hs as (t & Ht & Hok).
    assert (Hu : used_fallback (calls_of self trial) = false).
    { apply used_fallback_iff. exists t, true. repeat split; auto.
      - unfold match_of, single_trial_outcome. now rewrite Ht, Hok.
      - unfold success_of, single_trial_outcome. now rewrite Ht, Hok. }
    split; [exact Hu|].
    apply used_fallback_iff in Hu as (t' & s & Ht' & _ & Hm & _). eauto. }
  split; [|exact H].
  intro Hu. destruct (success_of self trial); [|reflexivity].
  destruct (H eq_refl) as [Hf _]. congruence.
Qed.

(** C6 fails as stated: the candid answer of the language model is
    well-formed and is the content of the match, the fallback is never
    asked for, and yet the flag is false. *)
Lemma success_flag_false_without_fallback :
  exists calls m flag,
    MS._process_single_trial Samples.candid_service Samples.recruiting_trial []
      = (calls, inr (m, flag)) /\
    TM.time_commitment m
      = Py.JStr "Time commitment information not available in the study record." /\
    ~ (flag = true <-> used_fallback calls = false).
Proof.
  do 3 eexists. split; [vm_compute; reflexivity|].
  split; [reflexivity|]. cbn. intros [_ H]. specialize (H eq_refl).
  discriminate.
Qed.

Lemma success_rate_empty (successful : nat) : MS.success_rate successful [] = 0%Q.
Proof. reflexivity. Qed.

Lemma success_rate_nonempty (successful : nat) (raw_trials : list CT.RawTrialData) :
  raw_trials <> [] ->
  MS.success_rate successful raw_trials
    = (Z.of_nat successful # Pos.of_nat (length raw_trials)).
Proof. destruct raw_trials; [congruence | reflexivity]. Qed.

Lemma filter_all (A : Type) (f : A -> bool) (l : list A) :
  (forall x, In x l -> f x = true) -> filter f l = l.
Proof.
  induction l as [|a l IH]; intro H; simpl; [reflexivity|].
  rewrite (H a (or_introl eq_refl)). f_equal. apply IH. intros; apply H.
  now right.
Qed.

(** C7, as the code has it.  The pool returns the rate
    (number of trials flagged successful) / (number of trials submitted),
    where a trial is flagged successful exactly when the language model
    delivered a translation in which neither marker is found; the rate is
    0 for the empty list, and 1 when at least one trial is submitted and
    every trial is flagged successful. *)
Theorem success_rate_is_share_of_flagged_trials
    (self : MS.TrialMatchingService) (schedule : list nat)
    (raw_trials : list CT.RawTrialData) (tr : Py.Trace) :
  exists calls processed_matches ai_success_rate,
    MS._process_trials_with_ai self schedule raw_trials tr
      = (tr ++ calls, inr (processed_matches, ai_success_rate)) /\
    (forall trial,
       success_of self trial = true <->
       exists translation,
         ai_translation self trial = Some translation /\
         MS.translation_success_of translation = inr true) /\
    (raw_trials = [] -> ai_success_rate = 0%Q) /\
    (raw_trials <> [] ->
     ai_success_rate
       = (Z.of_nat (length (filter (success_of self) raw_trials))
            # Pos.of_nat (length raw_trials))) /\
    (raw_trials <> [] ->
     (forall trial, In trial raw_trials -> success_of self trial = true) ->
     (ai_success_rate == 1)%Q).
Proof.
  rewrite process_trials_with_ai_eq. do 3 eexists.
  split; [reflexivity|]. split; [intro; apply success_of_iff|].
  split; [intros ->; reflexivity|].
  split; [apply success_rate_nonempty|].
  intros Hne Hall. rewrite success_rate_nonempty by exact Hne.
  rewrite (filter_all _ _ _ Hall).
  destruct raw_trials as [|t l]; [congruence|].
  unfold Qeq. cbn [Qnum Qden length].
  rewrite Z.mul_1_l, Z.mul_1_r.
  rewrite <- positive_nat_Z, Nat2Pos.id by discriminate. reflexivity.
Qed.

(** C7 fails as stated: every call of the language model succeeds with
    a well-formed response holding the four required fields, and the
    rate is 0, not 1. *)
Lemma success_rate_zero_despite_well_formed_responses :
  Forall (fun trial => well_formed_response Samples.candid_service trial = true)
         [Samples.recruiting_trial] /\
  exists calls processed_matches ai_success_rate,
    MS._process_trials_with_ai Samples.candid_service [] [Samples.recruiting_trial] []
      = (calls, inr (processed_matches, ai_success_rate)) /\
    ~ (ai_success_rate == 1)%Q.
Proof.
  split; [repeat constructor|].
  do 3 eexists. split; [vm_compute; reflexivity|].
  intro H. vm_compute in H. discriminate.
Qed.

(* ===================================================================== *)
(** ** The match assembler *)
(* ===================================================================== *)

Section Assembler.

Variable md5_hexdigest : string -> string.
Variables (self : MS.TrialMatchingService) (schedule : list nat)
          (user_profile : UP.UserProfile).

Let answer :=
  CT.search_trials (MS.clinical_trials_service self)
    (UP.conditions user_profile)
    (UP.city (UP.location user_profile), UP.state (UP.location user_profile),
     UP.country (UP.location user_profile))
    (UP.age user_profile) (MS.max_results self).

Lemma search_trials_eq (tr : Py.Trace) :
  MS._search_trials self user_profile tr =
  (tr ++ [Py.Call_search_trials],
   match answer with
   | inl e =>
       inl (Py.TrialMatchingError
              ("Failed to search clinical trials: " ++ Py.str e)%string
              "API_ERROR")
   | inr raw_trials => inr raw_trials
   end).
Proof.
  unfold MS._search_trials, Py.try_except, Py.bind, Py.call, Py.lift, Py.ret,
    Py.raise.
  cbn [UP.get_search_params UP.sp_conditions UP.sp_city UP.sp_state
       UP.sp_country UP.sp_age]. fold answer.
  now destruct answer.
Qed.

(** [find_matching_trials] in closed form: one call of the registry, then
    either the re-wrapped error, the empty result, or the assembled
    result of filter and worker pool. *)
Lemma find_matching_trials_eq (tr : Py.Trace) :
  MS.find_matching_trials md5_hexdigest self schedule user_profile tr =
  match answer with
  | inl e =>
      (tr ++ [Py.Call_search_trials],
       inl (Py.TrialMatchingError
              ("Failed to find matching trials: "
                 ++ ("Failed to search clinical trials: " ++ Py.str e))%string
              "MATCHING_ERROR"))
  | inr [] =>
      (tr ++ [Py.Call_search_trials],
       inr {| TM.matches := [];
              TM.total_found := 0;
              TM.search_params := UP.get_search_params user_profile;
              TM.cached := false;
              TM.ai_translation_success_rate := 0 |})
  | inr raw_trials =>
      let filtered := MS._filter_trials raw_trials user_profile in
      let order := MS.as_completed schedule filtered in
      ((tr ++ [Py.Call_search_trials]) ++ flat_map (calls_of self) order,
       inr {| TM.matches := map (match_of self) order;
              TM.total_found := length (map (match_of self) order);
              TM.search_params := UP.get_search_params user_profile;
              TM.cached := false;
              TM.ai_translation_success_rate :=
                MS.success_rate
                  (length (filter (success_of self) filtered)) filtered |})
  end.
Proof.
  unfold MS.find_matching_trials.
  unfold Py.try_except at 1. unfold Py.bind at 1.
  rewrite search_trials_eq.
  destruct answer as [e|[|trial raw_trials]]; try reflexivity.
  unfold Py.bind. rewrite process_trials_with_ai_eq. reflexivity.
Qed.

(** Whatever goes wrong, the caller sees the default classification. *)
Lemma find_matching_trials_error_type (tr : Py.Trace) (e : Py.exn) :
  snd (MS.find_matching_trials md5_hexdigest self schedule user_profile tr) = inl e ->
  Py.error_type_of e = Some "MATCHING_ERROR".
Proof.
  rewrite find_matching_trials_eq.
  destruct answer as [e'|[|trial raw_trials]]; cbn [snd];
    try discriminate.
  now intros [= <-].
Qed.

(** Failing translations never fail the request: once the registry has
    answered, the request returns a result. *)
Lemma translation_failures_are_absorbed (tr : Py.Trace)
    (raw_trials : list CT.RawTrialData) :
  answer = inr raw_trials ->
  exists result,
    snd (MS.find_matching_trials md5_hexdigest self schedule user_profile tr)
      = inr result.
Proof.
  intro H. rewrite find_matching_trials_eq, H.
  destruct raw_trials; eexists; reflexivity.
Qed.

(** The cache is neither read nor written and the registry is always
    called. *)
Lemma find_matching_trials_calls (tr : Py.Trace) :
  exists calls,
    fst (MS.find_matching_trials md5_hexdigest self schedule user_profile tr)
      = tr ++ Py.Call_search_trials :: calls /\
    (~ In Py.Call_get_cached_trials calls /\ ~ In Py.Call_cache_trials calls) /\
    forall result,
      snd (MS.find_matching_trials md5_hexdigest self schedule user_profile tr)
        = inr result ->
      TM.cached result = false.
Proof.
  rewrite find_matching_trials_eq.
  destruct answer as [e|[|trial raw_trials]].
  - exists []. cbn [fst snd]. repeat split; [auto | auto | discriminate].
  - exists []. cbn [fst snd]. repeat split; [auto | auto |].
    now intros r [= <-].
  - cbv zeta. cbn [fst snd]. eexists. split.
    + rewrite <- app_assoc. reflexivity.
    + split; [|now intros r [= <-]].
      split; intro H; apply in_flat_map in H as (t & _ & H);
        unfold calls_of, single_trial_outcome in H;
        (destruct (ai_translation self t) as [translation|];
         [destruct (MS.translation_success_of translation)|]);
        cbn in H; intuition discriminate.
Qed.

End Assembler.

(** C1, at the input of [test_find_matching_trials_with_cache_hit].  The
    cache holds an entry for the profile, [_get_cached_results] would
    return it, and [find_matching_trials] never asks for it: it calls the
    registry, runs the worker pool and returns a result that is not marked
    as cached. *)
Theorem cache_hit_is_not_served
    (md5_hexdigest : string -> string) (schedule : list nat) :
  MS._get_cached_results Samples.cached_service Samples.profile []
    = ([Py.Call_get_cached_trials], inr (Some Samples.cached_entry)) /\
  exists calls result,
    MS.find_matching_trials md5_hexdigest Samples.cached_service schedule
      Samples.profile []
      = (Py.Call_search_trials :: calls, inr result) /\
    In (Py.Call_translate_with_fallback (CT.title Samples.recruiting_trial)) calls /\
    ~ In Py.Call_get_cached_trials calls /\
    TM.cached result = false.
Proof.
  split; [reflexivity|].
  rewrite find_matching_trials_eq.
  change (CT.search_trials _ _ _ _ _) with
    (@inr Py.exn _ [Samples.recruiting_trial]).
  cbv iota zeta.
  replace (MS._filter_trials [Samples.recruiting_trial] Samples.profile)
    with [Samples.recruiting_trial] by (vm_compute; reflexivity).
  assert (Horder : MS.as_completed schedule [Samples.recruiting_trial]
                   = [Samples.recruiting_trial]).
  { destruct schedule as [|k rest]; [reflexivity|].
    cbn [MS.as_completed length]. rewrite Nat.mod_1_r. cbn.
    now destruct rest. }
  rewrite Horder.
  do 2 eexists. split; [reflexivity|].
  split; [vm_compute; auto|]. split; [|reflexivity].
  vm_compute. intuition discriminate.
Qed.

(** C8, at the input of [test_find_matching_trials_api_error].  The
    registry raises; [_search_trials] classifies the failure as API_ERROR,
    and [find_matching_trials] catches that error and raises a new one
    with the default classification MATCHING_ERROR, the one every other
    failure gets. *)
Theorem upstream_failure_loses_its_classification
    (md5_hexdigest : string -> string) (schedule : list nat) :
  MS._search_trials Samples.cut_off_service Samples.profile []
    = ([Py.Call_search_trials],
       inl (Py.TrialMatchingError
              "Failed to search clinical trials: API Error" "API_ERROR")) /\
  MS.find_matching_trials md5_hexdigest Samples.cut_off_service schedule
    Samples.profile []
    = ([Py.Call_search_trials],
       inl (Py.TrialMatchingError
              "Failed to find matching trials: Failed to search clinical trials: API Error"
              "MATCHING_ERROR")).
Proof.
  split; [reflexivity|]. now rewrite find_matching_trials_eq.
Qed.

(* ===================================================================== *)
(** ** Instances *)
(* ===================================================================== *)

(** The example of the specification: three raw trials for a profile in
    CA; the finished one is dropped, the TX one is placed in the
    recruiting list. *)
Example filter_three_trials :
  map CT.nct_id
    (MS._filter_trials
       [Samples.trial "NCT1" "Recruiting" [Samples.site "CA"];
        Samples.trial "NCT2" "Completed" [Samples.site "CA"];
        Samples.trial "NCT3" "Recruiting" [Samples.site "TX"]]
       Samples.profile)
  = ["NCT1"; "NCT3"].
Proof. vm_compute. reflexivity. Qed.

Example age_ranges :
  map MS._get_age_range [16; 25; 35; 55; 70]%Z
  = ["under_18"; "18_29"; "30_49"; "50_64"; "65_plus"].
Proof. reflexivity. Qed.

(** C4 on a sparse region: one local trial, one finished trial and eleven
    suspended trials without a site. *)
Lemma backfill_reaches_minimum_witness :
  length (MS.bucketed_trials Samples.sparse_trials Samples.profile) < 10 /\
  (10 <= length (open_trials Samples.sparse_trials) ->
   10 <= length (MS._filter_trials Samples.sparse_trials Samples.profile)) /\
  (length (open_trials Samples.sparse_trials) < 10 ->
   Permutation (MS._filter_trials Samples.sparse_trials Samples.profile)
               (open_trials Samples.sparse_trials)).
Proof.
  assert (H : length (MS.bucketed_trials Samples.sparse_trials Samples.profile) < 10)
    by (vm_compute; lia).
  split; [exact H|].
  exact (backfill_reaches_minimum Samples.sparse_trials Samples.profile H).
Defined.


(* ===================================================================== *)
(** ** Further properties of the filter *)
(* ===================================================================== *)

Lemma scan_locations_local (user_state : string) (locs : list CT.TrialLocation) :
  forall has_nearby,
    fst (MS.scan_locations user_state locs has_nearby) =
    existsb (fun loc => PyStr.truthy (CT.state loc)
                        && String.eqb (PyStr.upper (CT.state loc)) user_state)
            locs.
Proof.
  induction locs as [|loc rest IH]; intro has_nearby; [reflexivity|].
  cbn [MS.scan_locations existsb].
  destruct (PyStr.truthy (CT.state loc)); cbn [andb orb]; [|apply IH].
  destruct (String.eqb (PyStr.upper (CT.state loc)) user_state);
    cbn [orb]; [reflexivity|].
  repeat match goal with
         | |- context [if ?c then _ else _] => destruct c
         end; apply IH.
Qed.

Lemma in_bucket_local (user_state : string) (trial : CT.RawTrialData) :
  in_bucket user_state Local trial =
  negb (MS.is_finished trial) && has_local_site user_state trial.
Proof.
  unfold in_bucket, bucket_of, has_local_site.
  rewrite <- (scan_locations_local user_state (CT.locations trial) false).
  destruct (MS.is_finished trial); [reflexivity|].
  destruct (MS.scan_locations user_state (CT.locations trial) false)
    as [[|] has_nearby]; cbn [fst negb andb]; [reflexivity|].
  destruct has_nearby; [reflexivity|].
  destruct (PyStr.in_list (PyStr.lower (CT.status trial))
              ["recruiting"; "not yet recruiting"]); [reflexivity|].
  now destruct (PyStr.in_list (PyStr.lower (CT.status trial))
                  ["active, not recruiting"; "enrolling by invitation"]).
Qed.

Lemma filter_trials_prefix (raw_trials : list CT.RawTrialData)
    (user_profile : UP.UserProfile) :
  exists rest,
    MS._filter_trials raw_trials user_profile =
    MS.bucketed_trials raw_trials user_profile ++ rest /\
    length rest <= 15 /\
    (10 <= length (MS.bucketed_trials raw_trials user_profile) -> rest = []).
Proof.
  unfold MS._filter_trials.
  destruct (Nat.ltb_spec (length (MS.bucketed_trials raw_trials user_profile)) 10).
  - eexists. split; [reflexivity|]. split; [apply firstn_le_length | lia].
  - exists []. rewrite app_nil_r. repeat split; simpl; lia.
Qed.

(** X1.  Local trials are never capped: the result of the filter starts
    with every open trial that has a site in the user's state, in input
    order. *)
Theorem filter_keeps_all_local_trials_first
    (raw_trials : list CT.RawTrialData) (user_profile : UP.UserProfile) :
  exists rest,
    MS._filter_trials raw_trials user_profile =
    local_open_trials raw_trials user_profile ++ rest.
Proof.
  destruct (filter_trials_prefix raw_trials user_profile) as (rest & -> & _).
  rewrite bucketed_trials_eq. unfold local_open_trials.
  rewrite (filter_ext _ _ (in_bucket_local (MS.user_state_of user_profile))).
  rewrite <- !app_assoc. eexists. reflexivity.
Qed.

(** X2.  The cost of the translation stage is bounded: the filter returns
    at most 65 trials on top of the local ones (20 nearby, 30 recruiting,
    15 active; a backfilled result has fewer than 25 trials). *)
Theorem filter_result_size_bound
    (raw_trials : list CT.RawTrialData) (user_profile : UP.UserProfile) :
  length (MS._filter_trials raw_trials user_profile)
  <= length (local_open_trials raw_trials user_profile) + 65.
Proof.
  unfold MS._filter_trials.
  assert (Hpre : length (MS.bucketed_trials raw_trials user_profile)
                 <= length (local_open_trials raw_trials user_profile) + 65).
  { rewrite bucketed_trials_eq, !length_app. unfold local_open_trials.
    rewrite (filter_ext _ _ (in_bucket_local (MS.user_state_of user_profile))).
    pose proof (firstn_le_length 20
      (filter (in_bucket (MS.user_state_of user_profile) Nearby) raw_trials)).
    pose proof (firstn_le_length 30
      (filter (in_bucket (MS.user_state_of user_profile) Recruiting) raw_trials)).
    pose proof (firstn_le_length 15
      (filter (in_bucket (MS.user_state_of user_profile) Active) raw_trials)).
    lia. }
  destruct (Nat.ltb_spec (length (MS.bucketed_trials raw_trials user_profile)) 10);
    [|exact Hpre].
  rewrite length_app.
  pose proof (firstn_le_length 15
    (MS.remaining_trials raw_trials (MS.bucketed_trials raw_trials user_profile))).
  lia.
Qed.

Section FilterTwice.

Variable us : string.

Lemma filter_block (j k : Bucket) (l : list CT.RawTrialData) :
  (forall trial, In trial l -> in_bucket us j trial = true) ->
  filter (in_bucket us k) l = if Bucket_eqb j k then l else [].
Proof.
  intro H. induction l as [|trial l IH]; [now destruct (Bucket_eqb j k)|].
  cbn [filter]. rewrite IH by (intros; apply H; now right).
  pose proof (H trial (or_introl eq_refl)) as Hj. unfold in_bucket in *.
  destruct (bucket_of us trial), j, k; cbn in *; congruence.
Qed.

Lemma firstn_filter_block (n : nat) (j : Bucket) (l : list CT.RawTrialData) trial :
  In trial (firstn n (filter (in_bucket us j) l)) -> in_bucket us j trial = true.
Proof. intro H. apply In_firstn in H. now apply filter_In in H. Qed.

(** Filtering a list made of one block per bucket gives the block back. *)
Lemma filter_blocks (k : Bucket) (bl bn br ba bu : list CT.RawTrialData) :
  (forall t, In t bl -> in_bucket us Local t = true) ->
  (forall t, In t bn -> in_bucket us Nearby t = true) ->
  (forall t, In t br -> in_bucket us Recruiting t = true) ->
  (forall t, In t ba -> in_bucket us Active t = true) ->
  (forall t, In t bu -> in_bucket us Unplaced t = true) ->
  filter (in_bucket us k) (bl ++ bn ++ br ++ ba ++ bu) =
  match k with
  | Local => bl | Nearby => bn | Recruiting => br | Active => ba
  | Unplaced => bu | Finished => []
  end.
Proof.
  intros Hl Hn Hr Ha Hu. rewrite !filter_app.
  rewrite (filter_block Local k bl Hl), (filter_block Nearby k bn Hn),
    (filter_block Recruiting k br Hr), (filter_block Active k ba Ha),
    (filter_block Unplaced k bu Hu).
  destruct k; cbn; now rewrite ?app_nil_r.
Qed.

End FilterTwice.

(** X3.  Filtering is idempotent: running the filter on its own result
    changes nothing. *)
Theorem filter_idempotent
    (raw_trials : list CT.RawTrialData) (user_profile : UP.UserProfile) :
  MS._filter_trials (MS._filter_trials raw_trials user_profile) user_profile
  = MS._filter_trials raw_trials user_profile.
Proof.
  set (us := MS.user_state_of user_profile).
  set (bl := filter (in_bucket us Local) raw_trials).
  set (bn := firstn 20 (filter (in_bucket us Nearby) raw_trials)).
  set (br := firstn 30 (filter (in_bucket us Recruiting) raw_trials)).
  set (ba := firstn 15 (filter (in_bucket us Active) raw_trials)).
  set (bu := firstn 15 (filter (in_bucket us Unplaced) raw_trials)).
  assert (Hl : forall t, In t bl -> in_bucket us Local t = true)
    by (intros t H; now apply filter_In in H).
  assert (Hn : forall t, In t bn -> in_bucket us Nearby t = true)
    by (intro t; apply firstn_filter_block).
  assert (Hr : forall t, In t br -> in_bucket us Recruiting t = true)
    by (intro t; apply firstn_filter_block).
  assert (Ha : forall t, In t ba -> in_bucket us Active t = true)
    by (intro t; apply firstn_filter_block).
  assert (Hu : forall t, In t bu -> in_bucket us Unplaced t = true)
    by (intro t; apply firstn_filter_block).
  assert (Hnil : forall t, In t (@nil CT.RawTrialData) ->
                           in_bucket us Unplaced t = true) by (intros t []).
  assert (Hpre : MS.bucketed_trials raw_trials user_profile = bl ++ bn ++ br ++ ba)
    by apply bucketed_trials_eq.
  (* the result is a list of blocks *)
  assert (Hout : exists tail,
            MS._filter_trials raw_trials user_profile = bl ++ bn ++ br ++ ba ++ tail /\
            (forall t, In t tail -> in_bucket us Unplaced t = true) /\
            ((tail = [] /\ 10 <= length (bl ++ bn ++ br ++ ba)) \/
             (tail = bu /\ length (bl ++ bn ++ br ++ ba) < 10))).
  { unfold MS._filter_trials. rewrite Hpre.
    destruct (Nat.ltb_spec (length (bl ++ bn ++ br ++ ba)) 10) as [Hlt|Hge].
    - exists bu. rewrite <- Hpre in Hlt |- *.
      rewrite (remaining_trials_unplaced raw_trials user_profile Hlt).
      rewrite Hpre, <- !app_assoc. repeat split; auto.
      right. split; [reflexivity | now rewrite <- Hpre].
    - exists []. rewrite !app_nil_r. repeat split; auto. }
  destruct Hout as (tail & Hout & Htail & Hcase).
  rewrite Hout.
  assert (Hpre2 : MS.bucketed_trials (bl ++ bn ++ br ++ ba ++ tail) user_profile
                  = bl ++ bn ++ br ++ ba).
  { rewrite bucketed_trials_eq. fold us.
    rewrite !(filter_blocks us _ bl bn br ba tail Hl Hn Hr Ha Htail).
    unfold bn, br, ba. now rewrite !firstn_firstn, !Nat.min_id. }
  unfold MS._filter_trials at 1. rewrite Hpre2.
  destruct Hcase as [[-> Hge]|[-> Hlt]].
  - apply Nat.ltb_ge in Hge. now rewrite Hge, !app_nil_r.
  - assert (Hlt2 : length (MS.bucketed_trials (bl ++ bn ++ br ++ ba ++ bu)
                             user_profile) < 10) by now rewrite Hpre2.
    rewrite <- Hpre2.
    rewrite (remaining_trials_unplaced _ user_profile Hlt2). fold us.
    rewrite (filter_blocks us Unplaced bl bn br ba bu Hl Hn Hr Ha Hu).
    rewrite Hpre2. apply Nat.ltb_lt in Hlt. rewrite Hlt.
    unfold bu at 1. rewrite firstn_firstn, Nat.min_id. fold bu.
    now rewrite <- !app_assoc.
Qed.

(* ===================================================================== *)
(** ** Further properties of the worker pool and the assembler *)
(* ===================================================================== *)

Lemma calls_of_accounting (self : MS.TrialMatchingService) (trial : CT.RawTrialData) :
  length (filter is_translate_call (calls_of self trial)) = 1 /\
  length (filter is_fallback_call (calls_of self trial))
    + (if success_of self trial then 1 else 0) <= 1 /\
  forallb (fun c => is_translate_call c || is_fallback_call c)
          (calls_of self trial) = true.
Proof.
  unfold calls_of, success_of, single_trial_outcome.
  destruct (ai_translation self trial) as [translation|];
    [destruct (MS.translation_success_of translation) as [e|[|]]|];
    cbn; repeat split; lia.
Qed.

Lemma flat_map_calls_accounting (self : MS.TrialMatchingService)
    (order : list CT.RawTrialData) :
  length (filter is_translate_call (flat_map (calls_of self) order))
    = length order /\
  length (filter is_fallback_call (flat_map (calls_of self) order))
    + length (filter (success_of self) order) <= length order /\
  forallb (fun c => is_translate_call c || is_fallback_call c)
          (flat_map (calls_of self) order) = true.
Proof.
  induction order as [|trial order (IH1 & IH2 & IH3)]; [cbn; auto|].
  destruct (calls_of_accounting self trial) as (H1 & H2 & H3).
  cbn [flat_map filter]. rewrite !filter_app, !length_app, forallb_app.
  rewrite H1, IH1, H3, IH3. repeat split.
  destruct (success_of self trial); cbn [length] in *; lia.
Qed.

(** X4.  One translation request per submitted trial: the pool calls
    [translate_with_fallback] exactly N times, asks for at most one
    fallback translation per trial that is not flagged successful, and
    calls nothing else. *)
Theorem worker_pool_call_accounting
    (self : MS.TrialMatchingService) (schedule : list nat)
    (raw_trials : list CT.RawTrialData) (tr : Py.Trace) :
  exists calls result,
    MS._process_trials_with_ai self schedule raw_trials tr
      = (tr ++ calls, inr result) /\
    length (filter is_translate_call calls) = length raw_trials /\
    length (filter is_fallback_call calls)
      + length (filter (success_of self) raw_trials) <= length raw_trials /\
    forallb (fun c => is_translate_call c || is_fallback_call c) calls = true.
Proof.
  rewrite process_trials_with_ai_eq. do 2 eexists. split; [reflexivity|].
  pose proof (as_completed_permutation schedule raw_trials) as P.
  destruct (flat_map_calls_accounting self (MS.as_completed schedule raw_trials))
    as (H1 & H2 & H3).
  rewrite (filter_length_permutation (success_of self) _ _ P) in H2.
  rewrite (Permutation_length P) in H1, H2. auto.
Qed.

(** The filter never returns more trials than the input has open ones. *)
Lemma filter_trials_length_le_open (raw_trials : list CT.RawTrialData)
    (user_profile : UP.UserProfile) :
  length (MS._filter_trials raw_trials user_profile)
  <= length (open_trials raw_trials).
Proof.
  pose proof (Permutation_length
    (open_trials_partition (MS.user_state_of user_profile) raw_trials)) as Hlen.
  rewrite !length_app in Hlen.
  destruct (Nat.ltb_spec (length (MS.bucketed_trials raw_trials user_profile)) 10)
    as [Hlt|Hge].
  - rewrite (filter_trials_backfilled raw_trials user_profile Hlt).
    rewrite !length_app, length_firstn. lia.
  - unfold MS._filter_trials. apply Nat.ltb_ge in Hge. rewrite Hge.
    rewrite bucketed_trials_eq, !length_app, !length_firstn. lia.
Qed.

(** X5.  Once the registry has answered, [find_matching_trials] returns a
    result that is not marked as cached, echoes the search parameters of
    the profile, and holds one match per filtered trial: [total_found] is
    the number of matches, at most the number of open trials the registry
    returned, and the number of translation requests made.  In particular
    an empty answer gives an empty result without any translation
    request. *)
Theorem find_matching_trials_result_facts
    (md5_hexdigest : string -> string) (self : MS.TrialMatchingService)
    (schedule : list nat) (user_profile : UP.UserProfile) (tr : Py.Trace)
    (raw_trials : list CT.RawTrialData) :
  CT.search_trials (MS.clinical_trials_service self)
    (UP.conditions user_profile)
    (UP.city (UP.location user_profile), UP.state (UP.location user_profile),
     UP.country (UP.location user_profile))
    (UP.age user_profile) (MS.max_results self) = inr raw_trials ->
  exists calls result,
    MS.find_matching_trials md5_hexdigest self schedule user_profile tr
      = (tr ++ Py.Call_search_trials :: calls, inr result) /\
    TM.total_found result = length (TM.matches result) /\
    TM.total_found result = length (MS._filter_trials raw_trials user_profile) /\
    TM.total_found result <= length (open_trials raw_trials) /\
    length (filter is_translate_call calls) = TM.total_found result /\
    TM.cached result = false /\
    TM.search_params result = UP.get_search_params user_profile.
Proof.
  intro Hanswer. rewrite find_matching_trials_eq, Hanswer.
  destruct raw_trials as [|trial rest].
  - exists [], {| TM.matches := []; TM.total_found := 0;
                  TM.search_params := UP.get_search_params user_profile;
                  TM.cached := false;
                  TM.ai_translation_success_rate := 0 |}.
    repeat split. cbn. lia.
  - cbv zeta. set (raw := trial :: rest).
    pose proof (as_completed_permutation schedule
                  (MS._filter_trials raw user_profile)) as P.
    destruct (flat_map_calls_accounting self
                (MS.as_completed schedule (MS._filter_trials raw user_profile)))
      as (Hcalls & _ & _).
    do 2 eexists. split; [rewrite <- app_assoc; reflexivity|].
    cbn [TM.total_found TM.matches TM.cached TM.search_params].
    rewrite length_map, (Permutation_length P), Hcalls, (Permutation_length P).
    repeat split. apply filter_trials_length_le_open.
Qed.

Lemma find_matching_trials_result_facts_witness :
  CT.search_trials (MS.clinical_trials_service Samples.candid_service)
    (UP.conditions Samples.profile)
    (UP.city (UP.location Samples.profile), UP.state (UP.location Samples.profile),
     UP.country (UP.location Samples.profile))
    (UP.age Samples.profile) (MS.max_results Samples.candid_service)
    = inr [Samples.recruiting_trial] /\
  exists calls result,
    MS.find_matching_trials (fun s => s) Samples.candid_service [] Samples.profile []
      = ([] ++ Py.Call_search_trials :: calls, inr result) /\
    TM.total_found result = length (TM.matches result) /\
    TM.total_found result
      = length (MS._filter_trials [Samples.recruiting_trial] Samples.profile) /\
    TM.total_found result <= length (open_trials [Samples.recruiting_trial]) /\
    length (filter is_translate_call calls) = TM.total_found result /\
    TM.cached result = false /\
    TM.search_params result = UP.get_search_params Samples.profile.
Proof.
  split; [reflexivity|].
  exact (find_matching_trials_result_facts (fun s => s) Samples.candid_service []
           Samples.profile [] [Samples.recruiting_trial] eq_refl).
Defined.

(** X6.  Reading the cache never fails a request: [_get_cached_results]
    asks the cache once and returns its entry on a hit; a miss and a
    failure of the cache service both come back as [None]. *)
Theorem get_cached_results_absorbs_cache_failures
    (self : MS.TrialMatchingService) (user_profile : UP.UserProfile)
    (tr : Py.Trace) :
  MS._get_cached_results self user_profile tr =
  (tr ++ [Py.Call_get_cached_trials],
   inr (match DB.get_cached_trials (MS.cache_service self)
                (UP.get_search_params user_profile) with
        | inr (Some entry) => Some entry
        | inr None | inl _ => None
        end)).
Proof.
  unfold MS._get_cached_results, Py.try_except, Py.bind, Py.call, Py.lift, Py.ret.
  destruct (DB.get_cached_trials _ _) as [e|[entry|]]; reflexivity.
Qed.

(* ===================================================================== *)
(** ** Further properties of the translation service *)
(* ===================================================================== *)

(** X7.  [translate_trial_info] accepts a response exactly when it decodes
    to a JSON object that has the four required keys, and then hands the
    four values over unchanged; the compensation text is the value of its
    key, [None] when the key is missing.  Everything else -- an exception,
    an empty text, text that is not JSON, a JSON value that is not an
    object, an object lacking a key -- gives [None]. *)
Theorem translate_trial_info_accepts_iff
    (self : GS.GeminiTranslationService)
    (title criteria description : string) (compensation : option string)
    (translation : GS.TrialTranslation) :
  GS.translate_trial_info self title criteria description compensation
    = Some translation
  <->
  exists fields,
    GS.model self title criteria description compensation
      = GS.ResponseJson (Py.JObj fields) /\
    Py.dict_get "simplifiedDescription" fields
      = Some (GS.simplified_description translation) /\
    Py.dict_get "eligibilitySimplified" fields
      = Some (GS.eligibility_simplified translation) /\
    Py.dict_get "timeCommitment" fields = Some (GS.time_commitment translation) /\
    Py.dict_get "keyBenefits" fields = Some (GS.key_benefits translation) /\
    GS.compensation_explanation translation
      = match Py.dict_get "compensationExplanation" fields with
        | Some v => v
        | None => Py.JNull
        end.
Proof.
  unfold GS.translate_trial_info.
  destruct (GS.model self title criteria description compensation)
    as [msg| | |[| | | | |fields]];
    try (split; [discriminate | intros (f & [=] & _)]).
  unfold GS.required_fields. cbn [forallb]. unfold Py.dict_has.
  destruct (Py.dict_get "simplifiedDescription" fields) as [sd|] eqn:E1;
    [|split; [discriminate | intros (f & [= <-] & H & _); congruence]].
  destruct (Py.dict_get "eligibilitySimplified" fields) as [es|] eqn:E2;
    [|split; [discriminate | intros (f & [= <-] & _ & H & _); congruence]].
  destruct (Py.dict_get "timeCommitment" fields) as [tc|] eqn:E3;
    [|split; [discriminate | intros (f & [= <-] & _ & _ & H & _); congruence]].
  destruct (Py.dict_get "keyBenefits" fields) as [kb|] eqn:E4;
    [|split; [discriminate | intros (f & [= <-] & _ & _ & _ & H & _); congruence]].
  cbn [andb]. split.
  - intros [= <-]. exists fields. cbn. repeat split; assumption.
  - intros (f & [= <-] & H1 & H2 & H3 & H4 & H5).
    destruct translation as [sd' es' tc' kb' ce']. cbn in *.
    congruence.
Qed.

Lemma string_length_app (a b : string) :
  String.length (a ++ b) = String.length a + String.length b.
Proof. induction a as [|c a IH]; cbn; [reflexivity | now rewrite IH]. Qed.

Lemma take_length (n : nat) (s : string) :
  String.length (PyStr.take n s) = Nat.min n (String.length s).
Proof.
  unfold PyStr.take. revert n; induction s as [|c s IH]; intros [|n]; cbn;
    try reflexivity.
  now rewrite IH.
Qed.

(** X8.  The fallback translation is bounded: a criteria text of up to 150
    characters and a description of up to 200 characters are passed on
    unchanged; longer ones are cut, so that the eligibility text never
    exceeds 202 characters and the description never exceeds 228
    characters plus the title. *)
Theorem fallback_translation_text_bounds
    (title criteria description : string) (compensation : option string) :
  exists sd es,
    GS.simplified_description
      (GS.fallback_translation title criteria description compensation)
      = Py.JStr sd /\
    GS.eligibility_simplified
      (GS.fallback_translation title criteria description compensation)
      = Py.JStr es /\
    String.length es <= 202 /\
    String.length sd <= 228 + String.length title /\
    (String.length criteria <= 150 -> es = criteria) /\
    (String.length description <= 200 -> sd = description).
Proof.
  unfold GS.fallback_translation. cbn [GS.simplified_description
    GS.eligibility_simplified]. do 2 eexists.
  split; [reflexivity|]. split; [reflexivity|].
  destruct (Nat.ltb_spec 150 (String.length criteria)) as [Hc|Hc];
    destruct (Nat.ltb_spec 200 (String.length description)) as [Hd|Hd];
    rewrite ?string_length_app, ?take_length; cbn [String.length];
    repeat split; intros; lia.
Qed.

(* ===================================================================== *)
(** ** Further properties of the cache key *)
(* ===================================================================== *)

Section Padding.

Local Open Scope string_scope.

Lemma lower_app (a b : string) :
  PyStr.lower (a ++ b) = PyStr.lower a ++ PyStr.lower b.
Proof. induction a as [|c a IH]; cbn; [reflexivity | now rewrite IH]. Qed.

Lemma lower_char_space (c : ascii) :
  PyStr.is_space c = true -> PyStr.lower_char c = c.
Proof.
  destruct c as [[|] [|] [|] [|] [|] [|] [|] [|]]; intro H;
    solve [reflexivity | discriminate H].
Qed.

Lemma lower_all_space (l : string) : all_space l = true -> PyStr.lower l = l.
Proof.
  induction l as [|c l IH]; cbn; [reflexivity|]. intro H.
  apply andb_prop in H as [Hc Hl]. now rewrite (lower_char_space c Hc), IH.
Qed.

Lemma lstrip_all_space (l : string) : all_space l = true -> PyStr.lstrip l = "".
Proof.
  induction l as [|c l IH]; cbn; [reflexivity|]. intro H.
  apply andb_prop in H as [Hc Hl]. now rewrite Hc, IH.
Qed.

Lemma lstrip_padding (l s : string) :
  all_space l = true -> PyStr.lstrip (l ++ s) = PyStr.lstrip s.
Proof.
  induction l as [|c l IH]; cbn; [reflexivity|]. intro H.
  apply andb_prop in H as [Hc Hl]. now rewrite Hc, IH.
Qed.

Lemma rstrip_all_space (r : string) : all_space r = true -> PyStr.rstrip r = "".
Proof.
  induction r as [|c r IH]; cbn; [reflexivity|]. intro H.
  apply andb_prop in H as [Hc Hr]. now rewrite IH, Hc.
Qed.

Lemma rstrip_padding (s r : string) :
  all_space r = true -> PyStr.rstrip (s ++ r) = PyStr.rstrip s.
Proof.
  intro H. induction s as [|c s IH]; cbn; [now apply rstrip_all_space|].
  now rewrite IH.
Qed.

Lemma strip_right_padding (s r : string) :
  all_space r = true -> PyStr.strip (s ++ r) = PyStr.strip s.
Proof.
  intro H. unfold PyStr.strip. induction s as [|c s IH]; cbn.
  - now rewrite (lstrip_all_space r H).
  - destruct (PyStr.is_space c); [exact IH|].
    now apply (rstrip_padding (String c s) r).
Qed.

Lemma strip_lower_padded (s t : string) :
  padded s t -> PyStr.strip (PyStr.lower t) = PyStr.strip (PyStr.lower s).
Proof.
  intros (l & r & Hl & Hr & ->).
  rewrite !lower_app, (lower_all_space l Hl), (lower_all_space r Hr).
  unfold PyStr.strip at 1. rewrite (lstrip_padding l _ Hl).
  now apply strip_right_padding.
Qed.

End Padding.

(** X9.  The cache key only sees the search intent: two profiles whose
    ages fall in the same range and whose conditions, city, state and
    country agree up to surrounding white space get the same key,
    whatever their medications, lifestyle and zip code. *)
Theorem search_key_ignores_padding_and_unused_fields
    (md5_hexdigest : string -> string) (p q : UP.UserProfile) :
  same_search_up_to_padding p q ->
  MS.generate_search_key md5_hexdigest p = MS.generate_search_key md5_hexdigest q.
Proof.
  intros (Hage & Hconds & Hcity & Hstate & Hcountry).
  assert (Hmap : map (fun condition => PyStr.strip (PyStr.lower condition))
                     (UP.conditions q)
                 = map (fun condition => PyStr.strip (PyStr.lower condition))
                       (UP.conditions p)).
  { induction Hconds as [|s t l1 l2 Hst _ IH]; [reflexivity|].
    cbn [map]. now rewrite (strip_lower_padded _ _ Hst), IH. }
  unfold MS.generate_search_key, MS.normalized_search_params.
  now rewrite Hage, Hmap, (strip_lower_padded _ _ Hcity),
    (strip_lower_padded _ _ Hstate), (strip_lower_padded _ _ Hcountry).
Qed.

Lemma search_key_ignores_padding_and_unused_fields_witness :
  same_search_up_to_padding Samples.profile Samples.padded_profile /\
  MS.generate_search_key (fun s => s) Samples.profile
    = MS.generate_search_key (fun s => s) Samples.padded_profile.
Proof.
  assert (H : same_search_up_to_padding Samples.profile Samples.padded_profile).
  { split; [reflexivity|]. split.
    - constructor; [exists " ", ""; now repeat split|].
      constructor; [exists "", "  "; now repeat split | constructor].
    - split; [exists "", " "; now repeat split|].
      split; [exists " ", ""; now repeat split | exists "", ""; now repeat split]. }
  split; [exact H|].
  exact (search_key_ignores_padding_and_unused_fields (fun s => s) _ _ H).
Defined.

Lemma age_range_cases (age : Z) :
  MS._get_age_range age = "under_18" \/ MS._get_age_range age = "18_29" \/
  MS._get_age_range age = "30_49" \/ MS._get_age_range age = "50_64" \/
  MS._get_age_range age = "65_plus".
Proof.
  unfold MS._get_age_range.
  repeat match goal with
         | |- context [if ?c then _ else _] => destruct c
         end; tauto.
Qed.

(** X10.  Ages in different ranges never share a cache entry by
    construction: the texts hashed into the key differ (the keys can then
    only agree by a collision of the digest). *)
Theorem search_strings_differ_across_age_ranges (p q : UP.UserProfile) :
  MS._get_age_range (UP.age p) <> MS._get_age_range (UP.age q) ->
  search_string p <> search_string q.
Proof.
  unfold search_string, MS.dumps_search_params, MS.normalized_search_params.
  cbn [MS.kp_age_range MS.kp_conditions MS.kp_city MS.kp_state MS.kp_country
       MS.kp_version].
  intros Hne Heq.
  match type of Heq with
  | (_ ++ _ ++ _ ++ _ ++ ?r1 = _ ++ _ ++ _ ++ _ ++ ?r2)%string =>
      generalize dependent r1; generalize dependent r2
  end.
  intros r2 r1 Heq.
  destruct (age_range_cases (UP.age p)) as [Hp|[Hp|[Hp|[Hp|Hp]]]];
    destruct (age_range_cases (UP.age q)) as [Hq|[Hq|[Hq|[Hq|Hq]]]];
    rewrite Hp, Hq in *; try congruence;
    cbv in Heq; discriminate Heq.
Qed.

Lemma search_strings_differ_across_age_ranges_witness :
  MS._get_age_range (UP.age Samples.minor_profile)
    <> MS._get_age_range (UP.age Samples.profile) /\
  search_string Samples.minor_profile <> search_string Samples.profile.
Proof.
  assert (H : MS._get_age_range (UP.age Samples.minor_profile)
              <> MS._get_age_range (UP.age Samples.profile))
    by (cbv; discriminate).
  split; [exact H|].
  exact (search_strings_differ_across_age_ranges _ _ H).
Defined.

(* ===================================================================== *)
(** ** Single-trial lookup *)
(* ===================================================================== *)

(** X11.  [get_trial_by_id] on the three answers of the registry: a
    failure is re-raised as a matching error naming the trial; a trial
    reported absent gives [None] without any translation request; a trial
    that is found always gives a match for that trial, built from the
    model's translation or from the fallback after exactly one translation
    request -- a failing translation never fails the lookup. *)
Theorem get_trial_by_id_outcomes
    (self : MS.TrialMatchingService)
    (get_trial_by_nct_id : string -> Py.exn + option CT.RawTrialData)
    (nct_id : string) (tr : Py.Trace) :
  match get_trial_by_nct_id nct_id with
  | inl e =>
      MS.get_trial_by_id self get_trial_by_nct_id nct_id tr
      = (tr, inl (Py.TrialMatchingError
                    ("Failed to retrieve trial " ++ nct_id ++ ": " ++ Py.str e)%string
                    "MATCHING_ERROR"))
  | inr None =>
      MS.get_trial_by_id self get_trial_by_nct_id nct_id tr = (tr, inr None)
  | inr (Some raw_trial) =>
      exists calls m,
        MS.get_trial_by_id self get_trial_by_nct_id nct_id tr
        = (tr ++ calls, inr (Some m)) /\
        TM.nct_id m = CT.nct_id raw_trial /\
        length (filter is_translate_call calls) = 1 /\
        (m = MS.build_match raw_trial (fallback_of raw_trial) \/
         exists translation,
           ai_translation self raw_trial = Some translation /\
           m = MS.build_match raw_trial translation)
  end.
Proof.
  unfold MS.get_trial_by_id, Py.try_except, Py.bind at 1, Py.lift.
  destruct (get_trial_by_nct_id nct_id) as [e|[raw_trial|]]; try reflexivity.
  unfold Py.bind. rewrite process_single_trial_eq. unfold Py.ret.
  exists (calls_of self raw_trial), (match_of self raw_trial).
  split; [reflexivity|].
  destruct (calls_of_accounting self raw_trial) as (Hcalls & _).
  split; [|split; [exact Hcalls | apply match_of_cases]].
  destruct (match_of_cases self raw_trial) as [->|(t & _ & ->)];
    apply build_match_nct_id.
Qed.

(* ===================================================================== *)
(** ** Cached matches: serialisation and conversion back *)
(* ===================================================================== *)

Lemma convert_cached_location_to_dict (loc : TM.TrialLocation) :
  MS.convert_cached_location (Py.JObj (TM.TrialLocation_to_dict loc))
  = inr (Py.JObj (TM.TrialLocation_to_dict (without_zip_code loc))).
Proof. destruct loc as [f c s k z [[a b]|]]; reflexivity. Qed.

Lemma convert_cached_locations_to_dict (locs : list TM.TrialLocation) :
  MS.convert_cached_locations
    (map (fun loc => Py.JObj (TM.TrialLocation_to_dict loc)) locs)
  = inr (map (fun loc => Py.JObj (TM.TrialLocation_to_dict (without_zip_code loc)))
             locs).
Proof.
  induction locs as [|loc locs IH]; [reflexivity|].
  cbn [map MS.convert_cached_locations].
  now rewrite convert_cached_location_to_dict, IH.
Qed.

(** The conversion of a serialised match, computed. *)
Lemma convert_to_dict_eq (m : TM.TrialMatch) :
  MS._convert_cached_match_to_model_format (TM.to_dict m) =
  inr [("nct_id", Py.JStr (TM.nct_id m));
       ("title", Py.JStr (TM.title m));
       ("original_description", Py.JStr (TM.original_description m));
       ("simplified_description", TM.simplified_description m);
       ("locations",
        Py.JArr (map (fun loc =>
                        Py.JObj (TM.TrialLocation_to_dict (without_zip_code loc)))
                     (TM.locations m)));
       ("eligibility_criteria", Py.JStr (TM.eligibility_criteria m));
       ("eligibility_simplified", TM.eligibility_simplified m);
       ("compensation", TM.json_of_option (TM.compensation m));
       ("compensation_explanation", TM.compensation_explanation m);
       ("time_commitment", TM.time_commitment m);
       ("key_benefits", TM.key_benefits m);
       ("contact_info",
        match TM.contact_info m with
        | Some c => Py.JObj (TM.ContactInfo_to_dict c)
        | None => Py.JNull
        end);
       ("study_type", Py.JStr (TM.study_type m));
       ("phase", TM.json_of_option (TM.phase m));
       ("status", Py.JStr (TM.status m));
       ("sponsor", Py.JStr (TM.sponsor m));
       ("conditions", TM.json_of_strings (TM.conditions m));
       ("interventions", TM.json_of_strings (TM.interventions m))].
Proof.
  unfold MS._convert_cached_match_to_model_format, TM.to_dict.
  cbn [MS.convert_items MS.mapped_key MS.field_mapping String.eqb Ascii.eqb
       Bool.eqb MS.dict_set andb].
  rewrite convert_cached_locations_to_dict.
  destruct (TM.contact_info m) as [c|]; reflexivity.
Qed.

(** X12.  A serialised match converts back to constructor arguments: the
    conversion of [to_dict] never raises, its keys are exactly the keyword
    arguments of [TrialMatch], in order, and the value of every key other
    than the locations is the serialised value (the contact information
    included). *)
Theorem cached_match_conversion_restores_keywords (m : TM.TrialMatch) :
  exists kwargs,
    MS._convert_cached_match_to_model_format (TM.to_dict m) = inr kwargs /\
    map fst kwargs = constructor_keywords /\
    forall camel value,
      camel <> "locations" ->
      Py.dict_get camel (TM.to_dict m) = Some value ->
      Py.dict_get (MS.mapped_key camel MS.field_mapping) kwargs = Some value.
Proof.
  rewrite convert_to_dict_eq. eexists. split; [reflexivity|].
  split; [reflexivity|].
  intros camel value Hne Hget. unfold TM.to_dict in Hget.
  cbn [Py.dict_get] in Hget.
  repeat match type of Hget with
         | context [String.eqb ?k camel] =>
             destruct (String.eqb_spec k camel) as [<-|_];
             [injection Hget as <-; solve [congruence | reflexivity]|]
         end.
  discriminate.
Qed.

(** X13.  The locations of a serialised match convert back with facility,
    city, state, country and coordinates intact and without their zip
    code: [to_dict] writes the key zip_code, the conversion reads
    zipCode. *)
Theorem cached_match_conversion_drops_zip_codes (m : TM.TrialMatch) :
  exists kwargs,
    MS._convert_cached_match_to_model_format (TM.to_dict m) = inr kwargs /\
    Py.dict_get "locations" kwargs
    = Some (Py.JArr
              (map (fun loc =>
                      Py.JObj (TM.TrialLocation_to_dict (without_zip_code loc)))
                   (TM.locations m))).
Proof. rewrite convert_to_dict_eq. eexists. split; reflexivity. Qed.

(* ===================================================================== *)
(** ** Health checks *)
(* ===================================================================== *)

Lemma unhealthy_names_three (gemini : list (string * Py.json)) (has_error : bool)
    (stats : Py.json) :
  MS.unhealthy_names
    [("clinical_trials_api",
      Py.JObj [("status", Py.JStr "healthy"); ("accessible", Py.JBool true)]);
     ("gemini_ai", Py.JObj gemini);
     ("cache",
      Py.JObj [("status", Py.JStr (if has_error then "unhealthy" else "healthy"));
               ("stats", stats)])]
  = inr ((match Py.dict_get "status" gemini with
          | Some (Py.JStr status) =>
              if String.eqb status "healthy" then [] else ["gemini_ai"]
          | _ => ["gemini_ai"]
          end) ++ (if has_error then ["cache"] else [])).
Proof.
  cbn [MS.unhealthy_names Py.dict_get String.eqb Ascii.eqb Bool.eqb andb].
  destruct has_error; cbn;
    destruct (Py.dict_get "status" gemini) as [[| | |status| |]|];
    try reflexivity; now destruct (String.eqb status "healthy").
Qed.

(** When the overall status comes out healthy. *)
Lemma health_check_status_healthy
    (self : MS.TrialMatchingService) (gemini_health cache_stats : Py.exn + Py.json) :
  MS.hs_status (MS.health_check self gemini_health cache_stats) = "healthy"
  <->
  exists gemini stats,
    gemini_health = inr (Py.JObj gemini) /\
    Py.dict_get "status" gemini = Some (Py.JStr "healthy") /\
    cache_stats = inr stats /\
    Py.py_in "error" stats = inr false.
Proof.
  unfold MS.health_check. cbv zeta.
  destruct gemini_health as [e|gemini];
    [split; [discriminate | intros (g0 & s0 & [=] & _)]|].
  destruct cache_stats as [e|stats];
    [split; [discriminate | intros (g0 & s0 & _ & _ & [=] & _)]|].
  destruct (Py.py_in "error" stats) as [e|has_error] eqn:Ein;
    [split; [discriminate | intros (g0 & s0 & _ & _ & [= <-] & H); congruence]|].
  destruct gemini as [| | | | |g];
    try (split; [cbn; discriminate | intros (g0 & s0 & [=] & _)]).
  cbn [app]. rewrite unhealthy_names_three.
  destruct (Py.dict_get "status" g) as [[| | |status| |]|] eqn:Eg;
    try (destruct has_error; cbn;
         (split;
          [discriminate
          | intros (g0 & s0 & [= <-] & H & _); rewrite Eg in H; discriminate H])).
  destruct (String.eqb_spec status "healthy") as [->|Hne].
  - destruct has_error; cbn.
    + split; [discriminate
             | intros (g0 & s0 & _ & _ & [= <-] & H); rewrite Ein in H;
               discriminate H].
    + split; [intros _; exists g, stats; auto | reflexivity].
  - destruct has_error; cbn; split;
      try discriminate; intros (g0 & s0 & [= <-] & H & _);
      rewrite Eg in H; injection H as H; contradiction.
Qed.

(** X14.  The overall status is healthy exactly when the translation
    service reports a dictionary whose status is healthy and the cache
    statistics carry no error key: an exception of a collaborator, a
    report that is not a dictionary, another status or an error key all
    give another overall status. *)
Theorem health_check_healthy_iff
    (self : MS.TrialMatchingService) (gemini_health cache_stats : Py.exn + Py.json) :
  MS.hs_status (MS.health_check self gemini_health cache_stats) = "healthy"
  <->
  exists gemini stats,
    gemini_health = inr (Py.JObj gemini) /\
    Py.dict_get "status" gemini = Some (Py.JStr "healthy") /\
    cache_stats = inr stats /\
    Py.py_in "error" stats = inr false.
Proof.
  split.
  - intro H. now apply (health_check_status_healthy self).
  - intro H. now apply health_check_status_healthy.
Qed.

(** X15.  Composed with the health check of the translation service: the
    overall status is healthy exactly when the probe of the language
    model returns a text containing the word healthy and the cache
    statistics carry no error key. *)
Theorem health_check_with_gemini_probe
    (self : MS.TrialMatchingService) (test_response : Py.exn + string)
    (cache_stats : Py.exn + Py.json) :
  MS.hs_status
    (MS.health_check self
       (inr (Py.JObj (GS.health_check (MS.gemini_service self) test_response)))
       cache_stats) = "healthy"
  <->
  exists text stats,
    test_response = inr text /\ PyStr.contains "healthy" text = true /\
    cache_stats = inr stats /\ Py.py_in "error" stats = inr false.
Proof.
  rewrite health_check_status_healthy. unfold GS.health_check. split.
  - intros (g & stats & [= <-] & Hs & -> & Herr).
    destruct test_response as [e|text]; [discriminate Hs|].
    destruct (PyStr.truthy text && PyStr.contains "healthy" text) eqn:E;
      [|discriminate Hs].
    apply andb_prop in E as [_ E]. eauto 6.
  - intros (text & stats & -> & Hc & -> & Herr).
    do 2 eexists. split; [reflexivity|]. split; [|eauto].
    rewrite Hc. destruct text; [discriminate Hc | reflexivity].
Qed.

(* ===================================================================== *)
(** ** Pagination *)
(* ===================================================================== *)

Section Pagination.

Context {A : Type}.

Lemma py_slice_nonneg (l : list A) (a b : Z) :
  (0 <= a <= b)%Z ->
  routes.py_slice l a b = firstn (Z.to_nat (b - a)) (skipn (Z.to_nat a) l).
Proof.
  intro H. unfold routes.py_slice. cbv zeta.
  destruct (Z.ltb_spec a 0); [lia|]. destruct (Z.ltb_spec b 0); [lia|].
  destruct (Z_le_gt_dec a (Z.of_nat (length l))) as [Ha|Ha].
  - rewrite (Z.min_l a) by lia.
    destruct (Z_le_gt_dec b (Z.of_nat (length l))) as [Hb|Hb].
    + now rewrite (Z.min_l b) by lia.
    + rewrite (Z.min_r b) by lia.
      rewrite !firstn_all2; try reflexivity; rewrite length_skipn; lia.
  - rewrite (Z.min_r a), (Z.min_r b) by lia.
    rewrite !skipn_all2 by lia. now rewrite !firstn_nil.
Qed.

Lemma paginate_eq (l : list A) (total page limit : Z) :
  (1 <= page)%Z -> (1 <= limit)%Z ->
  routes.paginate l total page limit =
  inr (firstn (Z.to_nat limit) (skipn (Z.to_nat ((page - 1) * limit)) l),
       {| routes.pg_page := page;
          routes.pg_limit := limit;
          routes.pg_total := total;
          routes.pg_total_pages := ((total + limit - 1) / limit)%Z;
          routes.pg_has_next := ((page - 1) * limit + limit <? total)%Z;
          routes.pg_has_prev := (page >? 1)%Z |}).
Proof.
  intros Hp Hl. unfold routes.paginate. cbv zeta.
  destruct (Z.eqb_spec limit 0); [lia|].
  rewrite py_slice_nonneg by nia.
  now replace ((page - 1) * limit + limit - (page - 1) * limit)%Z with limit by lia.
Qed.

Lemma firstn_add (a b : nat) (l : list A) :
  firstn (a + b) l = firstn a l ++ firstn b (skipn a l).
Proof.
  revert l; induction a as [|a IH]; intros [|x l]; cbn;
    rewrite ?firstn_nil; try reflexivity.
  now rewrite IH.
Qed.

Lemma skipn_add (a b : nat) (l : list A) :
  skipn b (skipn a l) = skipn (a + b) l.
Proof.
  revert l; induction a as [|a IH]; intros [|x l]; cbn;
    rewrite ?skipn_nil; try reflexivity.
  apply IH.
Qed.

Lemma chunks_concat (size : nat) (l : list A) (count : nat) :
  forall first,
    concat (map (fun i => firstn size (skipn (i * size) l)) (seq first count))
    = firstn (count * size) (skipn (first * size) l).
Proof.
  induction count as [|count IH]; intro first; [reflexivity|].
  cbn [seq map concat]. rewrite IH.
  replace (S count * size) with (size + count * size) by lia.
  rewrite firstn_add, skipn_add. do 3 f_equal. lia.
Qed.

End Pagination.

Lemma ceil_div_bounds (n limit : Z) :
  (1 <= limit)%Z ->
  (limit * ((n + limit - 1) / limit) < n + limit
   /\ n <= limit * ((n + limit - 1) / limit))%Z.
Proof.
  intro H.
  pose proof (Z.div_mod (n + limit - 1) limit ltac:(lia)) as Hdm.
  pose proof (Z.mod_pos_bound (n + limit - 1) limit ltac:(lia)) as Hm.
  lia.
Qed.

(** X16.  A page of the match endpoint, for a page number and a page size
    of at least 1: it holds at most [limit] matches, exactly [limit] when
    a next page is announced; a next page is announced exactly on the
    pages before the last; a page past the last is empty. *)
Theorem paginate_page_facts (A : Type) (all_matches : list A) (page limit : Z) :
  (1 <= page)%Z -> (1 <= limit)%Z ->
  exists paginated_matches pagination,
    routes.paginate all_matches (Z.of_nat (length all_matches)) page limit
      = inr (paginated_matches, pagination) /\
    (Z.of_nat (length paginated_matches) <= limit)%Z /\
    (routes.pg_has_next pagination = true
     <-> (page < routes.pg_total_pages pagination)%Z) /\
    (routes.pg_has_next pagination = true ->
     Z.of_nat (length paginated_matches) = limit) /\
    ((routes.pg_total_pages pagination < page)%Z -> paginated_matches = []).
Proof.
  intros Hp Hl. rewrite (paginate_eq _ _ _ _ Hp Hl). do 2 eexists.
  split; [reflexivity|].
  cbn [routes.pg_has_next routes.pg_total_pages].
  set (n := Z.of_nat (length all_matches)).
  destruct (ceil_div_bounds n limit Hl) as [Hup Hlow].
  set (tp := ((n + limit - 1) / limit)%Z) in *.
  rewrite length_firstn, length_skipn. fold n.
  split; [lia|]. rewrite Z.ltb_lt.
  split; [split; intro; nia|]. split; [intro; subst n; nia|].
  intro Hlast. rewrite skipn_all2; [apply firstn_nil|]. subst n. nia.
Qed.

Lemma paginate_page_facts_witness :
  (1 <= 2)%Z /\ (1 <= 2)%Z /\
  exists paginated_matches pagination,
    routes.paginate ["a"; "b"; "c"; "d"; "e"] (Z.of_nat 5) 2 2
      = inr (paginated_matches, pagination) /\
    (Z.of_nat (length paginated_matches) <= 2)%Z /\
    (routes.pg_has_next pagination = true
     <-> (2 < routes.pg_total_pages pagination)%Z) /\
    (routes.pg_has_next pagination = true ->
     Z.of_nat (length paginated_matches) = 2%Z) /\
    ((routes.pg_total_pages pagination < 2)%Z -> paginated_matches = []).
Proof.
  split; [lia|]. split; [lia|].
  exact (paginate_page_facts string ["a"; "b"; "c"; "d"; "e"] 2 2
           ltac:(lia) ltac:(lia)).
Defined.

(** X17.  The pages partition the result: for a page size of at least 1,
    the pages 1, 2, ..., total_pages put one after the other are the list
    of all matches -- nothing is lost and nothing is shown twice. *)
Theorem pages_partition_matches (A : Type) (all_matches : list A) (limit : Z) :
  (1 <= limit)%Z ->
  concat (map (fun page => page_of all_matches limit (Z.of_nat page))
              (seq 1 (Z.to_nat ((Z.of_nat (length all_matches) + limit - 1) / limit))))
  = all_matches.
Proof.
  intro Hl.
  set (n := Z.of_nat (length all_matches)).
  destruct (ceil_div_bounds n limit Hl) as [Hup Hlow].
  set (tp := ((n + limit - 1) / limit)%Z) in *.
  rewrite <- seq_shift, map_map.
  rewrite (map_ext _ (fun i => firstn (Z.to_nat limit)
                                 (skipn (i * Z.to_nat limit) all_matches))).
  - rewrite chunks_concat. cbn [Nat.mul skipn].
    apply firstn_all2. subst n. nia.
  - intro i. unfold page_of.
    rewrite paginate_eq by lia. do 2 f_equal. nia.
Qed.

Lemma pages_partition_matches_witness :
  (1 <= 2)%Z /\
  concat (map (fun page => page_of ["a"; "b"; "c"; "d"; "e"] 2 (Z.of_nat page))
              (seq 1 (Z.to_nat ((Z.of_nat 5 + 2 - 1) / 2))))
  = ["a"; "b"; "c"; "d"; "e"].
Proof.
  split; [lia|].
  exact (pages_partition_matches string ["a"; "b"; "c"; "d"; "e"] 2 ltac:(lia)).
Defined.

(* ===================================================================== *)
(** ** Requests to the registry: retries and rate limit *)
(* ===================================================================== *)

Ltac break_match :=
  repeat match goal with
         | |- context [match ?x with _ => _ end] =>
             lazymatch x with
             | context [match _ with _ => _ end] => fail
             | _ => destruct x eqn:?; cbv beta iota
             end
         end.

Ltac name_flow f E :=
  match goal with
  | |- context [match ?t with
                | RQ.Return _ => _ | RQ.Continue _ => _
                | RQ.Raise _ => _ | RQ.RaiseValueError _ => _
                end] => destruct t as [v|w3|e|msg] eqn:E
  end.

Section Requests.

Variable py_int : string -> string + Z.
Context {Params : Type}.
Variable session_get : nat -> string -> Params -> Q * (RQ.RaisedError + RQ.Response).

Lemma sleep_nonnegative (why : RQ.SleepReason) (seconds : Q) (w : RQ.World) :
  (0 <= seconds)%Q ->
  RQ.sleep why seconds w
  = inr {| RQ.now := RQ.now w + seconds;
           RQ.n_requests := RQ.n_requests w;
           RQ.log := RQ.log w ++ [RQ.Slept why seconds] |}.
Proof.
  intro H. unfold RQ.sleep. destruct (Qlt_le_dec seconds 0); [lra|reflexivity].
Qed.

Lemma sleep_inr (why : RQ.SleepReason) (seconds : Q) (w w' : RQ.World) :
  RQ.sleep why seconds w = inr w' ->
  RQ.n_requests w' = RQ.n_requests w /\
  RQ.log w' = RQ.log w ++ [RQ.Slept why seconds].
Proof.
  unfold RQ.sleep. destruct (Qlt_le_dec seconds 0); [discriminate|].
  intro H. injection H as <-. split; reflexivity.
Qed.

(** The rate limiter never raises, makes no request, and leaves the clock
    at least one interval after the previous request. *)
Lemma handle_rate_limiting_eq (self : RQ.ClinicalTrialsService) (w : RQ.World) :
  exists w1,
    RQ._handle_rate_limiting self w
      = inr (RQ.set_last_request_time self (RQ.now w1), w1) /\
    RQ.n_requests w1 = RQ.n_requests w /\
    (RQ.last_request_time self + RQ.min_request_interval self <= RQ.now w1)%Q /\
    (exists slept, RQ.log w1 = RQ.log w ++ slept /\
                   stamps slept = [] /\ backoff_sleeps slept = []).
Proof.
  unfold RQ._handle_rate_limiting. cbv zeta.
  destruct (Qlt_le_dec _ _) as [Hlt|Hle].
  - rewrite sleep_nonnegative by lra. eexists. split; [reflexivity|].
    cbn [RQ.now RQ.n_requests RQ.log]. split; [reflexivity|]. split; [lra|].
    eexists. split; [reflexivity|]. split; reflexivity.
  - exists w. split; [reflexivity|]. split; [reflexivity|]. split; [lra|].
    exists []. rewrite app_nil_r. repeat split.
Qed.

Lemma raised_neq (a b : RQ.Raised) :
  a <> b -> @inl RQ.Raised Py.json a <> inl b.
Proof. intros Hab H. apply Hab. now injection H. Qed.

Lemma invalid_json_not_exhausted (msg : string) :
  RQ.invalid_json msg <> max_retries_exceeded.
Proof. discriminate. Qed.

(** A pass through the loop goes on to the next one only when the loop has
    a next pass, after one sleep and no further request; and no pass raises
    the error that follows the loop. *)
Lemma flow_facts (self : RQ.ClinicalTrialsService) (attempt : nat)
    (answer : RQ.RaisedError + RQ.Response) (w : RQ.World) :
  match (match answer with
         | inl e => RQ.on_exception self attempt e w
         | inr response => RQ.on_response py_int self attempt response w
         end) with
  | RQ.Continue w' =>
      RQ.retry self attempt = true /\
      RQ.n_requests w' = RQ.n_requests w /\
      exists why seconds, RQ.log w' = RQ.log w ++ [RQ.Slept why seconds]
  | RQ.Raise e => e <> max_retries_exceeded
  | _ => True
  end.
Proof.
  destruct answer as [e|response];
    unfold RQ.on_exception, RQ.on_response, RQ.sleep_and_continue,
           RQ.response_data_of;
    break_match; try exact I; try discriminate;
    (split; [reflexivity|]);
    match goal with
    | H : RQ.sleep _ _ _ = inr _ |- _ =>
        destruct (sleep_inr _ _ _ _ H) as [Hn Hl]; split; [exact Hn|eauto]
    end.
Qed.

Lemma stamps_app (a b : list RQ.Event) : stamps (a ++ b) = stamps a ++ stamps b.
Proof.
  induction a as [|[why seconds|url t] a IH]; cbn; [reflexivity|exact IH|].
  now rewrite IH.
Qed.

Lemma backoff_sleeps_app (a b : list RQ.Event) :
  backoff_sleeps (a ++ b) = backoff_sleeps a ++ backoff_sleeps b.
Proof.
  induction a as [|[[ | | ] seconds|url t] a IH]; cbn;
    rewrite ?IH; reflexivity.
Qed.

Lemma last_cons_default (t d : Q) (l : list Q) : last (t :: l) d = last l t.
Proof.
  revert t d; induction l as [|x l IH]; intros t d; [reflexivity|].
  change (last (t :: x :: l) d) with (last (x :: l) d).
  now rewrite (IH x d), (IH x t).
Qed.

Lemma attempts_budget (url : string) (params : Params) :
  forall remaining attempt self w,
    (Z.of_nat attempt + Z.of_nat remaining = RQ.max_retries self)%Z ->
    1 <= remaining ->
    match RQ.attempts py_int session_get url params remaining attempt self w with
    | (_, w', r) =>
        RQ.n_requests w < RQ.n_requests w' <= RQ.n_requests w + remaining /\
        r <> inl max_retries_exceeded
    end.
Proof.
  induction remaining as [|remaining IH]; intros attempt self w Hinv Hpos; [lia|].
  cbn [RQ.attempts].
  destruct (handle_rate_limiting_eq self w) as (w1 & -> & Hn & _ & _).
  cbv zeta.
  pose proof (flow_facts (RQ.set_last_request_time self (RQ.now w1)) attempt
                (snd (session_get (RQ.n_requests w1) url params))
                (RQ.request url (fst (session_get (RQ.n_requests w1) url params)) w1))
    as F.
  name_flow f E; try rewrite E in F; cbn [RQ.request RQ.n_requests] in *.
  - split; [lia|discriminate].
  - destruct F as (Hretry & Hn3 & _).
    unfold RQ.retry in Hretry. cbn [RQ.set_last_request_time RQ.max_retries] in Hretry.
    apply Z.ltb_lt in Hretry.
    specialize (IH (S attempt) (RQ.set_last_request_time self (RQ.now w1)) w3
                  ltac:(cbn [RQ.set_last_request_time RQ.max_retries]; lia)
                  ltac:(lia)).
    destruct (RQ.attempts _ _ _ _ _ _ _ _) as [[self' w'] r].
    split; [lia|tauto].
  - split; [lia|]. apply raised_neq, F.
  - split; [lia|]. apply raised_neq, invalid_json_not_exhausted.
Qed.

Lemma attempts_spaced (url : string) (params : Params) :
  forall remaining attempt self w,
    match RQ.attempts py_int session_get url params remaining attempt self w with
    | (self', w', _) =>
        exists events,
          RQ.log w' = RQ.log w ++ events /\
          spaced (RQ.min_request_interval self) (RQ.last_request_time self)
                 (stamps events) /\
          RQ.last_request_time self'
            = last (stamps events) (RQ.last_request_time self) /\
          RQ.min_request_interval self' = RQ.min_request_interval self
    end.
Proof.
  induction remaining as [|remaining IH]; intros attempt self w.
  - cbn [RQ.attempts]. exists []. rewrite app_nil_r. repeat split.
  - cbn [RQ.attempts].
    destruct (handle_rate_limiting_eq self w)
      as (w1 & -> & Hn & Hwait & slept & Hlog & Hstamps & _).
    cbv zeta.
    pose proof (flow_facts (RQ.set_last_request_time self (RQ.now w1)) attempt
                  (snd (session_get (RQ.n_requests w1) url params))
                  (RQ.request url (fst (session_get (RQ.n_requests w1) url params)) w1))
      as F.
    assert (Hone : forall self' w',
               self' = RQ.set_last_request_time self (RQ.now w1) ->
               RQ.log w' = RQ.log w1 ++ [RQ.Requested url (RQ.now w1)] ->
               exists events,
                 RQ.log w' = RQ.log w ++ events /\
                 spaced (RQ.min_request_interval self) (RQ.last_request_time self)
                        (stamps events) /\
                 RQ.last_request_time self'
                   = last (stamps events) (RQ.last_request_time self) /\
                 RQ.min_request_interval self' = RQ.min_request_interval self).
    { intros self' w' -> Hw'. exists (slept ++ [RQ.Requested url (RQ.now w1)]).
      rewrite Hw', Hlog, <- app_assoc, stamps_app, Hstamps.
      cbn. repeat split. exact Hwait. }
    name_flow f E; try rewrite E in F; try (apply Hone; reflexivity).
    destruct F as (_ & _ & why & seconds & Hlog3).
    specialize (IH (S attempt) (RQ.set_last_request_time self (RQ.now w1)) w3).
    destruct (RQ.attempts _ _ _ _ _ _ _ _) as [[self' w'] r].
    destruct IH as (events & Hlog' & Hspaced & Hlast & Hmin).
    cbn [RQ.set_last_request_time RQ.min_request_interval RQ.last_request_time]
      in Hspaced, Hlast, Hmin.
    exists (slept ++ [RQ.Requested url (RQ.now w1)] ++ [RQ.Slept why seconds]
            ++ events).
    rewrite Hlog', Hlog3. cbn [RQ.request RQ.log]. rewrite Hlog.
    rewrite !stamps_app, Hstamps. cbn [stamps app].
    rewrite last_cons_default.
    split; [now rewrite <- !app_assoc|]. cbn [spaced]. tauto.
Qed.

Lemma delay_nonnegative (self : RQ.ClinicalTrialsService) (attempt : nat) :
  (0 <= RQ.retry_delay self)%Z -> (0 <= inject_Z (RQ.delay self attempt))%Q.
Proof.
  intro H. change 0%Q with (inject_Z 0). rewrite <- Zle_Qle.
  unfold RQ.delay. apply Z.mul_nonneg_nonneg; [exact H|].
  apply Z.pow_nonneg. lia.
Qed.

(** A transient failure on a pass that is not the last one: the loop
    sleeps [retry_delay * 2 ** attempt] seconds and goes on. *)
Lemma transient_flow (self : RQ.ClinicalTrialsService) (attempt : nat)
    (answer : RQ.RaisedError + RQ.Response) (w : RQ.World) :
  transient answer = true ->
  RQ.retry self attempt = true ->
  (0 <= RQ.retry_delay self)%Z ->
  match answer with
  | inl e => RQ.on_exception self attempt e w
  | inr response => RQ.on_response py_int self attempt response w
  end
  = RQ.Continue {| RQ.now := RQ.now w + inject_Z (RQ.delay self attempt);
                   RQ.n_requests := RQ.n_requests w;
                   RQ.log := RQ.log w
                             ++ [RQ.Slept RQ.Backoff (inject_Z (RQ.delay self attempt))] |}.
Proof.
  intros Ht Hretry Hdelay.
  pose proof (sleep_nonnegative RQ.Backoff _ w (delay_nonnegative self attempt Hdelay))
    as Hsleep.
  destruct answer as [e|response]; cbn [transient] in Ht.
  - apply andb_prop in Ht. destruct Ht as [Hv Hc].
    apply negb_true_iff in Hv.
    unfold RQ.on_exception, RQ.sleep_and_continue. rewrite Hv, Hretry, Hsleep.
    destruct (RQ.is_Timeout e); [reflexivity|].
    cbn [orb] in Hc. now rewrite Hc.
  - apply Z.leb_le in Ht. unfold RQ.on_response.
    destruct (Z.eqb_spec (RQ.status_code response) 200); [lia|].
    destruct (Z.eqb_spec (RQ.status_code response) 429); [lia|].
    destruct (Z.eqb_spec (RQ.status_code response) 404); [lia|].
    destruct (Z.geb_spec (RQ.status_code response) 500); [|lia].
    now rewrite Hretry, Hsleep.
Qed.

(** A transient failure on the last pass is raised as an error of the
    service. *)
Lemma transient_last_flow (self : RQ.ClinicalTrialsService) (attempt : nat)
    (answer : RQ.RaisedError + RQ.Response) (w : RQ.World) :
  transient answer = true ->
  RQ.retry self attempt = false ->
  match (match answer with
         | inl e => RQ.on_exception self attempt e w
         | inr response => RQ.on_response py_int self attempt response w
         end) with
  | RQ.Raise (RQ.Api _) | RQ.RaiseValueError _ => True
  | _ => False
  end.
Proof.
  intros Ht Hretry.
  destruct answer as [e|response]; cbn [transient] in Ht.
  - apply andb_prop in Ht. destruct Ht as [Hv Hc].
    apply negb_true_iff in Hv.
    unfold RQ.on_exception. rewrite Hv, Hretry.
    destruct (RQ.is_Timeout e); [exact I|].
    cbn [orb] in Hc. now rewrite Hc.
  - apply Z.leb_le in Ht. unfold RQ.on_response.
    destruct (Z.eqb_spec (RQ.status_code response) 200); [lia|].
    destruct (Z.eqb_spec (RQ.status_code response) 429); [lia|].
    destruct (Z.eqb_spec (RQ.status_code response) 404); [lia|].
    destruct (Z.geb_spec (RQ.status_code response) 500); [|lia].
    rewrite Hretry. now destruct (RQ.response_data_of response).
Qed.

Lemma attempts_transient (url : string) (params : Params) :
  forall failures remaining attempt self w,
    failures < remaining ->
    (Z.of_nat attempt + Z.of_nat remaining = RQ.max_retries self)%Z ->
    (0 <= RQ.retry_delay self)%Z ->
    (forall k, k < failures ->
       transient (snd (session_get (RQ.n_requests w + k) url params)) = true) ->
    exists self1 w1,
      RQ.attempts py_int session_get url params remaining attempt self w
      = RQ.attempts py_int session_get url params
          (remaining - failures) (attempt + failures) self1 w1 /\
      RQ.n_requests w1 = RQ.n_requests w + failures /\
      RQ.max_retries self1 = RQ.max_retries self /\
      RQ.retry_delay self1 = RQ.retry_delay self /\
      backoff_sleeps (RQ.log w1)
      = backoff_sleeps (RQ.log w)
        ++ map (fun k => inject_Z (RQ.retry_delay self * 2 ^ Z.of_nat k))
               (seq attempt failures).
Proof.
  induction failures as [|failures IH];
    intros remaining attempt self w Hlt Hinv Hdelay Hall.
  - exists self, w. rewrite Nat.sub_0_r, !Nat.add_0_r. cbn [seq map].
    rewrite app_nil_r. repeat split.
  - destruct remaining as [|remaining]; [lia|].
    cbn [RQ.attempts].
    destruct (handle_rate_limiting_eq self w)
      as (w1 & -> & Hn & _ & slept & Hlog & _ & Hslept).
    cbv zeta.
    set (self1 := RQ.set_last_request_time self (RQ.now w1)).
    assert (Hretry : RQ.retry self1 attempt = true).
    { unfold RQ.retry. cbn [self1 RQ.set_last_request_time RQ.max_retries].
      apply Z.ltb_lt. lia. }
    rewrite (transient_flow self1 attempt); cycle 1.
    + rewrite Hn. specialize (Hall 0 ltac:(lia)). now rewrite Nat.add_0_r in Hall.
    + exact Hretry.
    + exact Hdelay.
    + match goal with
      | |- context [RQ.attempts _ _ _ _ remaining (S attempt) self1 ?w3] =>
          destruct (IH remaining (S attempt) self1 w3 ltac:(lia)
                      ltac:(cbn [self1 RQ.set_last_request_time RQ.max_retries]; lia)
                      Hdelay) as (self2 & w2 & Heq & Hn2 & Hmax & Hrd & Hsleeps)
      end.
      { intros k Hk. cbn [RQ.request RQ.n_requests]. rewrite Hn.
        specialize (Hall (S k) ltac:(lia)).
        now rewrite Nat.add_succ_r in Hall. }
      exists self2, w2. rewrite Heq.
      cbn [RQ.request RQ.n_requests RQ.log] in Hn2, Hsleeps.
      split; [f_equal; lia|]. split; [lia|]. split; [exact Hmax|].
      split; [exact Hrd|].
      rewrite Hsleeps, Hlog, !backoff_sleeps_app, Hslept. cbn [backoff_sleeps app seq map].
      unfold RQ.delay. cbn [self1 RQ.set_last_request_time RQ.retry_delay].
      rewrite !app_nil_r, <- app_assoc. reflexivity.
Qed.

End Requests.

(** X18.  The retry budget of [_make_request]: one call makes at most
    [max_retries] requests, and at least one when [max_retries] is
    positive; the error raised after the loop, Max retries exceeded, comes
    out exactly when [max_retries] is not positive -- with a positive
    budget the last pass always returns or raises by itself. *)
Theorem make_request_retry_budget
    (py_int : string -> string + Z) (Params : Type)
    (session_get : nat -> string -> Params -> Q * (RQ.RaisedError + RQ.Response))
    (self : RQ.ClinicalTrialsService) (endpoint : string) (params : Params)
    (w : RQ.World) :
  match RQ._make_request py_int session_get self endpoint params w with
  | (_, w', r) =>
      RQ.n_requests w' <= RQ.n_requests w + Z.to_nat (RQ.max_retries self) /\
      ((1 <= RQ.max_retries self)%Z -> RQ.n_requests w < RQ.n_requests w') /\
      (r = inl max_retries_exceeded <-> (RQ.max_retries self <= 0)%Z)
  end.
Proof.
  unfold RQ._make_request. cbv zeta.
  destruct (Z_le_gt_dec (RQ.max_retries self) 0) as [Hle|Hgt].
  - replace (Z.to_nat (RQ.max_retries self)) with 0 by lia.
    cbn [RQ.attempts]. split; [lia|]. split; [lia|]. split; [intros _; exact Hle|reflexivity].
  - pose proof (attempts_budget py_int session_get
                  (RQ.base_url self ++ "/" ++ endpoint)%string params
                  (Z.to_nat (RQ.max_retries self)) 0 self w
                  ltac:(lia) ltac:(lia)) as H.
    destruct (RQ.attempts _ _ _ _ _ _ _ _) as [[self' w'] r].
    destruct H as [Hn Hr]. split; [lia|]. split; [lia|].
    split; [intro H; contradiction|lia].
Qed.

(** X19.  The rate limit holds on every path: the requests of one call of
    [_make_request] start at least [min_request_interval] after one
    another, the first one at least that long after the last request made
    before the call, whatever the session answers and however long the
    retry sleeps are; afterwards [last_request_time] is the start of the
    last request made. *)
Theorem requests_keep_minimum_interval
    (py_int : string -> string + Z) (Params : Type)
    (session_get : nat -> string -> Params -> Q * (RQ.RaisedError + RQ.Response))
    (self : RQ.ClinicalTrialsService) (endpoint : string) (params : Params)
    (w : RQ.World) :
  match RQ._make_request py_int session_get self endpoint params w with
  | (self', w', _) =>
      exists events,
        RQ.log w' = RQ.log w ++ events /\
        spaced (RQ.min_request_interval self) (RQ.last_request_time self)
               (stamps events) /\
        RQ.last_request_time self'
          = last (stamps events) (RQ.last_request_time self) /\
        RQ.min_request_interval self' = RQ.min_request_interval self
  end.
Proof. apply attempts_spaced. Qed.

(** X20.  Exponential back-off: when the session answers every request of
    a call with a time-out, a connection error or a 5xx status, the call
    makes exactly [max_retries] requests, sleeps [retry_delay * 2 ** k]
    seconds after the k-th of them except the last, and raises an error of
    the service. *)
Theorem persistent_failure_exhausts_retries
    (py_int : string -> string + Z) (Params : Type)
    (session_get : nat -> string -> Params -> Q * (RQ.RaisedError + RQ.Response))
    (self : RQ.ClinicalTrialsService) (endpoint : string) (params : Params)
    (w : RQ.World) :
  (1 <= RQ.max_retries self)%Z ->
  (0 <= RQ.retry_delay self)%Z ->
  (forall k, k < Z.to_nat (RQ.max_retries self) ->
     transient (snd (session_get (RQ.n_requests w + k)
                       (RQ.base_url self ++ "/" ++ endpoint)%string params)) = true) ->
  match RQ._make_request py_int session_get self endpoint params w with
  | (_, w', r) =>
      RQ.n_requests w' = RQ.n_requests w + Z.to_nat (RQ.max_retries self) /\
      backoff_sleeps (RQ.log w')
      = backoff_sleeps (RQ.log w)
        ++ map (fun k => inject_Z (RQ.retry_delay self * 2 ^ Z.of_nat k))
               (seq 0 (Z.to_nat (RQ.max_retries self) - 1)) /\
      exists e, r = inl (RQ.Api e)
  end.
Proof.
  intros Hmax Hdelay Hall. unfold RQ._make_request. cbv zeta.
  set (url := (RQ.base_url self ++ "/" ++ endpoint)%string) in *.
  set (n := Z.to_nat (RQ.max_retries self)) in *.
  destruct (attempts_transient py_int session_get url params (n - 1) n 0 self w
              ltac:(lia) ltac:(lia) Hdelay
              ltac:(intros k Hk; apply Hall; lia))
    as (self1 & w1 & -> & Hn1 & Hmax1 & _ & Hsleeps).
  replace (n - (n - 1)) with 1 by lia. cbn [RQ.attempts Nat.add].
  destruct (handle_rate_limiting_eq self1 w1)
    as (w2 & -> & Hn2 & _ & slept & Hlog & _ & Hslept).
  cbv zeta.
  pose proof (transient_last_flow py_int
                (RQ.set_last_request_time self1 (RQ.now w2)) (n - 1)
                (snd (session_get (RQ.n_requests w2) url params))
                (RQ.request url (fst (session_get (RQ.n_requests w2) url params)) w2))
    as F.
  assert (Hlast : RQ.n_requests w2 = RQ.n_requests w + (n - 1)) by lia.
  specialize (F ltac:(rewrite Hlast; apply Hall; lia)).
  specialize (F ltac:(unfold RQ.retry;
                      cbn [RQ.set_last_request_time RQ.max_retries];
                      apply Z.ltb_ge; lia)).
  assert (Hresult : backoff_sleeps
                      (RQ.log (RQ.request url
                                 (fst (session_get (RQ.n_requests w2) url params)) w2))
                    = backoff_sleeps (RQ.log w)
                      ++ map (fun k => inject_Z (RQ.retry_delay self * 2 ^ Z.of_nat k))
                             (seq 0 (n - 1))).
  { cbn [RQ.request RQ.log]. rewrite Hlog, !backoff_sleeps_app, Hslept, Hsleeps.
    cbn [backoff_sleeps]. now rewrite !app_nil_r. }
  name_flow f E; try contradiction.
  - destruct e as [e|e]; [|contradiction].
    cbn [RQ.request RQ.n_requests] in *. split; [lia|]. split; [exact Hresult|].
    now exists e.
  - cbn [RQ.request RQ.n_requests] in *. split; [lia|]. split; [exact Hresult|].
    eexists. reflexivity.
Qed.

Lemma persistent_failure_exhausts_retries_witness :
  (1 <= RQ.max_retries Samples.registry_client)%Z /\
  (0 <= RQ.retry_delay Samples.registry_client)%Z /\
  match RQ._make_request Samples.no_int Samples.dead_session
          Samples.registry_client "studies" tt Samples.fresh_world with
  | (_, w', r) =>
      RQ.n_requests w' = 0 + Z.to_nat 3 /\
      backoff_sleeps (RQ.log w')
      = [] ++ map (fun k => inject_Z (2 * 2 ^ Z.of_nat k)) (seq 0 (Z.to_nat 3 - 1)) /\
      exists e, r = inl (RQ.Api e)
  end.
Proof.
  split; [cbn; lia|]. split; [cbn; lia|].
  exact (persistent_failure_exhausts_retries Samples.no_int unit Samples.dead_session
           Samples.registry_client "studies" tt Samples.fresh_world
           ltac:(cbn; lia) ltac:(cbn; lia) ltac:(intros k Hk; reflexivity)).
Defined.

(** X21.  Recovery: when the session answers the first [failures] requests
    of a call with a time-out, a connection error or a 5xx status, and the
    next one with status 200 and a body that decodes, and [failures] is
    below [max_retries], the call returns the decoded body after exactly
    [failures + 1] requests and the back-off sleeps
    [retry_delay * 2 ** k] for k below [failures]. *)
Theorem request_recovers_after_transient_failures
    (py_int : string -> string + Z) (Params : Type)
    (session_get : nat -> string -> Params -> Q * (RQ.RaisedError + RQ.Response))
    (self : RQ.ClinicalTrialsService) (endpoint : string) (params : Params)
    (w : RQ.World) (failures : nat) (response : RQ.Response) (v : Py.json) :
  (Z.of_nat failures < RQ.max_retries self)%Z ->
  (0 <= RQ.retry_delay self)%Z ->
  (forall k, k < failures ->
     transient (snd (session_get (RQ.n_requests w + k)
                       (RQ.base_url self ++ "/" ++ endpoint)%string params)) = true) ->
  snd (session_get (RQ.n_requests w + failures)
         (RQ.base_url self ++ "/" ++ endpoint)%string params) = inr response ->
  RQ.status_code response = 200%Z ->
  RQ.json_body response = inr v ->
  match RQ._make_request py_int session_get self endpoint params w with
  | (_, w', r) =>
      r = inr v /\
      RQ.n_requests w' = RQ.n_requests w + failures + 1 /\
      backoff_sleeps (RQ.log w')
      = backoff_sleeps (RQ.log w)
        ++ map (fun k => inject_Z (RQ.retry_delay self * 2 ^ Z.of_nat k))
               (seq 0 failures)
  end.
Proof.
  intros Hlt Hdelay Hall Hanswer Hstatus Hbody. unfold RQ._make_request. cbv zeta.
  set (url := (RQ.base_url self ++ "/" ++ endpoint)%string) in *.
  set (n := Z.to_nat (RQ.max_retries self)) in *.
  destruct (attempts_transient py_int session_get url params failures n 0 self w
              ltac:(lia) ltac:(lia) Hdelay Hall)
    as (self1 & w1 & -> & Hn1 & _ & _ & Hsleeps).
  destruct (n - failures) as [|remaining] eqn:Hrem; [lia|].
  cbn [RQ.attempts Nat.add].
  destruct (handle_rate_limiting_eq self1 w1)
    as (w2 & -> & Hn2 & _ & slept & Hlog & _ & Hslept).
  cbv zeta. rewrite Hn2, Hn1, Hanswer.
  unfold RQ.on_response. rewrite Hstatus, Hbody. cbn [Z.eqb Pos.eqb].
  cbn [RQ.request RQ.n_requests RQ.log].
  split; [reflexivity|]. split; [lia|].
  rewrite Hlog, !backoff_sleeps_app, Hslept, Hsleeps. cbn [backoff_sleeps].
  now rewrite !app_nil_r.
Qed.

Lemma request_recovers_after_transient_failures_witness :
  (Z.of_nat 2 < RQ.max_retries Samples.registry_client)%Z /\
  match RQ._make_request Samples.no_int Samples.recovering_session
          Samples.registry_client "studies" tt Samples.fresh_world with
  | (_, w', r) =>
      r = inr (Py.JObj [("studies", Py.JArr [])]) /\
      RQ.n_requests w' = 0 + 2 + 1 /\
      backoff_sleeps (RQ.log w')
      = [] ++ map (fun k => inject_Z (2 * 2 ^ Z.of_nat k)) (seq 0 2)
  end.
Proof.
  split; [cbn; lia|].
  exact (request_recovers_after_transient_failures Samples.no_int unit
           Samples.recovering_session Samples.registry_client "studies" tt
           Samples.fresh_world 2
           {| RQ.status_code := 200; RQ.Retry_After := None; RQ.content := true;
              RQ.json_body := inr (Py.JObj [("studies", Py.JArr [])]) |}
           (Py.JObj [("studies", Py.JArr [])])
           ltac:(cbn; lia) ltac:(cbn; lia)
           ltac:(intros [|[|k]] Hk; [reflexivity|reflexivity|lia])
           eq_refl eq_refl eq_refl).
Defined.

(* ===================================================================== *)
(** ** Age eligibility *)
(* ===================================================================== *)

Lemma check_ranges_head (matches : list (Z * Z)) (age : Z) :
  RQ.check_ranges matches age
  = match matches with
    | [] => None
    | (min_age, max_age) :: _ => Some ((min_age <=? age) && (age <=? max_age))%Z
    end.
Proof.
  destruct matches as [|[min_age max_age] rest]; [reflexivity|].
  cbn [RQ.check_ranges].
  destruct (Z.leb_spec min_age age), (Z.leb_spec age max_age); cbn [andb];
    try reflexivity.
  - destruct (Z.ltb_spec age min_age); [reflexivity|].
    destruct (Z.gtb_spec age max_age); [reflexivity|lia].
  - destruct (Z.ltb_spec age min_age); [reflexivity|lia].
  - destruct (Z.ltb_spec age min_age); [reflexivity|lia].
Qed.

Lemma for_patterns_ranges (find : string -> list (Z * Z)) (age : Z)
    (patterns : list string) :
  RQ.for_patterns (fun pattern => RQ.check_ranges (find pattern) age) patterns
  = match flat_map find patterns with
    | [] => None
    | (min_age, max_age) :: _ => Some ((min_age <=? age) && (age <=? max_age))%Z
    end.
Proof.
  induction patterns as [|pattern rest IH]; [reflexivity|].
  cbn [RQ.for_patterns flat_map]. rewrite check_ranges_head.
  destruct (find pattern) as [|[min_age max_age] more]; [exact IH|reflexivity].
Qed.

Lemma for_patterns_minimums (find : string -> list Z) (age : Z)
    (patterns : list string) :
  RQ.for_patterns (fun pattern => RQ.check_minimums (find pattern) age) patterns
  = match flat_map find patterns with
    | [] => None
    | min_age :: _ => Some (min_age <=? age)%Z
    end.
Proof.
  induction patterns as [|pattern rest IH]; [reflexivity|].
  cbn [RQ.for_patterns flat_map].
  destruct (find pattern) as [|min_age more]; [exact IH|].
  cbn [RQ.check_minimums app]. rewrite Z.geb_leb.
  now destruct (min_age <=? age)%Z.
Qed.

(** X22.  Only the first age found decides: [_is_age_eligible] answers by
    the first age range that any range pattern finds in the criteria text
    -- eligible exactly when the age lies in it -- and never looks at a
    second one; without any range it answers by the first minimum age
    found, and without any age at all the patient counts as eligible. *)
Theorem age_eligibility_decided_by_first_match
    (findall_ranges : string -> string -> list (Z * Z))
    (findall_ages : string -> string -> list Z)
    (trial : CT.RawTrialData) (age : Z) :
  RQ._is_age_eligible findall_ranges findall_ages trial age
  = match ranges_found findall_ranges trial with
    | (min_age, max_age) :: _ => ((min_age <=? age) && (age <=? max_age))%Z
    | [] =>
        match minimums_found findall_ages trial with
        | min_age :: _ => (min_age <=? age)%Z
        | [] => true
        end
    end.
Proof.
  unfold RQ._is_age_eligible, ranges_found, minimums_found. cbv zeta.
  rewrite (for_patterns_ranges
             (fun pattern => findall_ranges pattern
                               (PyStr.lower (CT.eligibility_criteria trial)))).
  rewrite (for_patterns_minimums
             (fun pattern => findall_ages pattern
                               (PyStr.lower (CT.eligibility_criteria trial)))).
  destruct (flat_map _ RQ.age_patterns) as [|[min_age max_age] more];
    [|reflexivity].
  now destruct (flat_map _ RQ.min_age_patterns).
Qed.
